(** * Make-It-Animatable: the request router and the worker service

    A shallow embedding of [server/router.py] (the round-robin dispatcher)
    and of [server/server.py] (the worker: authentication gate, mesh
    validation, pipeline invocation, response packaging and cleanup),
    together with the properties of the specification that concern them.

    Conventions of the embedding.
    - JSON documents are values of [json]; an object keeps its members in
      order, and a lookup returns the last member of a name, as Python's
      [json.loads] builds its dict.
    - A Python [float] is the 64-bit pattern of the IEEE-754 double it
      denotes; the code never computes with one.
    - Code that raises is a state transformer returning [Ok] or [Raise]:
      the effects made before a raise are kept, as in Python.
    - What the code imports and does not define (the HTTP client, the
      identity service, the mesh pipeline, the renderers, the base64
      codec, the write into a temporary file) is a parameter: the network
      of a dispatch is a function given with it, and the collaborators of
      the worker are the fields of the record [Worker.Env].  A stage of
      the pipeline and a renderer may raise any exception, an
      [HTTPException] too.  The theorems hold for every value of these
      parameters that satisfies their hypotheses. *)

From stdpp Require Import gmap strings list pretty sorting.
From Stdlib Require Import ZArith Lia.
From Stdlib.Strings Require Import Ascii Byte.

Open Scope string_scope.
Open Scope Z_scope.

(* ===================================================================== *)
(** * Shared data: JSON, exceptions, the request model                    *)
(* ===================================================================== *)

(** A Python float, as the bit pattern of its IEEE-754 binary64 value. *)
Definition float64 := Z.

Definition float_0_0 : float64 := 0.

#[local] Set Warnings "-register-all".
Inductive json : Type :=
| JNull
| JBool (b : bool)
| JInt (z : Z)
| JFloat (f : float64)
| JStr (s : string)
| JArr (items : list json)
| JObj (members : list (string * json)).

(** [d.get(k)] on the dict that [json.loads] builds from an object: a
    later member of the same name replaces an earlier one. *)
Fixpoint dict_get (k : string) (members : list (string * json)) : option json :=
  match members with
  | [] => None
  | (k', v) :: rest =>
      match dict_get k rest with
      | Some v' => Some v'
      | None => if String.eqb k k' then Some v else None
      end
  end.

(** [d.get(k, default)]. *)
Definition dict_get_default (k : string) (default : json)
    (members : list (string * json)) : json :=
  match dict_get k members with
  | Some v => v
  | None => default
  end.

(** The exception classes the two services meet.  The first three lines
    are the subclasses of [httpx.RequestError], which is what the HTTP
    client's [get] and [post] raise; all of them are leaves, so an [except]
    clause naming one matches that class alone.  [httpx.HTTPStatusError]
    is not listed: only [raise_for_status] raises it, inside the [try]
    that catches it, so it is modelled in place as a test of the status. *)
Inductive exc_class : Type :=
| ConnectError | ReadError | WriteError | CloseError
| ConnectTimeout | ReadTimeout | WriteTimeout | PoolTimeout
| LocalProtocolError | RemoteProtocolError
| ProxyError | UnsupportedProtocol
| DecodingError | TooManyRedirects
| JSONDecodeError | AttributeError | StopIteration
| RequestValidationError
| BinasciiError | OSError | FileNotFoundError | FileExistsError
| RuntimeError | ValueError
| OtherException (name : string).

(** The subclasses of [httpx.RequestError]. *)
Definition is_RequestError (c : exc_class) : bool :=
  match c with
  | ConnectError | ReadError | WriteError | CloseError
  | ConnectTimeout | ReadTimeout | WriteTimeout | PoolTimeout
  | LocalProtocolError | RemoteProtocolError
  | ProxyError | UnsupportedProtocol
  | DecodingError | TooManyRedirects => true
  | _ => false
  end.

(** A raised Python exception that is not the framework's
    [HTTPException]: its class and [str(e)]. *)
Record pyerr : Type := PyErr { err_class : exc_class; err_str : string }.

(** What a handler can raise: [fastapi.HTTPException(status_code, detail)],
    kept with the arguments it is built from, or any other exception. *)
Inductive exn : Type :=
| HTTPException (status_code : Z) (detail : json)
| PyError (e : pyerr).

Inductive outcome (A : Type) : Type :=
| Ok (a : A)
| Raise (e : exn).
Arguments Ok {A} a.
Arguments Raise {A} e.

(** An [httpx.Response], as far as the code reads it. *)
Record response : Type := mkResponse {
  resp_status_code : Z;
  resp_json : option json      (* [response.json()]; [None]: not JSON *)
}.

(** [animation_name: Literal["running", "jumping", "punching", "walking",
    "waving"]]. *)
Inductive AnimationName : Type :=
| running | jumping | punching | walking | waving.

Definition animation_name_str (a : AnimationName) : string :=
  match a with
  | running => "running"
  | jumping => "jumping"
  | punching => "punching"
  | walking => "walking"
  | waving => "waving"
  end.

Definition animation_names : list AnimationName :=
  [running; jumping; punching; walking; waving].

(** The literal a string denotes, if any. *)
Definition parse_animation_name (s : string) : option AnimationName :=
  snd <$> list_find (fun a => animation_name_str a = s) animation_names.

(** [class AnimationRequest(BaseModel)], the same in both services. *)
Record AnimationRequest : Type := mkAnimationRequest {
  mesh_b64_str : string;
  animation_name : AnimationName;
  is_gs : bool;
  opacity_threshold : float64;
  no_fingers : bool;
  rest_pose_type : option string;
  ignore_pose_parts : list string;
  input_normal : bool;
  bw_fix : bool;
  bw_vis_bone : string;
  reset_to_rest : bool;
  animation_file : option string;
  retarget : bool;
  inplace : bool
}.

Definition json_of_optional_str (o : option string) : json :=
  match o with
  | Some s => JStr s
  | None => JNull
  end.

(** [payload.model_dump()]: every field, in declaration order. *)
Definition model_dump (p : AnimationRequest) : json :=
  JObj [ ("mesh_b64_str", JStr (mesh_b64_str p));
         ("animation_name", JStr (animation_name_str (animation_name p)));
         ("is_gs", JBool (is_gs p));
         ("opacity_threshold", JFloat (opacity_threshold p));
         ("no_fingers", JBool (no_fingers p));
         ("rest_pose_type", json_of_optional_str (rest_pose_type p));
         ("ignore_pose_parts", JArr (JStr <$> ignore_pose_parts p));
         ("input_normal", JBool (input_normal p));
         ("bw_fix", JBool (bw_fix p));
         ("bw_vis_bone", JStr (bw_vis_bone p));
         ("reset_to_rest", JBool (reset_to_rest p));
         ("animation_file", json_of_optional_str (animation_file p));
         ("retarget", JBool (retarget p));
         ("inplace", JBool (inplace p)) ].

(** ** Validation of a request body against the model

    The framework validates the body before the handler runs.  Fields of
    type [str], [Optional[str]], [List[str]] and the [Literal] accept the
    JSON values of that shape only.  What is accepted for a [bool] and a
    [float] field (the validating library also converts some strings and
    numbers) is left to the two parameters [as_bool] and [as_float]. *)

Definition as_str (v : json) : option string :=
  match v with
  | JStr s => Some s
  | _ => None
  end.

Definition as_optional_str (v : json) : option (option string) :=
  match v with
  | JNull => Some None
  | JStr s => Some (Some s)
  | _ => None
  end.

Definition as_list_str (v : json) : option (list string) :=
  match v with
  | JArr items => mapM as_str items
  | _ => None
  end.

Definition as_animation_name (v : json) : option AnimationName :=
  match v with
  | JStr s => parse_animation_name s
  | _ => None
  end.

(** A field without default: must be present and valid. *)
Definition required {A} (conv : json -> option A) (k : string)
    (members : list (string * json)) : option A :=
  match dict_get k members with
  | Some v => conv v
  | None => None
  end.

(** A field with a default: the default when absent, else must be valid. *)
Definition with_default {A} (conv : json -> option A) (k : string) (default : A)
    (members : list (string * json)) : option A :=
  match dict_get k members with
  | Some v => conv v
  | None => Some default
  end.

Section Validation.

Variable as_bool : json -> option bool.
Variable as_float : json -> option float64.

Definition validate_AnimationRequest (body : json) : option AnimationRequest :=
  match body with
  | JObj m =>
      mesh ← required as_str "mesh_b64_str" m;
      name ← required as_animation_name "animation_name" m;
      gs ← with_default as_bool "is_gs" false m;
      opacity ← with_default as_float "opacity_threshold" float_0_0 m;
      nf ← with_default as_bool "no_fingers" false m;
      rest ← with_default as_optional_str "rest_pose_type" None m;
      ignore ← with_default as_list_str "ignore_pose_parts" [] m;
      normal ← with_default as_bool "input_normal" false m;
      bwfix ← with_default as_bool "bw_fix" true m;
      bone ← with_default as_str "bw_vis_bone" "LeftArm" m;
      reset ← with_default as_bool "reset_to_rest" true m;
      file ← with_default as_optional_str "animation_file" None m;
      retg ← with_default as_bool "retarget" true m;
      inpl ← with_default as_bool "inplace" true m;
      Some (mkAnimationRequest mesh name gs opacity nf rest ignore normal
              bwfix bone reset file retg inpl)
  | _ => None
  end.

End Validation.

(** The conversions that accept a JSON boolean and a JSON number as they
    are, and nothing else: the least the validating library accepts. *)
Definition strict_bool (v : json) : option bool :=
  match v with
  | JBool b => Some b
  | _ => None
  end.

Definition strict_float (v : json) : option float64 :=
  match v with
  | JFloat f => Some f
  | _ => None
  end.

(* ===================================================================== *)
(** * The dispatcher: [server/router.py]                                  *)
(* ===================================================================== *)

Module Router.

(** [WORKER_TIMEOUT = 300.0], and how an f-string prints it. *)
Definition WORKER_TIMEOUT : float64 := 0x4072C00000000000.
Definition WORKER_TIMEOUT_str : string := "300.0".

(** ** [itertools.cycle]

    The iterator first yields the items of its argument, saving each,
    and then yields the saved items over and over. *)
Record cycle (A : Type) : Type := mkCycle {
  cy_source : list A;   (* what is left of the argument *)
  cy_saved : list A;
  cy_index : nat
}.
Arguments mkCycle {A} _ _ _.
Arguments cy_source {A} _.
Arguments cy_saved {A} _.
Arguments cy_index {A} _.

Definition cycle_new {A} (iterable : list A) : cycle A :=
  mkCycle iterable [] 0%nat.

(** [next(c)]; [None] is [StopIteration]. *)
Definition cycle_next {A} (c : cycle A) : option A * cycle A :=
  match cy_source c with
  | x :: rest => (Some x, mkCycle rest (cy_saved c ++ [x])%list (cy_index c))
  | [] =>
      match cy_saved c !! cy_index c with
      | Some x =>
          let i := S (cy_index c) in
          (Some x,
           mkCycle [] (cy_saved c)
                   (if (i <? length (cy_saved c))%nat then i else 0%nat))
      | None => (None, c)
      end
  end.

(** The position in the pool of the item that [next] yields next. *)
Definition cursor {A} (c : cycle A) : nat :=
  match cy_source c with
  | [] => cy_index c
  | _ :: _ => length (cy_saved c)
  end.

(** ** [create_app] *)

(** [app.state]. *)
Record app_state : Type := mkAppState {
  worker_servers : list string;
  server_cycle : cycle string
}.

Definition worker_ports (env : string) : list Z :=
  if String.eqb env "dev" then [8001; 8002; 8003] else [9001; 9002; 9003].

(** The part of [create_app] below the choice of the ports: [None] is
    [sys.exit(1)] on an empty pool. *)
Definition configure (worker_servers_list : list string) : option app_state :=
  match worker_servers_list with
  | [] => None
  | _ :: _ =>
      Some (mkAppState worker_servers_list (cycle_new worker_servers_list))
  end.

Definition create_app (env : string) : option app_state :=
  configure ((fun p => "http://localhost:" +:+ pretty p) <$> worker_ports env).

(** ** The inbound request and the forwarded call *)

(** [request.headers]: the names arrive in lower case, a lookup returns
    the first header of the name. *)
Fixpoint headers_get (k : string) (hs : list (string * string)) : option string :=
  match hs with
  | [] => None
  | (k', v) :: rest => if String.eqb k k' then Some v else headers_get k rest
  end.

Record Request : Type := mkRequest {
  headers : list (string * string);
  body : json
}.

(** The arguments of [client.post]. *)
Record post_call : Type := mkPost {
  post_url : string;
  post_json : json;
  post_headers : list (string * string);
  post_timeout : float64
}.

Inductive post_result : Type :=
| Responded (r : response)
| Failed (e : pyerr).

(** [response.is_success], the test of [raise_for_status]. *)
Definition is_success (status : Z) : bool :=
  (200 <=? status) && (status <=? 299).

(** The router: [app.state], and the calls forwarded so far (a ghost
    record of the arguments given to [client.post]). *)
Record router : Type := mkRouter {
  app : app_state;
  forwarded : list post_call
}.

Definition start (a : app_state) : router := mkRouter a [].

Definition unknown_worker_error : string :=
  "An unknown error occurred on the worker server.".

Definition headers_to_forward (request : Request) : list (string * string) :=
  let h := [("Content-Type", "application/json")] in
  let h :=
    match headers_get "authorization" (headers request) with
    | Some v => (h ++ [("Authorization", v)])%list
    | None => h
    end in
  match headers_get "x-api-key" (headers request) with
  | Some v => (h ++ [("x-api-key", v)])%list
  | None => h
  end.

(** What the handler does with the result of [client.post]: the body of
    the [try], its three [except] clauses, and the final [return]. *)
Definition relay (worker_url : string) (r : post_result) : outcome (Z * json) :=
  match r with
  | Failed e =>
      match err_class e with
      | ConnectError =>
          Raise (HTTPException 503 (JStr (
            "Could not connect to worker server at " +:+ worker_url +:+
            ". The service may be down. Error: " +:+ err_str e)))
      | ReadTimeout =>
          Raise (HTTPException 504 (JStr (
            "Request to worker server at " +:+ worker_url +:+
            " timed out after " +:+ WORKER_TIMEOUT_str +:+
            " seconds. Error: " +:+ err_str e)))
      | _ => Raise (PyError e)
      end
  | Responded resp =>
      if is_success (resp_status_code resp) then
        match resp_json resp with
        | Some content => Ok (resp_status_code resp, content)
        | None => Raise (PyError (PyErr JSONDecodeError "Expecting value"))
        end
      else
        match resp_json resp with
        | Some (JObj worker_response_body) =>
            Raise (HTTPException (resp_status_code resp)
                     (dict_get_default "detail" (JStr unknown_worker_error)
                        worker_response_body))
        | Some _ =>
            Raise (PyError (PyErr AttributeError "object has no attribute 'get'"))
        | None => Raise (PyError (PyErr JSONDecodeError "Expecting value"))
        end
  end.

Section Handler.

(** The worker pool behind [client.post], for one call. *)
Variable post : post_call -> post_result.

Definition route_animation_request (payload : AnimationRequest)
    (request : Request) (st : router) : outcome (Z * json) * router :=
  match cycle_next (server_cycle (app st)) with
  | (None, _) => (Raise (PyError (PyErr StopIteration "")), st)
  | (Some worker_url, cyc) =>
      let forward_url := worker_url +:+ "/animate" in
      let call :=
        mkPost forward_url (model_dump payload)
               (headers_to_forward request) WORKER_TIMEOUT in
      (relay worker_url (post call),
       mkRouter (mkAppState (worker_servers (app st)) cyc)
                (forwarded st ++ [call])%list)
  end.

Variable as_bool : json -> option bool.
Variable as_float : json -> option float64.

(** [POST /animate]: the framework validates the body against
    [AnimationRequest] and calls the handler with the model; a body
    that does not validate is answered 422 and the handler does not
    run. *)
Definition post_animate (request : Request) (st : router)
    : outcome (Z * json) * router :=
  match validate_AnimationRequest as_bool as_float (body request) with
  | Some payload => route_animation_request payload request st
  | None => (Raise (PyError (PyErr RequestValidationError "422")), st)
  end.

End Handler.

(** A run of dispatches, one after the other: each comes with the
    behaviour of the network during it. *)
Fixpoint dispatch_all
    (calls : list ((post_call -> post_result) * AnimationRequest * Request))
    (st : router) : router :=
  match calls with
  | [] => st
  | (post, payload, request) :: rest =>
      dispatch_all rest (snd (route_animation_request post payload request st))
  end.

(** [GET /health]. *)
Definition health_check (a : app_state) : json :=
  JObj [ ("status", JStr "ok");
         ("message", JStr "Router is active.");
         ("configured_workers", JArr (JStr <$> worker_servers a)) ].

(** Requests as they arrive at [POST /animate], one after the other,
    each with the behaviour of the network during it. *)
Fixpoint serve_all (as_bool : json -> option bool)
    (as_float : json -> option float64)
    (requests : list ((post_call -> post_result) * Request))
    (st : router) : router :=
  match requests with
  | [] => st
  | (post, request) :: rest =>
      serve_all as_bool as_float rest
        (snd (post_animate post as_bool as_float request st))
  end.

End Router.

(* ===================================================================== *)
(** * The worker: [server/server.py]                                      *)
(* ===================================================================== *)

Module Worker.

(** ** Files *)

(** A path is the list of its components below the root, as [pathlib]
    splits it. *)
Abbreviation path := (list string).

Inductive node : Type :=
| File (content : list byte)
| Dir.

Abbreviation filesystem := (gmap (list string) node).

(** [str(p)]. *)
Fixpoint path_str (p : path) : string :=
  match p with
  | [] => ""
  | c :: rest => "/" +:+ c +:+ path_str rest
  end.

(** [p.parent] and [p.name]. *)
Definition parent (p : path) : path := removelast p.
Definition name (p : path) : string := List.last p "".

(** [s.rfind(c)]. *)
Fixpoint rfind (c : Ascii.ascii) (s : string) : option nat :=
  match s with
  | EmptyString => None
  | String a rest =>
      match rfind c rest with
      | Some i => Some (S i)
      | None => if Ascii.eqb a c then Some 0%nat else None
      end
  end.

(** [p.stem]: the name without its last suffix. *)
Definition stem (p : path) : string :=
  let n := name p in
  match rfind "."%char n with
  | Some i =>
      if ((0 <? i) && (i <? String.length n - 1))%nat
      then String.substring 0 i n else n
  | None => n
  end.

Definition exists_ (fs : filesystem) (p : path) : bool :=
  match fs !! p with
  | Some _ => true
  | None => false
  end.

Definition isfile (fs : filesystem) (p : path) : bool :=
  match fs !! p with
  | Some (File _) => true
  | _ => false
  end.

Definition isdir (fs : filesystem) (p : path) : bool :=
  match fs !! p with
  | Some Dir => true
  | _ => false
  end.

(** [os.unlink(p)]. *)
Definition unlink (p : path) (fs : filesystem) : filesystem := delete p fs.

(** [shutil.rmtree(d)]: [d] and everything below it. *)
Definition rmtree (d : path) (fs : filesystem) : filesystem :=
  filter (fun entry => ¬ d `prefix_of` entry.1) fs.

(** [os.makedirs(p, exist_ok=True)]: the missing directories on the way
    to [p], from the root down; it stops with an error at a component
    that is a file, keeping the directories made before it. *)
Fixpoint makedirs_from (made : path) (todo : list string) (fs : filesystem)
    : option pyerr * filesystem :=
  match todo with
  | [] => (None, fs)
  | c :: rest =>
      let d := (made ++ [c])%list in
      match fs !! d with
      | Some (File _) => (Some (PyErr FileExistsError (path_str d)), fs)
      | Some Dir => makedirs_from d rest fs
      | None => makedirs_from d rest (<[d := Dir]> fs)
      end
  end.

Definition makedirs (p : path) (fs : filesystem) : option pyerr * filesystem :=
  makedirs_from [] p fs.

(** ** The state of a worker process and of the machine around it *)

Record vis_blender_args : Type := mkVisBlender {
  vb_reset_to_rest : bool;
  vb_remove_fingers : bool;
  vb_rest_pose_type : string;
  vb_ignore_pose_parts : list string;
  vb_animation_file : string;
  vb_retarget : bool;
  vb_inplace : bool
}.

(** What a request does to the outside, in order: the calls to the
    identity service, the changes the worker's own code makes to the
    disk, and the calls into the pipeline and the renderers with their
    arguments. *)
Inductive event : Type :=
| EvGet (url header_name header_value : string)
| EvMkTemp (p : path)
| EvUnlink (p : path)
| EvMakedirs (p : path)
| EvRmtree (p : path)
| EvPrepareInput (input_path : path) (is_gs : bool)
    (opacity_threshold : float64) (export_temp : bool)
| EvPreprocess
| EvInfer (arg : bool)
| EvVis (arg1 : bool) (bone : string) (arg2 : bool)
| EvVisBlender (args : vis_blender_args)
| EvRenderThumbnail (glb_path output_image_path : path)
| EvRenderFrames (glb_path output_dir : path).

Record world : Type := mkWorld {
  fs : gmap (list string) node;
  (** the memory cache of the decorator: the value and when it expires *)
  cache : gmap (string * string) (json * Z);
  (** the time, in seconds *)
  clock : Z;
  log : list event
}.

Definition set_fs (f : filesystem) (w : world) : world :=
  mkWorld f (cache w) (clock w) (log w).
Definition set_cache (c : gmap (string * string) (json * Z)) (w : world) : world :=
  mkWorld (fs w) c (clock w) (log w).
Definition set_clock (t : Z) (w : world) : world :=
  mkWorld (fs w) (cache w) t (log w).
Definition emit (e : event) (w : world) : world :=
  mkWorld (fs w) (cache w) (clock w) (log w ++ [e])%list.

(** ** Computations that change the world and may raise *)

Definition M (A : Type) : Type := world -> outcome A * world.

Definition ret {A} (a : A) : M A := fun w => (Ok a, w).
Definition raise {A} (e : exn) : M A := fun w => (Raise e, w).
Definition bind {A B} (m : M A) (k : A -> M B) : M B :=
  fun w =>
    match m w with
    | (Ok a, w') => k a w'
    | (Raise e, w') => (Raise e, w')
    end.

Notation "'let*' x ':=' m 'in' k" := (bind m (fun x => k))
  (at level 10, x name, m at level 100, k at level 200).

(** A collaborator reads and changes the disk, and returns or raises:
    any exception, an [HTTPException] too. *)
Definition ext (A : Type) : Type := filesystem -> (exn + A) * filesystem.

(** The call of a collaborator, recorded. *)
Definition call_ext {A} (ev : event) (f : ext A) (w : world)
    : (exn + A) * world :=
  let w := emit ev w in
  let '(r, fs') := f (fs w) in
  (r, set_fs fs' w).

Definition call {A} (ev : event) (f : ext A) : M A :=
  fun w =>
    match call_ext ev f w with
    | (inr a, w') => (Ok a, w')
    | (inl e, w') => (Raise e, w')
    end.

(** The result of a GET at the identity service. *)
Inductive get_result : Type :=
| GetResponded (resp : response)
| GetFailed (e : pyerr).

(** ** The collaborators

    What [server.py] imports and calls but does not define. *)
Record Env : Type := mkEnv {
  (** [Path(__file__).parent/..], made absolute *)
  PARENT_DIR : path;
  base64_b64decode : string -> pyerr + list byte;
  base64_b64encode : list byte -> string;
  (** the identity service: what a GET answers at a time, for a URL
      and a header *)
  identity_get : Z -> string -> string -> string -> get_result;
  (** the name [tempfile] draws for a new file *)
  tempfile_name : filesystem -> string;
  (** [write] and [flush] on the new file: [None] if all the bytes
      reach it, else the error raised and the bytes that did *)
  file_write : filesystem -> path -> list byte -> option (pyerr * list byte);
  (** [str(e)] of an [HTTPException], which is Starlette's *)
  HTTPException_str : Z -> json -> string;
  (** [app.DB] and the attribute of it the worker reads; [None] stands
      for a false value ([None] or the empty string) *)
  DB : Type;
  DB_new : DB;
  anim_vis_path : DB -> option path;
  (** the stages of the pipeline; each works on the [DB] in place *)
  prepare_input : path -> bool -> float64 -> bool -> DB -> ext DB;
  preprocess : DB -> ext DB;
  infer : bool -> DB -> ext DB;
  vis : bool -> string -> bool -> DB -> ext DB;
  vis_blender : vis_blender_args -> DB -> ext DB;
  (** [util.render_thumbnail] and [util.render_glb_frames]; the second
      returns the path of the GIF, or a false value *)
  render_thumbnail : path -> path -> ext unit;
  render_frames : path -> path -> ext (option path)
}.

Section Service.

Variable E : Env.

(** ** The authentication gate *)

Definition endpoints : list string :=
  [ "https://api.csm.ai/user/userdata";
    "https://devapi.csm.ai/user/userdata" ].

(** The [for url in endpoints] loop, and the [raise] below it. *)
Fixpoint get_userdata (urls : list string) (header_name header_value : string)
    : M json :=
  match urls with
  | [] => raise (HTTPException 403 (JStr "Invalid credentials"))
  | url :: rest =>
      fun w =>
        let w := emit (EvGet url header_name header_value) w in
        match identity_get E (clock w) url header_name header_value with
        | GetResponded resp =>
            if resp_status_code resp =? 200 then
              match resp_json resp with
              | Some user => (Ok user, w)
              | None =>
                  (Raise (PyError (PyErr JSONDecodeError "Expecting value")), w)
              end
            else get_userdata rest header_name header_value w
        | GetFailed e =>
            if is_RequestError (err_class e)
            then get_userdata rest header_name header_value w
            else (Raise (PyError e), w)
        end
  end.

(** The body of [_fetch_user_data_from_api], without its decorator. *)
Definition fetch_user_data (header_name header_value : string) : M json :=
  get_userdata endpoints header_name header_value.

(** The memory cache: an entry is gone once its time to live is over. *)
Definition cache_get (key : string * string) (w : world) : option json :=
  match cache w !! key with
  | Some (value, expires) => if clock w <? expires then Some value else None
  | None => None
  end.

Definition cache_set (key : string * string) (value : json) (ttl : Z)
    (w : world) : world :=
  set_cache (<[key := (value, clock w + ttl)]> (cache w)) w.

(** [@cached(ttl=..., cache=Cache.MEMORY)] on a function of two
    strings: a cached value that is not [None] is returned; otherwise
    the function runs and, if it returns, its result is stored. *)
Definition cached (ttl : Z) (f : string -> string -> M json)
    (a b : string) : M json :=
  fun w =>
    let miss :=
      match f a b w with
      | (Ok result, w') => (Ok result, cache_set (a, b) result ttl w')
      | (Raise e, w') => (Raise e, w')
      end in
    match cache_get (a, b) w with
    | Some JNull => miss
    | Some value => (Ok value, w)
    | None => miss
    end.

Definition _fetch_user_data_from_api : string -> string -> M json :=
  cached 300 fetch_user_data.

(** The truth value of an [Optional[str]]. *)
Definition truthy (o : option string) : bool :=
  match o with
  | Some s => negb (String.eqb s "")
  | None => false
  end.

(** [_verify_api_key], for a given way to fetch the user data. *)
Definition verify_api_key_with (fetch : string -> string -> M json)
    (x_api_key authorization : option string) : M json :=
  let credential :=
    if truthy x_api_key then pair "x-api-key" <$> x_api_key
    else if truthy authorization then pair "Authorization" <$> authorization
    else None in
  match credential with
  | None => raise (HTTPException 401 (JStr "Missing auth header"))
  | Some (name, value) =>
      fun w =>
        match fetch name value w with
        | (Ok user, w') => (Ok user, w')
        | (Raise (HTTPException status detail), w') =>
            (Raise (HTTPException status detail), w')
        | (Raise (PyError e), w') =>
            (Raise (HTTPException 500
                      (JStr ("Auth check failed: " +:+ err_str e))), w')
        end
  end.

Definition _verify_api_key : option string -> option string -> M json :=
  verify_api_key_with _fetch_user_data_from_api.

(** The gate as the specification describes it without its cache. *)
Definition verify_without_cache : option string -> option string -> M json :=
  verify_api_key_with fetch_user_data.

(** ** Preparing the mesh *)

Definition glTF : list byte := String.list_byte_of_string "glTF".
Definition Kaydara_FBX : list byte := String.list_byte_of_string "Kaydara FBX".

Fixpoint bytes_eqb (a b : list byte) : bool :=
  match a, b with
  | [], [] => true
  | x :: a', y :: b' => Byte.eqb x y && bytes_eqb a' b'
  | _, _ => false
  end.

(** [data.startswith(sig)]. *)
Fixpoint startswith (data sig : list byte) {struct sig} : bool :=
  match sig, data with
  | [], _ => true
  | s :: sig', d :: data' => Byte.eqb d s && startswith data' sig'
  | _ :: _, [] => false
  end.

(** The extension read off the first bytes; [None] is the
    [HTTPException(400, "Unsupported mesh format...")] of the [else]. *)
Definition mesh_ext (mesh_bytes : list byte) : option string :=
  if bytes_eqb (take 4 mesh_bytes) glTF then Some ".glb"
  else if startswith mesh_bytes Kaydara_FBX then Some ".fbx"
  else None.

(** [with tempfile.NamedTemporaryFile(suffix=..., dir=..., delete=False)
    as tmp_input] with its body: the file is made, empty, under a name
    not in use; then [write] and [flush] fill it; then its name is
    taken.  When the write raises, the [with] closes the file, which
    stays where it is ([delete=False]) with what has reached it, and
    the name has not been taken. *)
Definition NamedTemporaryFile (suffix : string) (dir : path)
    (content : list byte) (w : world) : (pyerr + path) * world :=
  let p := (dir ++ [tempfile_name E (fs w) +:+ suffix])%list in
  match fs w !! p with
  | Some _ =>
      (inl (PyErr FileExistsError "No usable temporary file name found"), w)
  | None =>
      let w := emit (EvMkTemp p) (set_fs (<[p := File []]> (fs w)) w) in
      match file_write E (fs w) p content with
      | Some (e, written) =>
          (inl e, set_fs (<[p := File written]> (fs w)) w)
      | None => (inr p, set_fs (<[p := File content]> (fs w)) w)
      end
  end.

(** [str(e)] for an exception. *)
Definition exn_str (e : exn) : string :=
  match e with
  | PyError e => err_str e
  | HTTPException status_code detail => HTTPException_str E status_code detail
  end.

(** The file [_prepare_input_memory] makes in world [w] for a mesh of
    extension [ext]. *)
Definition scratch_path (ext : string) (w : world) : path :=
  ["dev"; "shm"; tempfile_name E (fs w) +:+ ext].

(** The [finally] of [_prepare_input_memory]. *)
Definition cleanup_input (input_filepath : option path) (w : world) : world :=
  match input_filepath with
  | Some p =>
      if exists_ (fs w) p
      then emit (EvUnlink p) (set_fs (unlink p (fs w)) w)
      else w
  | None => w
  end.

Definition empty_mesh_detail : string :=
  "Received empty mesh data. The 'mesh_b64_str' field in the request payload cannot be empty.".

Definition unsupported_mesh_detail : string :=
  "Unsupported mesh format. Supported: .glb or .fbx".

Definition _prepare_input_memory (mesh_bytes : list byte) (db : DB E)
    : M (DB E) :=
  match mesh_bytes with
  | [] => raise (HTTPException 400 (JStr empty_mesh_detail))
  | _ :: _ =>
      match mesh_ext mesh_bytes with
      | None => raise (HTTPException 400 (JStr unsupported_mesh_detail))
      | Some ext =>
          fun w =>
            (* try *)
            let '(input_filepath, r, w) :=
              match NamedTemporaryFile ext ["dev"; "shm"] mesh_bytes w with
              | (inl e, w) => (None, inl (PyError e), w)
              | (inr p, w) =>
                  let '(r, w) :=
                    call_ext (EvPrepareInput p false float_0_0 false)
                      (prepare_input E p false float_0_0 false db) w in
                  (Some p, r, w)
              end in
            (* except Exception as e *)
            let r :=
              match r with
              | inr db => Ok db
              | inl e =>
                  Raise (HTTPException 500
                           (JStr ("Mesh preparation failed: " +:+ exn_str e)))
              end in
            (* finally *)
            (r, cleanup_input input_filepath w)
      end
  end.

(** ** The pipeline *)

Definition data_dir : path :=
  ["home"; "ray"; "csm"; "models"; "make_it_animatable"; "data"].

Definition run_pipeline (mesh_bytes : list byte) (animation_name : string)
    : M (DB E) :=
  let db := DB_new E in
  let* db := _prepare_input_memory mesh_bytes db in
  let* db := call EvPreprocess (preprocess E db) in
  let* db := call (EvInfer false) (infer E false db) in
  let* db := call (EvVis true "LeftArm" false) (vis E true "LeftArm" false db) in
  let args :=
    mkVisBlender true false "" []
      (path_str (data_dir ++ [animation_name +:+ ".fbx"])) true true in
  let* db := call (EvVisBlender args) (vis_blender E args db) in
  ret db.

(** ** [animate] *)

Definition set_animation_file (file : option string) (p : AnimationRequest)
    : AnimationRequest :=
  mkAnimationRequest (mesh_b64_str p) (animation_name p) (is_gs p)
    (opacity_threshold p) (no_fingers p) (rest_pose_type p)
    (ignore_pose_parts p) (input_normal p) (bw_fix p) (bw_vis_bone p)
    (reset_to_rest p) file (retarget p) (inplace p).

(** The inner [try] around [run_pipeline] and its two [except]
    clauses. *)
Definition pipeline_step (payload : AnimationRequest) : M (DB E) :=
  fun w =>
    let '(r, w) :=
      match base64_b64decode E (mesh_b64_str payload) with
      | inl e => (Raise (PyError e), w)
      | inr mesh_bytes =>
          run_pipeline mesh_bytes
            (animation_name_str (animation_name payload)) w
      end in
    match r with
    | Ok db => (Ok db, w)
    | Raise (HTTPException status detail) =>
        (Raise (HTTPException status detail), w)
    | Raise (PyError e) =>
        (Raise (HTTPException 500 (JStr ("Pipeline failed: " +:+ err_str e))), w)
    end.

(** The paths of the render artifacts. *)
Definition render_output_dir (glb_path : path) : path :=
  (parent glb_path ++ [stem glb_path +:+ "_render_output"])%list.
Definition frames_output_dir (glb_path : path) : path :=
  (render_output_dir glb_path ++ ["frames"])%list.
Definition thumbnail_output_path (glb_path : path) : path :=
  (render_output_dir glb_path ++ [stem glb_path +:+ "_thumbnail.png"])%list.

(** The [try] around the two renderers, whose [except] only logs: the
    value of [gif_path] after it. *)
Definition render_previews (glb_path : path) (w : world)
    : option path * world :=
  let w := emit (EvMakedirs (frames_output_dir glb_path)) w in
  match makedirs (frames_output_dir glb_path) (fs w) with
  | (Some _, fs') => (None, set_fs fs' w)
  | (None, fs') =>
      let w := set_fs fs' w in
      match call_ext
              (EvRenderThumbnail glb_path (thumbnail_output_path glb_path))
              (render_thumbnail E glb_path (thumbnail_output_path glb_path))
              w with
      | (inl _, w) => (None, w)
      | (inr _, w) =>
          match call_ext
                  (EvRenderFrames glb_path (frames_output_dir glb_path))
                  (render_frames E glb_path (frames_output_dir glb_path))
                  w with
          | (inl _, w) => (None, w)
          | (inr gif_path, w) => (gif_path, w)
          end
      end
  end.

(** [base64.b64encode(f.read()).decode("utf-8")] if the path is set and
    is a file, else [None]. *)
Definition encode_file (fs : filesystem) (p : option path) : json :=
  match p with
  | Some p =>
      match fs !! p with
      | Some (File content) => JStr (base64_b64encode E content)
      | _ => JNull
      end
  | None => JNull
  end.

Definition response_data (fs : filesystem)
    (glb_path gif_path thumbnail_path : option path) : json :=
  JObj [ ("mesh_base64", encode_file fs glb_path);
         ("gif_base64", encode_file fs gif_path);
         ("thumbnail_base64", encode_file fs thumbnail_path) ].

(** The outer [try]: the result, and the value of [output_dir] when it
    is left. *)
Definition animate_body (payload : AnimationRequest) (w : world)
    : option path * outcome json * world :=
  match pipeline_step payload w with
  | (Raise e, w) => (None, Raise e, w)
  | (Ok db, w) =>
      match anim_vis_path E db with
      | Some glb_path =>
          if isfile (fs w) glb_path then
            let '(gif_path, w) := render_previews glb_path w in
            (Some (render_output_dir glb_path),
             Ok (response_data (fs w) (Some glb_path) gif_path
                   (Some (thumbnail_output_path glb_path))),
             w)
          else
            (None,
             Raise (HTTPException 500 (JStr "No GLB file was produced.")), w)
      | None =>
          (None,
           Raise (HTTPException 500 (JStr "No GLB file was produced.")), w)
      end
  end.

(** The [finally] of [animate]. *)
Definition cleanup_render (output_dir : option path) (w : world) : world :=
  match output_dir with
  | Some d =>
      if isdir (fs w) d
      then emit (EvRmtree d) (set_fs (rmtree d (fs w)) w)
      else w
  | None => w
  end.

Definition animation_file_path (payload : AnimationRequest) : path :=
  (PARENT_DIR E ++
    ["animation-fbx-files";
     animation_name_str (animation_name payload) +:+ ".fbx"])%list.

Definition animate (payload : AnimationRequest) : M json :=
  fun w =>
    if negb (exists_ (fs w) (animation_file_path payload)) then
      (Raise (HTTPException 404
                (JStr ("Animation file not found: " +:+
                       path_str (animation_file_path payload)))), w)
    else
      let payload :=
        set_animation_file
          (Some (path_str (animation_file_path payload))) payload in
      let '(output_dir, r, w) := animate_body payload w in
      (r, cleanup_render output_dir w).

(** How the framework reads the booleans and the numbers of a body. *)
Variable as_bool : json -> option bool.
Variable as_float : json -> option float64.

(** [POST /animate], for a body that is JSON: the dependency
    [_verify_api_key] runs first; then the framework validates the
    body against [AnimationRequest], and a body that does not
    validate is answered 422 without the handler; then the handler
    runs on the model. *)
Definition post_animate (x_api_key authorization : option string)
    (body : json) : M json :=
  let* _ := _verify_api_key x_api_key authorization in
  match validate_AnimationRequest as_bool as_float body with
  | Some payload => animate payload
  | None => raise (PyError (PyErr RequestValidationError "422"))
  end.

End Service.

End Worker.

(* ===================================================================== *)
(** * Vocabulary of the statements                                        *)
(* ===================================================================== *)

(** ** The dispatcher *)

Module RouterSpec.

Import Router.

(** The iterator of [itertools.cycle(pool)] after [k] calls of [next]. *)
Definition cycle_at {A} (pool : list A) (k : nat) : cycle A :=
  if (k <? length pool)%nat
  then mkCycle (drop k pool) (take k pool) 0%nat
  else mkCycle [] pool (k mod length pool)%nat.

(** The call forwarded by the dispatch number [i] of a router started
    on [pool]. *)
Definition call_at (pool : list string) (i : nat)
    (c : (post_call -> post_result) * AnimationRequest * Request)
    : option post_call :=
  (fun worker_url =>
     mkPost (worker_url +:+ "/animate") (model_dump c.1.2)
            (headers_to_forward c.2) WORKER_TIMEOUT)
  <$> pool !! (i mod length pool)%nat.

(** The requests of a run that validate, each with its model. *)
Definition accepted (as_bool : json -> option bool)
    (as_float : json -> option float64)
    (requests : list ((post_call -> post_result) * Request))
    : list ((post_call -> post_result) * AnimationRequest * Request) :=
  omap (fun r =>
          (fun payload => (r.1, payload, r.2))
          <$> validate_AnimationRequest as_bool as_float (body r.2))
       requests.

(** The call a dispatch forwards to a worker. *)
Definition forwarded_call (worker_url : string) (payload : AnimationRequest)
    (request : Request) : post_call :=
  mkPost (worker_url +:+ "/animate") (model_dump payload)
         (headers_to_forward request) WORKER_TIMEOUT.

End RouterSpec.

(** ** The worker *)

Module WorkerSpec.

Import Worker.

(** A JSON value that is [null] or a string. *)
Definition null_or_str (j : json) : Prop := j = JNull \/ exists s, j = JStr s.

Section Spec.

Variable E : Env.

(** A collaborator that puts no file at [p] where none is. *)
Definition keeps_no_file (p : path) {A} (f : ext A) : Prop :=
  forall fs, isfile fs p = false -> isfile (f fs).2 p = false.

(** The stages after [prepare_input], and the renderers as [animate]
    calls them, put no file at [p]. *)
Definition later_stages_keep (p : path) : Prop :=
  (forall db, keeps_no_file p (preprocess E db)) /\
  (forall b db, keeps_no_file p (infer E b db)) /\
  (forall b s c db, keeps_no_file p (vis E b s c db)) /\
  (forall args db, keeps_no_file p (vis_blender E args db)) /\
  (forall glb,
     keeps_no_file p (render_thumbnail E glb (thumbnail_output_path glb))) /\
  (forall glb,
     keeps_no_file p (render_frames E glb (frames_output_dir glb))).

(** The renderers, as [animate] calls them, leave the artifact they
    read as it is. *)
Definition renderers_keep (glb_path : path) : Prop :=
  (forall fs0,
     (render_thumbnail E glb_path (thumbnail_output_path glb_path) fs0).2
       !! glb_path
     = fs0 !! glb_path) /\
  (forall fs0,
     (render_frames E glb_path (frames_output_dir glb_path) fs0).2
       !! glb_path
     = fs0 !! glb_path).

(** The events of [run_pipeline] for an animation name. *)
Inductive pipeline_event (animation_name : string) : event -> Prop :=
| pe_mktemp p : pipeline_event animation_name (EvMkTemp p)
| pe_prepare p :
    pipeline_event animation_name (EvPrepareInput p false float_0_0 false)
| pe_unlink p : pipeline_event animation_name (EvUnlink p)
| pe_preprocess : pipeline_event animation_name EvPreprocess
| pe_infer : pipeline_event animation_name (EvInfer false)
| pe_vis : pipeline_event animation_name (EvVis true "LeftArm" false)
| pe_vis_blender :
    pipeline_event animation_name
      (EvVisBlender
         (mkVisBlender true false "" []
            (path_str (data_dir ++ [animation_name +:+ ".fbx"])) true true)).

(** The events of the render step for an artifact. *)
Inductive render_event (glb_path : path) : event -> Prop :=
| re_makedirs :
    render_event glb_path (EvMakedirs (frames_output_dir glb_path))
| re_thumbnail :
    render_event glb_path
      (EvRenderThumbnail glb_path (thumbnail_output_path glb_path))
| re_frames :
    render_event glb_path
      (EvRenderFrames glb_path (frames_output_dir glb_path)).

(** The events of a whole request, given the directory of the render
    artifacts when the handler is left. *)
Definition animate_event (animation_name : string)
    (output_dir : option path) (ev : event) : Prop :=
  pipeline_event animation_name ev \/
  (exists glb_path,
     output_dir = Some (render_output_dir glb_path) /\
     render_event glb_path ev) \/
  (exists d, output_dir = Some d /\ ev = EvRmtree d).

(** The events that concern the scratch file: its creation, and the
    call of [prepare_input], which is made once its bytes are written
    and its name is taken. *)
Definition is_mktemp (ev : event) : Prop :=
  match ev with
  | EvMkTemp _ | EvPrepareInput _ _ _ _ => True
  | _ => False
  end.

(** What a run from [w] to [w'] has done: its events are in [P], and a
    scratch file it has made and given to [prepare_input] is gone,
    unless a later stage has put a file there again. *)
Definition traced (P : event -> Prop) (w w' : world) : Prop :=
  exists evs,
    log w' = (log w ++ evs)%list /\ Forall P evs /\
    (forall p, In (EvMkTemp p) evs ->
               In (EvPrepareInput p false float_0_0 false) evs ->
               later_stages_keep p ->
               isfile (fs w') p = false).

(** [w'] comes after [w] by steps that do not concern a scratch file: the log
    grows by events in [P], and no file appears at a path the later
    stages keep free. *)
Definition follows (P : event -> Prop) (w w' : world) : Prop :=
  (exists evs, log w' = (log w ++ evs)%list /\ Forall P evs /\
               Forall (fun ev => ~ is_mktemp ev) evs) /\
  (forall p, later_stages_keep p ->
             isfile (fs w) p = false -> isfile (fs w') p = false).

(** ** The authentication gate *)

(** An endpoint fails a credential: it answers another status than
    200, or the request fails. *)
Definition endpoint_fails (t : Z) (url header_name header_value : string)
    : Prop :=
  match identity_get E t url header_name header_value with
  | GetResponded resp => resp_status_code resp <> 200
  | GetFailed e => is_RequestError (err_class e) = true
  end.

(** Verifications one after the other, each at its time. *)
Fixpoint verify_all (verify : option string -> option string -> M json)
    (calls : list (Z * option string * option string)) (w : world)
    : list (outcome json) * world :=
  match calls with
  | [] => ([], w)
  | (t, x_api_key, authorization) :: rest =>
      let '(r, w) := verify x_api_key authorization (set_clock t w) in
      let '(rs, w) := verify_all verify rest w in
      (r :: rs, w)
  end.

(** The time does not run backwards over the calls. *)
Fixpoint in_order (t : Z) (calls : list (Z * option string * option string))
    : Prop :=
  match calls with
  | [] => True
  | (t', _, _) :: rest => t <= t' /\ in_order t' rest
  end.

(** What the service answers a credential at a time, as the
    undecorated function reports it. *)
Definition fetched (t : Z) (header_name header_value : string)
    : outcome json :=
  fst (fetch_user_data E header_name header_value (mkWorld ∅ ∅ t [])).

(** The credential a verification presents, if any: the API key
    before the [Authorization] header. *)
Definition credential (x_api_key authorization : option string)
    : option (string * string) :=
  if truthy x_api_key then pair "x-api-key" <$> x_api_key
  else if truthy authorization then pair "Authorization" <$> authorization
  else None.

(** The service answers a credential with a user. *)
Definition answers_a_user (t : Z) (c : string * string) : bool :=
  match fetched t c.1 c.2 with
  | Ok JNull => false
  | Ok _ => true
  | Raise _ => false
  end.

(** The identity service answers consistently within the windows of
    a run, read off the times of the run alone.  A verification opens
    a window for its credential when none is open for it and the
    service answers it with a user; the window stays open for 300
    seconds.  [opened] holds, by credential, the time the last
    window was opened.  A verification that falls within the open
    window of its credential must be answered by the service as at
    the time the window was opened; outside the windows the service
    answers as it likes. *)
Fixpoint consistent_within_windows (opened : gmap (string * string) Z)
    (calls : list (Z * option string * option string)) : Prop :=
  match calls with
  | [] => True
  | (t, x_api_key, authorization) :: rest =>
      match credential x_api_key authorization with
      | None => consistent_within_windows opened rest
      | Some c =>
          match opened !! c with
          | Some t0 =>
              if t <? t0 + 300 then
                fetched t c.1 c.2 = fetched t0 c.1 c.2 /\
                consistent_within_windows opened rest
              else
                consistent_within_windows
                  (if answers_a_user t c then <[c := t]> opened else opened)
                  rest
          | None =>
              consistent_within_windows
                (if answers_a_user t c then <[c := t]> opened else opened)
                rest
          end
      end
  end.

(** The cache and the windows go together: an entry that holds a user
    was fetched when the window of its credential was opened and
    expires 300 seconds later; and a window is either behind such an
    entry or closed. *)
Definition cache_in_windows (opened : gmap (string * string) Z) (w : world)
    : Prop :=
  (forall c user expires,
     cache w !! c = Some (user, expires) -> user <> JNull ->
     opened !! c = Some (expires - 300) /\
     fetched (expires - 300) c.1 c.2 = Ok user) /\
  (forall c t0,
     opened !! c = Some t0 ->
     (exists user, user <> JNull /\ cache w !! c = Some (user, t0 + 300)) \/
     t0 + 300 <= clock w).

End Spec.

End WorkerSpec.


(* ===================================================================== *)
(** * What the worker answers, and where the previews are                 *)
(* ===================================================================== *)

Module WorkerFacts.
Import Worker.



(** The two user-data endpoints, in the order of the [for] loop. *)
Definition primary_endpoint : string := "https://api.csm.ai/user/userdata".
Definition fallback_endpoint : string := "https://devapi.csm.ai/user/userdata".

(** [render_glb_frames.render_frames]: where the GIF is saved,
    [Path(output_dir).parent / f"{Path(glb_path).stem}_animated.gif"]. *)
Definition gif_path (glb_path output_dir : path) : path :=
  (parent output_dir ++ [stem glb_path +:+ "_animated.gif"])%list.

End WorkerFacts.

(* ===================================================================== *)
(** * The launcher: [server/launch_servers.py]                            *)
(* ===================================================================== *)

Module Launcher.

Record config : Type := mkConfig {
  worker_ports : list Z;
  router_port : Z
}.

Definition CONFIG_MAPPING : list (string * config) :=
  [ ("dev", mkConfig [8001; 8002; 8003] 8000);
    ("prod", mkConfig [9001; 9002; 9003] 9000) ].

Definition GPU_IDS : list Z := [5; 6; 7].

(** A [subprocess.Popen]: the command and, for a worker, the value of
    [CUDA_VISIBLE_DEVICES] set in the copy of the environment; the
    router is started without [env=]. *)
Record process : Type := mkProcess {
  command : list string;
  CUDA_VISIBLE_DEVICES : option string
}.

(** What the launcher has done, in order. *)
Inductive step : Type :=
| Started (p : process)
| Slept (seconds : Z).

Definition worker_process (port gpu_id : Z) : process :=
  mkProcess ["python"; "server.py"; "--port"; pretty port]
            (Some (pretty gpu_id)).

Definition router_process (router_port : Z) (environment_name : string)
    : process :=
  mkProcess ["python"; "router.py"; "--port"; pretty router_port;
             "--env"; environment_name]
            None.

(** The steps that start the workers of a configuration. *)
Definition worker_steps (config : config) : list step :=
  (fun pair => Started (worker_process pair.1 pair.2))
    <$> zip (worker_ports config) GPU_IDS.

(** [CONFIG_MAPPING[env]]. *)
Definition config_of (mapping : list (string * config)) (env : string)
    : option config :=
  (fun found => found.2.2) <$> list_find (fun entry => entry.1 = env) mapping.

Section Launch.

(** [subprocess.Popen]: whether the process starts, given what has
    been done before; [false] is any exception of it. *)
Variable Popen : list step -> process -> bool.

(** The [for port, gpu_id in zip(worker_ports, GPU_IDS)] loop; the
    first component is the code of a [sys.exit], if any. *)
Fixpoint launch_workers (pairs : list (Z * Z)) (done : list step)
    : option Z * list step :=
  match pairs with
  | [] => (None, done)
  | (port, gpu_id) :: rest =>
      let p := worker_process port gpu_id in
      if Popen done p
      then launch_workers rest (done ++ [Started p])%list
      else (Some 1, done)
  end.

Definition launch_all_servers (config : config) (environment_name : string)
    : option Z * list step :=
  if negb (length (worker_ports config) =? length GPU_IDS)%nat
  then (Some 1, [])
  else
    match launch_workers (zip (worker_ports config) GPU_IDS) [] with
    | (Some code, done) => (Some code, done)
    | (None, done) =>
        let done := (done ++ [Slept 3])%list in
        let p := router_process (router_port config) environment_name in
        if Popen done p
        then (None, (done ++ [Started p])%list)
        else (Some 1, done)
    end.

(** The script: [env] is the positional argument, [None] if it is
    left out; a value outside the choices is an error of [argparse],
    which exits with 2. *)
Definition main (env : option string) : option Z * list step :=
  let env := default "dev" env in
  match config_of CONFIG_MAPPING env with
  | Some config_to_use => launch_all_servers config_to_use env
  | None => (Some 2, [])
  end.

End Launch.

End Launcher.

(* ===================================================================== *)
(** * The stopper: [server/kill_servers.py]                               *)
(* ===================================================================== *)

Module Killer.

Definition CONFIG_MAPPING : list (string * Launcher.config) :=
  [ ("dev", Launcher.mkConfig [8001; 8002; 8003] 8000);
    ("prod", Launcher.mkConfig [9001; 9002; 9003] 9000) ].

(** What the script does to the machine, in order. *)
Inductive step : Type :=
| Probed (port : Z)
| Kill (pid : string) (port : Z).

(** How a [kill_process] ends: the command succeeds; it fails or the
    system is not supported, which is reported and nothing more; or the
    command is not found, which exits. *)
Inductive kill_result : Type :=
| Killed
| KillFailed
| KillExit.

(** The state of the two loops: the counter and the steps taken. *)
Record progress : Type := mkProgress {
  processes_killed_count : nat;
  steps : list step
}.

(** The last message of a run that is not cut short. *)
Inductive summary : Type :=
| Finished (total : nat)
| NothingFound.

Section Kill.

(** [get_pids_on_port], given what has been done before: the PIDs
    listening on the port, or [None] for its [sys.exit(1)]. *)
Variable get_pids_on_port : list step -> Z -> option (list string).
Variable kill_process : list step -> string -> Z -> kill_result.

(** [for pid in pids]: [inl] is the state at a [sys.exit(1)]. *)
Fixpoint kill_pids (pids : list string) (port : Z) (st : progress)
    : progress + progress :=
  match pids with
  | [] => inr st
  | pid :: rest =>
      let after := (steps st ++ [Kill pid port])%list in
      match kill_process (steps st) pid port with
      | KillExit => inl (mkProgress (processes_killed_count st) after)
      | Killed | KillFailed =>
          kill_pids rest port
            (mkProgress (S (processes_killed_count st)) after)
      end
  end.

(** [for port in all_ports]. *)
Fixpoint kill_ports (ports : list Z) (st : progress) : progress + progress :=
  match ports with
  | [] => inr st
  | port :: rest =>
      let after := (steps st ++ [Probed port])%list in
      match get_pids_on_port (steps st) port with
      | None => inl (mkProgress (processes_killed_count st) after)
      | Some pids =>
          match kill_pids pids port
                  (mkProgress (processes_killed_count st) after) with
          | inl st => inl st
          | inr st => kill_ports rest st
          end
      end
  end.

Definition kill_all_servers_by_port (config : Launcher.config)
    : progress + summary * progress :=
  let all_ports :=
    (Launcher.worker_ports config ++ [Launcher.router_port config])%list in
  match kill_ports all_ports (mkProgress 0 []) with
  | inl st => inl st
  | inr st =>
      inr (if (0 <? processes_killed_count st)%nat
           then Finished (processes_killed_count st)
           else NothingFound,
           st)
  end.

End Kill.

(** The kills and the probes among the steps of a run. *)
Definition kills (l : list step) : list (string * Z) :=
  omap (fun s => match s with Kill pid port => Some (pid, port) | _ => None end) l.

Definition probes (l : list step) : list Z :=
  omap (fun s => match s with Probed port => Some port | _ => None end) l.

End Killer.

(* ===================================================================== *)
(** * The job handler: [job_handler.py]                                   *)
(* ===================================================================== *)

Module JobHandler.

(** [s.split(sep)] for a separator of one character. *)
Fixpoint split (sep : ascii) (s : string) : list string :=
  match s with
  | EmptyString => [EmptyString]
  | String c rest =>
      if Ascii.eqb c sep then EmptyString :: split sep rest
      else
        match split sep rest with
        | first :: others => String c first :: others
        | [] => [String c EmptyString]
        end
  end.

(** [job.input_mesh_url.split(".")[-1].split("?")[0]]; the two lists
    are never empty. *)
Definition mesh_extension (input_mesh_url : string) : string :=
  List.hd "" (split "?" (List.last (split "." input_mesh_url) "")).

(** [c in s]. *)
Fixpoint contains (c : ascii) (s : string) : bool :=
  match s with
  | EmptyString => false
  | String a rest => Ascii.eqb a c || contains c rest
  end.

End JobHandler.

(* ===================================================================== *)
(** * The retargeting add-on: [util/auto_rig_pro/__init__.py]             *)
(* ===================================================================== *)

Module AutoRigPro.

Inductive submodule : Type :=
| auto_rig_prefs
| rig_functions
| auto_rig
| auto_rig_remap.

Inductive step : Type :=
| Register (m : submodule)
| Unregister (m : submodule)
| Warned (message : string).

(** Blender's state, [sys.modules] by name, and what has been called
    and printed. *)
Record state (blender pymodule : Type) : Type := mkState {
  bpy : blender;
  sys_modules : gmap string pymodule;
  trail : list step
}.
Arguments mkState {blender pymodule} _ _ _.
Arguments bpy {blender pymodule} _.
Arguments sys_modules {blender pymodule} _.
Arguments trail {blender pymodule} _.

(** The submodules called among the steps. *)
Definition calls (l : list step) : list step :=
  omap (fun s => match s with Warned _ => None | _ => Some s end) l.

(** The order of Python's strings. *)
Definition name_le (a b : string) : Prop := String.leb a b = true.
#[export] Instance name_le_dec : RelDecision name_le :=
  fun a b => bool_eq_dec (String.leb a b) true.

Section Addon.

(** The [register] and [unregister] of the four submodules, which
    change Blender's state and may raise. *)
Variables blender pymodule : Type.
Variable register_of : submodule -> blender -> (pyerr + unit) * blender.
Variable unregister_of : submodule -> blender -> (pyerr + unit) * blender.

(** The package's [__name__]. *)
Variable __name__ : string.

(** [try: m.register() except Exception as e: print(...)], with the
    [raise] of the last of them when [critical]. *)
Definition try_register (m : submodule) (label : string) (critical : bool)
    (st : state blender pymodule) : outcome unit * state blender pymodule :=
  let '(r, b) := register_of m (bpy st) in
  let st := mkState b (sys_modules st) (trail st ++ [Register m])%list in
  match r with
  | inr _ => (Ok tt, st)
  | inl e =>
      let st :=
        mkState (bpy st) (sys_modules st)
          (trail st ++ [Warned ("Warning: Failed to register " +:+ label
                                 +:+ ": " +:+ err_str e)])%list in
      if critical then (Raise (PyError e), st) else (Ok tt, st)
  end.

Definition register (st : state blender pymodule)
    : outcome unit * state blender pymodule :=
  let '(_, st) := try_register auto_rig_prefs "auto_rig_prefs" false st in
  let '(_, st) := try_register rig_functions "rig_functions" false st in
  let '(_, st) := try_register auto_rig "auto_rig" false st in
  try_register auto_rig_remap "auto_rig_remap" true st.

Definition try_unregister (m : submodule) (label : string)
    (st : state blender pymodule) : state blender pymodule :=
  let '(r, b) := unregister_of m (bpy st) in
  let st := mkState b (sys_modules st) (trail st ++ [Unregister m])%list in
  match r with
  | inr _ => st
  | inl e =>
      mkState (bpy st) (sys_modules st)
        (trail st ++ [Warned ("Warning: Failed to unregister " +:+ label
                               +:+ ": " +:+ err_str e)])%list
  end.

(** [sorted(sys.modules.items(), key=lambda x: x[0])], the keys. *)
Definition sorted_keys (modules : gmap string pymodule) : list string :=
  merge_sort name_le (map_to_list modules).*1.

(** [cleanse_modules]: the loop over the sorted copy, which deletes
    from [sys.modules]. *)
Definition cleanse_modules (modules : gmap string pymodule)
    : gmap string pymodule :=
  fold_left
    (fun modules k =>
       if String.prefix __name__ k then delete k modules else modules)
    (sorted_keys modules) modules.

Definition unregister (st : state blender pymodule)
    : outcome unit * state blender pymodule :=
  let st := try_unregister auto_rig_remap "auto_rig_remap" st in
  let st := try_unregister auto_rig "auto_rig" st in
  let st := try_unregister rig_functions "rig_functions" st in
  let st := try_unregister auto_rig_prefs "auto_rig_prefs" st in
  (Ok tt, mkState (bpy st) (cleanse_modules (sys_modules st)) (trail st)).

End Addon.

End AutoRigPro.

(* ===================================================================== *)
(** * The command lines of the Blender scripts                            *)
(* ===================================================================== *)

Module Scripts.

(** [argv.index("--")]: the position of the first ["--"]; [None] is the
    [ValueError]. *)
Fixpoint index (x : string) (argv : list string) : option nat :=
  match argv with
  | [] => None
  | a :: rest =>
      if String.eqb a x then Some 0%nat
      else S <$> index x rest
  end.

(** [render_thumbnail.py] and [render_glb_frames.py]: the arguments
    after ["--"], none if it is missing. *)
Definition render_args (argv : list string) : list string :=
  match index "--" argv with
  | Some i => drop (S i) argv
  | None => []
  end.

(** The two paths a render script works on; [None] is [sys.exit(1)]
    after the usage message. *)
Definition render_script_paths (argv : list string) : option (string * string) :=
  match render_args argv with
  | [a; b] => Some (a, b)
  | _ => None
  end.

(** [blender_join_and_save.py]: a missing ["--"] exits at once, a wrong
    number of arguments after it does so next. *)
Definition join_script_paths (argv : list string) : option (string * string) :=
  match index "--" argv with
  | None => None
  | Some idx =>
      match drop (S idx) argv with
      | [a; b] => Some (a, b)
      | _ => None
      end
  end.

End Scripts.

(* ===================================================================== *)
(** * The start of the worker: [lifespan] in [server/server.py]           *)
(* ===================================================================== *)

Module Lifespan.

(** What the start finds on the machine: [animation.pkl] ([None] if it
    does not exist, an error if [open] or [pickle.load] raises, else
    the pickled table, taken to be a dict with strings for keys), the
    listing of [./data] if it is a directory, and whether
    [./data/Standard Run.fbx] exists. *)
Record machine : Type := mkMachine {
  animation_pkl : option (pyerr + gmap string json);
  data_listing : option (list string);
  standard_run_exists : bool
}.

(** The entry [{"file_path": ..., "name": ...}]. *)
Definition motion (file_path name : string) : json :=
  JObj [("file_path", JStr file_path); ("name", JStr name)].

(** [s.endswith(suffix)]. *)
Definition endswith (s suffix : string) : bool :=
  (String.length suffix <=? String.length s)%nat &&
  String.eqb
    (String.substring (String.length s - String.length suffix)
       (String.length suffix) s)
    suffix.

Definition motion_key (idx : nat) : string := "motion_" +:+ pretty idx.

Section Startup.

(** [str.lower]. *)
Variable lower : string -> string.

(** [for idx, fname in enumerate(os.listdir("./data"))], from [idx]
    on. *)
Fixpoint scan (idx : nat) (listing : list string)
    (ANIMATION_DB : gmap string json) : gmap string json :=
  match listing with
  | [] => ANIMATION_DB
  | fname :: rest =>
      scan (S idx) rest
        (if endswith (lower fname) ".fbx"
         then <[motion_key idx :=
                  motion ("./data/" +:+ fname) (Worker.stem [fname])]>
                ANIMATION_DB
         else ANIMATION_DB)
  end.

(** The table after the three steps of [lifespan], before
    [init_models]. *)
Definition lifespan (m : machine) (ANIMATION_DB : gmap string json)
    : gmap string json :=
  let '(loaded, ANIMATION_DB) :=
    match animation_pkl m with
    | Some (inr pickled) => (true, pickled ∪ ANIMATION_DB)
    | Some (inl _) | None => (false, ANIMATION_DB)
    end in
  let ANIMATION_DB :=
    match negb loaded, data_listing m with
    | true, Some listing => scan 0 listing ANIMATION_DB
    | _, _ => ANIMATION_DB
    end in
  if bool_decide (ANIMATION_DB = ∅) && standard_run_exists m
  then <["default" := motion "./data/Standard Run.fbx" "Standard Run"]>
         ANIMATION_DB
  else ANIMATION_DB.

End Startup.

End Lifespan.
(* ===================================================================== *)
(** * Concrete inputs                                                     *)
(* ===================================================================== *)

(** Requests, networks and machines on which the results below are run. *)
Module Sample.

Import Router.

Definition dev_pool : list string :=
  ["http://localhost:8001"; "http://localhost:8002"; "http://localhost:8003"].

Definition dev_app : app_state := mkAppState dev_pool (cycle_new dev_pool).

(** A body with the two required fields only; the mesh is ["glTF"]. *)
Definition minimal_body : json :=
  JObj [ ("mesh_b64_str", JStr "Z2xURg==");
         ("animation_name", JStr "running") ].

(** A body whose animation name is not one of the five. *)
Definition dancing_body : json :=
  JObj [ ("mesh_b64_str", JStr "Z2xURg==");
         ("animation_name", JStr "dancing") ].

Definition minimal_request : Request :=
  mkRequest [("x-api-key", "secret"); ("user-agent", "curl/8.5.0")] minimal_body.

Definition dancing_request : Request :=
  mkRequest [("x-api-key", "secret")] dancing_body.

Definition minimal_payload : AnimationRequest :=
  mkAnimationRequest "Z2xURg==" running false float_0_0 false None [] false
    true "LeftArm" true None true true.

(** A worker that answers every call with a result. *)
Definition worker_ok : post_call -> post_result :=
  fun _ =>
    Responded (mkResponse 200 (Some (JObj [ ("mesh_base64", JStr "Z2xURg==");
                                            ("gif_base64", JNull);
                                            ("thumbnail_base64", JNull) ]))).

(** A worker to which the connection times out. *)
Definition worker_connect_timeout : post_call -> post_result :=
  fun _ => Failed (PyErr ConnectTimeout "timed out").

(** Workers that answer 500, with and without a detail. *)
Definition worker_failing : post_call -> post_result :=
  fun _ =>
    Responded (mkResponse 500 (Some (JObj [("detail", JStr "Pipeline failed: boom")]))).

Definition worker_failing_plain : post_call -> post_result :=
  fun _ => Responded (mkResponse 500 (Some (JObj [("error", JStr "boom")]))).

Definition four_calls
    : list ((post_call -> post_result) * AnimationRequest * Request) :=
  [ (worker_ok, minimal_payload, minimal_request);
    (worker_failing, minimal_payload, minimal_request);
    (worker_connect_timeout, minimal_payload, minimal_request);
    (worker_ok, minimal_payload, minimal_request) ].

(** ** A worker's machine *)

Import Worker.

(** Base64 with padding, for the sample machine. *)
Definition alphabet : list ascii :=
  String.list_ascii_of_string
    "ABCDEFGHIJKLMNOPQRSTUVWXYZabcdefghijklmnopqrstuvwxyz0123456789+/".

Definition digit (n : Z) : ascii := nth (Z.to_nat n) alphabet "="%char.

Definition byte_Z (b : byte) : Z := Z.of_N (Byte.to_N b).

Definition Z_byte (n : Z) : byte :=
  default x00 (Byte.of_N (Z.to_N (n mod 256))).

Fixpoint b64encode (data : list byte) : string :=
  match data with
  | [] => ""
  | [a] =>
      let n := byte_Z a * 16 in
      String (digit (n / 64)) (String (digit (n mod 64)) "==")
  | [a; b] =>
      let n := (byte_Z a * 256 + byte_Z b) * 4 in
      String (digit (n / 4096))
        (String (digit (n / 64 mod 64)) (String (digit (n mod 64)) "="))
  | a :: b :: c :: rest =>
      let n := byte_Z a * 65536 + byte_Z b * 256 + byte_Z c in
      String (digit (n / 262144))
        (String (digit (n / 4096 mod 64))
           (String (digit (n / 64 mod 64))
              (String (digit (n mod 64)) (b64encode rest))))
  end.

Definition value (c : ascii) : option Z :=
  (fun found => Z.of_nat (fst found)) <$> list_find (fun a => a = c) alphabet.

Fixpoint decode_values (vs : list Z) : option (list byte) :=
  match vs with
  | [] => Some []
  | [_] => None
  | [a; b] => Some [Z_byte ((a * 64 + b) / 16)]
  | [a; b; c] =>
      let n := ((a * 64 + b) * 64 + c) / 4 in
      Some [Z_byte (n / 256); Z_byte n]
  | a :: b :: c :: d :: rest =>
      let n := ((a * 64 + b) * 64 + c) * 64 + d in
      (fun tl => Z_byte (n / 65536) :: Z_byte (n / 256) :: Z_byte n :: tl)
      <$> decode_values rest
  end.

Definition strip_padding (cs : list ascii) : list ascii :=
  match rev cs with
  | "="%char :: "="%char :: r => rev r
  | "="%char :: r => rev r
  | _ => cs
  end.

(** Decodes padded base64 and refuses everything else (the library
    function is more lenient about stray characters). *)
Definition b64decode (s : string) : pyerr + list byte :=
  let cs := String.list_ascii_of_string s in
  let decoded :=
    if (length cs mod 4 =? 0)%nat
    then mapM value (strip_padding cs) ≫= decode_values
    else None in
  match decoded with
  | Some data => inr data
  | None => inl (PyErr BinasciiError "Incorrect padding")
  end.

(** The identity service: the primary endpoint knows the API key
    ["secret"]; it is unreachable for bearer tokens, and the fallback
    endpoint knows the token ["Bearer dev"]. *)
Definition identity (t : Z) (url header_name header_value : string) : get_result :=
  if String.eqb header_name "x-api-key" then
    if String.eqb header_value "secret" && String.eqb url "https://api.csm.ai/user/userdata"
    then GetResponded (mkResponse 200 (Some (JObj [("email", JStr "ann@example.com")])))
    else GetResponded (mkResponse 401 (Some (JObj [("error", JStr "unauthorized")])))
  else
    if String.eqb url "https://api.csm.ai/user/userdata"
    then GetFailed (PyErr ConnectError "All connection attempts failed")
    else if String.eqb header_value "Bearer dev"
    then GetResponded (mkResponse 200 (Some (JObj [("email", JStr "dev@example.com")])))
    else GetResponded (mkResponse 403 (Some (JObj [("error", JStr "forbidden")]))).

Definition glb_out : path := ["tmp"; "out"; "anim.glb"].

(** The pipeline of the sample machine: the first stage needs its input
    file, the last one writes the animated mesh; the thumbnail renderer
    writes its image, the frame renderer finds no animation and raises. *)
(** [str(e)] of an [HTTPException]: the status and the detail. *)
Definition http_exception_str (status_code : Z) (detail : json) : string :=
  pretty status_code +:+ ": " +:+
  match detail with
  | JStr text => text
  | _ => ""
  end.

Definition machine : Env :=
  mkEnv
    ["project"]
    b64decode
    b64encode
    identity
    (fun _ => "tmpab12cd")
    (fun _ _ _ => None)
    http_exception_str
    (option path)
    None
    (fun db => db)
    (fun input_path _ _ _ db fs =>
       if isfile fs input_path then (inr db, fs)
       else (inl (PyError (PyErr FileNotFoundError (path_str input_path))), fs))
    (fun db fs => (inr db, fs))
    (fun _ db fs => (inr db, fs))
    (fun _ _ _ db fs => (inr db, fs))
    (fun _ _ fs =>
       (inr (Some glb_out),
        <[glb_out := File (String.list_byte_of_string "glTF-animated")]> fs))
    (fun _ output_image_path fs =>
       (inr tt, <[output_image_path := File (String.list_byte_of_string "PNG")]> fs))
    (fun _ _ fs =>
       (inl (PyError (PyErr RuntimeError
                       "No animation data found in the imported GLB.")), fs)).

(** The disk of the sample machine: the animation library and the
    directory the pipeline writes to. *)
Definition disk : filesystem :=
  <[ ["project"; "animation-fbx-files"; "running.fbx"] := File [] ]>
  (<[ ["project"; "animation-fbx-files"] := Dir ]>
  (<[ ["project"] := Dir ]>
  (<[ ["dev"; "shm"] := Dir ]>
  (<[ ["dev"] := Dir ]>
  (<[ ["tmp"; "out"] := Dir ]>
  (<[ ["tmp"] := Dir ]> ∅)))))).

Definition boot : world := mkWorld disk ∅ 1000 [].

(** Verifications over ten minutes: a first one, a second one within
    the time to live, an unknown token, and the first again after the
    entry has expired. *)
Definition verifications : list (Z * option string * option string) :=
  [ (1000, Some "secret", None);
    (1100, Some "secret", Some "Bearer dev");
    (1200, None, Some "Bearer nobody");
    (1500, Some "secret", None) ].


(** A request that asks for the fingers to be removed. *)
Definition no_fingers_payload : AnimationRequest :=
  mkAnimationRequest "Z2xURg==" running false float_0_0 true None [] false
    true "LeftArm" true None true true.

(** ** Other machines and inputs *)

(** The sample machine with another last stage and other renderers. *)
Definition machine_with
    (last_stage : vis_blender_args -> DB machine -> ext (DB machine))
    (thumbnail_renderer : path -> path -> ext unit)
    (frame_renderer : path -> path -> ext (option path)) : Env :=
  mkEnv (PARENT_DIR machine) (base64_b64decode machine)
    (base64_b64encode machine) (identity_get machine) (tempfile_name machine)
    (file_write machine) (HTTPException_str machine)
    (DB machine) (DB_new machine) (anim_vis_path machine)
    (prepare_input machine) (preprocess machine) (infer machine)
    (vis machine) last_stage thumbnail_renderer frame_renderer.

(** A machine whose thumbnail renderer cannot open the artifact. *)
Definition machine_without_thumbnail : Env :=
  machine_with (vis_blender machine)
    (fun glb_path _ fs =>
       (inl (PyError (PyErr RuntimeError "Could not import the GLB")), fs))
    (render_frames machine).

(** A machine whose last stage returns without an artifact. *)
Definition machine_without_artifact : Env :=
  machine_with (fun _ _ fs => (inr None, fs))
    (render_thumbnail machine) (render_frames machine).

(** A machine whose [/dev/shm] is full: the file is made, and the write
    into it raises before a byte is written. *)
Definition machine_full_shm : Env :=
  mkEnv (PARENT_DIR machine) (base64_b64decode machine)
    (base64_b64encode machine) (identity_get machine) (tempfile_name machine)
    (fun _ _ _ =>
       Some (PyErr OSError "[Errno 28] No space left on device", []))
    (HTTPException_str machine)
    (DB machine) (DB_new machine) (anim_vis_path machine)
    (prepare_input machine) (preprocess machine) (infer machine)
    (vis machine) (vis_blender machine) (render_thumbnail machine)
    (render_frames machine).


(** An identity service that changes its mind: the API key ["secret"]
    is revoked at time 1400. *)
Definition revoking_identity (t : Z) (url header_name header_value : string)
    : get_result :=
  if String.eqb header_name "x-api-key" && String.eqb header_value "secret"
     && (1400 <=? t)
  then GetResponded (mkResponse 401 (Some (JObj [("error", JStr "revoked")])))
  else identity t url header_name header_value.

Definition machine_revoking : Env :=
  mkEnv (PARENT_DIR machine) (base64_b64decode machine)
    (base64_b64encode machine) revoking_identity (tempfile_name machine)
    (file_write machine) (HTTPException_str machine)
    (DB machine) (DB_new machine) (anim_vis_path machine)
    (prepare_input machine) (preprocess machine) (infer machine)
    (vis machine) (vis_blender machine) (render_thumbnail machine)
    (render_frames machine).

(** The bodies of requests: the two required fields, and one that asks
    for the fingers to be removed. *)
Definition body_for (mesh animation : string) : json :=
  JObj [ ("mesh_b64_str", JStr mesh); ("animation_name", JStr animation) ].

Definition no_fingers_body : json :=
  JObj [ ("mesh_b64_str", JStr "Z2xURg==");
         ("animation_name", JStr "running");
         ("no_fingers", JBool true) ].

(** Two inbound requests, the first of which is refused. *)
Definition two_requests : list ((post_call -> post_result) * Request) :=
  [ (worker_ok, dancing_request); (worker_ok, minimal_request) ].

(** [str.lower] on ASCII. *)
Definition lower_char (c : ascii) : ascii :=
  let n := nat_of_ascii c in
  if ((65 <=? n) && (n <=? 90))%nat then ascii_of_nat (n + 32) else c.

Fixpoint lower (s : string) : string :=
  match s with
  | EmptyString => EmptyString
  | String c rest => String (lower_char c) (lower rest)
  end.

(** A machine at the start of a worker: no pickled table, three files
    in [./data]. *)
Definition listing : list string := ["Run.FBX"; "notes.txt"; "walk.fbx"].

Definition startup : Lifespan.machine :=
  Lifespan.mkMachine None (Some listing) true.

End Sample.
(* ===================================================================== *)
(** * The dispatcher: round-robin selection                               *)
(* ===================================================================== *)

Section RoundRobin.
Import Router RouterSpec.
Context {A : Type}.
Implicit Types (pool : list A) (k : nat).

Lemma succ_mod (k n : nat) :
  (0 < n)%nat ->
  (S k mod n)%nat = if (S (k mod n) <? n)%nat then S (k mod n) else 0%nat.
Proof.
  intros Hn.
  pose proof (Nat.mod_upper_bound k n ltac:(lia)) as Hlt.
  pose proof (Nat.div_mod_eq k n) as Hk.
  destruct (Nat.ltb_spec (S (k mod n)) n) as [Hs | Hs].
  - symmetry. apply (Nat.mod_unique _ _ (k / n)%nat); lia.
  - symmetry. apply (Nat.mod_unique _ _ (S (k / n))%nat); lia.
Qed.

Lemma cycle_next_at pool k :
  pool <> [] ->
  cycle_next (cycle_at pool k)
  = (pool !! (k mod length pool)%nat, cycle_at pool (S k)).
Proof.
  intros Hne.
  assert (0 < length pool)%nat as Hn by (destruct pool; simpl; [done | lia]).
  unfold cycle_at, cycle_next.
  destruct (Nat.ltb_spec k (length pool)) as [Hk | Hk]; simpl.
  - rewrite (Nat.mod_small k) by done.
    destruct (lookup_lt_is_Some_2 pool k Hk) as [x Hx].
    rewrite (drop_S _ _ _ Hx), Hx.
    rewrite <- (take_S_r _ _ _ Hx).
    destruct (Nat.ltb_spec (S k) (length pool)) as [Hs | Hs]; [done |].
    assert (S k = length pool) as Hlen by lia.
    rewrite Hlen, drop_all, firstn_all, Nat.Div0.mod_same. done.
  - pose proof (Nat.mod_upper_bound k (length pool) ltac:(lia)) as Hlt.
    destruct (lookup_lt_is_Some_2 pool _ Hlt) as [x Hx].
    rewrite Hx.
    destruct (Nat.ltb_spec (S k) (length pool)) as [Hs | Hs]; [lia |].
    rewrite (succ_mod k) by done. done.
Qed.

Lemma cursor_at pool k :
  pool <> [] -> cursor (cycle_at pool k) = (k mod length pool)%nat.
Proof.
  intros Hne. unfold cursor, cycle_at.
  destruct (Nat.ltb_spec k (length pool)) as [Hk | Hk]; simpl; [| done].
  rewrite (Nat.mod_small k) by done.
  destruct (lookup_lt_is_Some_2 pool k Hk) as [x Hx].
  rewrite (drop_S _ _ _ Hx). rewrite length_take. lia.
Qed.
End RoundRobin.

Section Dispatch.
Import Router RouterSpec.

Lemma dispatch_all_at (pool : list string) :
  pool <> [] ->
  forall calls k ws sent,
    let st := dispatch_all calls (mkRouter (mkAppState ws (cycle_at pool k)) sent) in
    server_cycle (app st) = cycle_at pool (k + length calls)%nat /\
    (forall i, (i < length sent)%nat -> forwarded st !! i = sent !! i) /\
    (forall i c, calls !! i = Some c ->
       forwarded st !! (length sent + i)%nat = call_at pool (k + i) c).
Proof.
  intros Hne calls. induction calls as [| [[post payload] request] rest IH];
    intros k ws sent; simpl.
  - rewrite Nat.add_0_r. split; [done |]. split; [done |].
    intros i c Hc. by rewrite lookup_nil in Hc.
  - unfold route_animation_request; simpl.
    rewrite (cycle_next_at pool k Hne).
    destruct (lookup_lt_is_Some_2 pool (k mod length pool)%nat) as [x Hx].
    { apply Nat.mod_upper_bound. destruct pool; simpl; [done | lia]. }
    rewrite Hx. simpl.
    specialize (IH (S k) ws
      (sent ++ [mkPost (x +:+ "/animate") (model_dump payload)
                       (headers_to_forward request) WORKER_TIMEOUT])%list).
    simpl in IH. destruct IH as (Hc & Hold & Hnew).
    split; [rewrite Hc; f_equal; lia |].
    split.
    + intros i Hi. rewrite Hold by (rewrite length_app; simpl; lia).
      by rewrite lookup_app_l.
    + intros [| i] c Hc'; simpl in Hc'.
      * injection Hc' as <-. rewrite Hold by (rewrite length_app; simpl; lia).
        rewrite Nat.add_0_r, lookup_app_r by lia.
        rewrite Nat.sub_diag. unfold call_at. rewrite Nat.add_0_r, Hx. done.
      * specialize (Hnew i c Hc'). rewrite length_app in Hnew. simpl in Hnew.
        replace (length sent + S i)%nat with (length sent + 1 + i)%nat by lia.
        rewrite Hnew. f_equal. lia.
Qed.

Lemma configure_Some pool a :
  configure pool = Some a ->
  pool <> [] /\ a = mkAppState pool (cycle_at pool 0).
Proof.
  unfold configure. destruct pool as [| x pool]; [done |].
  intros [= <-]. split; [done |]. done.
Qed.

(** C1.  A router started on a pool of [n] workers sends the [i]-th of
    any run of dispatches (counting from 0) to worker [i mod n] of the
    pool: the cursor of the cycle starts at 0 and, after a run of [m]
    dispatches, stands at [m mod n], that is, it advances by one
    position, modulo [n], with each dispatch. *)
Theorem round_robin_selection
    (pool : list string) (a : app_state)
    (calls : list ((post_call -> post_result) * AnimationRequest * Request)) :
  configure pool = Some a ->
  cursor (server_cycle a) = 0%nat /\
  cursor (server_cycle (app (dispatch_all calls (start a))))
  = (length calls mod length pool)%nat /\
  (forall i, (i < length calls)%nat ->
     post_url <$> forwarded (dispatch_all calls (start a)) !! i
     = (fun worker_url => worker_url +:+ "/animate")
       <$> pool !! (i mod length pool)%nat).
Proof.
  intros Ha. destruct (configure_Some _ _ Ha) as [Hne ->].
  destruct (dispatch_all_at pool Hne calls 0 pool []) as (Hc & _ & Hnew).
  split; [| split].
  - simpl. rewrite (cursor_at pool 0 Hne). apply Nat.Div0.mod_0_l.
  - unfold start. rewrite Hc, (cursor_at _ _ Hne). done.
  - intros i Hi.
    destruct (lookup_lt_is_Some_2 calls i Hi) as [c Hcall].
    specialize (Hnew i c Hcall). simpl in Hnew. unfold start. rewrite Hnew.
    unfold call_at. simpl. by destruct (pool !! _).
Qed.
End Dispatch.

(* ===================================================================== *)
(** * The dispatcher: validation, forwarding and the relay of failures    *)
(* ===================================================================== *)

Section Validation.
Import Router.
Variable as_bool : json -> option bool.
Variable as_float : json -> option float64.

Lemma parse_animation_name_Some s a :
  parse_animation_name s = Some a -> animation_name_str a = s.
Proof.
  unfold parse_animation_name. intros H.
  apply fmap_Some in H as ([i a'] & Hfind & ->).
  by apply list_find_Some in Hfind as (_ & Hs & _).
Qed.

Lemma validate_animation_name members p :
  validate_AnimationRequest as_bool as_float (JObj members) = Some p ->
  dict_get "animation_name" members = Some (JStr (animation_name_str (animation_name p))).
Proof.
  unfold validate_AnimationRequest. intros H.
  repeat (apply bind_Some in H as (? & ? & H)).
  injection H as <-. simpl.
  unfold required in *.
  destruct (dict_get "animation_name" members) as [[]|]; try done.
  simpl in *. f_equal. f_equal. symmetry. by apply parse_animation_name_Some.
Qed.

Lemma with_default_absent {A} (conv : json -> option A) k d members x :
  with_default conv k d members = Some x ->
  dict_get k members = None -> x = d.
Proof. unfold with_default. intros H Hk. rewrite Hk in H. by injection H. Qed.

Lemma validate_defaults members p :
  validate_AnimationRequest as_bool as_float (JObj members) = Some p ->
  (dict_get "is_gs" members = None -> is_gs p = false) /\
  (dict_get "opacity_threshold" members = None -> opacity_threshold p = float_0_0) /\
  (dict_get "no_fingers" members = None -> no_fingers p = false) /\
  (dict_get "rest_pose_type" members = None -> rest_pose_type p = None) /\
  (dict_get "ignore_pose_parts" members = None -> ignore_pose_parts p = []) /\
  (dict_get "input_normal" members = None -> input_normal p = false) /\
  (dict_get "bw_fix" members = None -> bw_fix p = true) /\
  (dict_get "bw_vis_bone" members = None -> bw_vis_bone p = "LeftArm") /\
  (dict_get "reset_to_rest" members = None -> reset_to_rest p = true) /\
  (dict_get "animation_file" members = None -> animation_file p = None) /\
  (dict_get "retarget" members = None -> retarget p = true) /\
  (dict_get "inplace" members = None -> inplace p = true).
Proof.
  unfold validate_AnimationRequest. intros H.
  repeat (apply bind_Some in H as (? & ? & H)).
  injection H as <-. simpl.
  repeat split; intros Hk; eapply with_default_absent; eauto.
Qed.

End Validation.

Section Forwarding.
Import Router.
Variable post : post_call -> post_result.
Variable as_bool : json -> option bool.
Variable as_float : json -> option float64.

Lemma validate_rejects_unknown_name members s :
  dict_get "animation_name" members = Some (JStr s) ->
  (forall a, animation_name_str a <> s) ->
  validate_AnimationRequest as_bool as_float (JObj members) = None.
Proof.
  intros Hk Hs.
  destruct (validate_AnimationRequest as_bool as_float (JObj members))
    as [p |] eqn:Hv; [| done].
  apply validate_animation_name in Hv. rewrite Hk in Hv.
  injection Hv as Hv. by destruct (Hs (animation_name p)).
Qed.

(** C2 (amended).  The dispatcher validates the body against the
    request model before it dispatches: a body that does not validate,
    in particular one whose animation name is not one of the five, is
    answered 422 and no worker is selected; for a body that validates,
    what is forwarded is the dump of the validated model, in which the
    options the caller left out have their default values. *)
Theorem dispatcher_validates_and_reserialises (request : Request) (st : router) :
  (validate_AnimationRequest as_bool as_float (body request) = None ->
   post_animate post as_bool as_float request st
   = (Raise (PyError (PyErr RequestValidationError "422")), st)) /\
  (forall members s,
     body request = JObj members ->
     dict_get "animation_name" members = Some (JStr s) ->
     (forall a, animation_name_str a <> s) ->
     validate_AnimationRequest as_bool as_float (body request) = None) /\
  (forall payload worker_url cyc,
     validate_AnimationRequest as_bool as_float (body request) = Some payload ->
     cycle_next (server_cycle (app st)) = (Some worker_url, cyc) ->
     forwarded (snd (post_animate post as_bool as_float request st))
     = (forwarded st ++
         [mkPost (worker_url +:+ "/animate") (model_dump payload)
                 (headers_to_forward request) WORKER_TIMEOUT])%list) /\
  (forall members payload,
     body request = JObj members ->
     validate_AnimationRequest as_bool as_float (body request) = Some payload ->
     (dict_get "is_gs" members = None -> is_gs payload = false) /\
     (dict_get "opacity_threshold" members = None ->
      opacity_threshold payload = float_0_0) /\
     (dict_get "no_fingers" members = None -> no_fingers payload = false) /\
     (dict_get "rest_pose_type" members = None -> rest_pose_type payload = None) /\
     (dict_get "ignore_pose_parts" members = None ->
      ignore_pose_parts payload = []) /\
     (dict_get "input_normal" members = None -> input_normal payload = false) /\
     (dict_get "bw_fix" members = None -> bw_fix payload = true) /\
     (dict_get "bw_vis_bone" members = None -> bw_vis_bone payload = "LeftArm") /\
     (dict_get "reset_to_rest" members = None -> reset_to_rest payload = true) /\
     (dict_get "animation_file" members = None -> animation_file payload = None) /\
     (dict_get "retarget" members = None -> retarget payload = true) /\
     (dict_get "inplace" members = None -> inplace payload = true)).
Proof.
  split; [| split; [| split]].
  - intros Hv. unfold post_animate. by rewrite Hv.
  - intros members s -> Hk Hs. by eapply validate_rejects_unknown_name.
  - intros payload worker_url cyc Hv Hc. unfold post_animate. rewrite Hv.
    unfold route_animation_request. by rewrite Hc.
  - intros members payload -> Hv. by apply (validate_defaults as_bool as_float).
Qed.

(** C4 (amended).  A failure of the forwarded call that is neither a
    connection error nor a read timeout is not caught: it leaves the
    handler as the exception it is. *)
Theorem unexpected_failure_propagates (payload : AnimationRequest)
    (request : Request) (st : router) (worker_url : string) (cyc : cycle string)
    (e : pyerr) :
  cycle_next (server_cycle (app st)) = (Some worker_url, cyc) ->
  post (mkPost (worker_url +:+ "/animate") (model_dump payload)
               (headers_to_forward request) WORKER_TIMEOUT) = Failed e ->
  err_class e <> ConnectError ->
  err_class e <> ReadTimeout ->
  fst (route_animation_request post payload request st) = Raise (PyError e).
Proof.
  intros Hc Hp H1 H2. unfold route_animation_request. rewrite Hc. simpl.
  rewrite Hp. unfold relay. by destruct (err_class e).
Qed.

(** C10.  When the worker answers a status that is not a success and a
    JSON object, the dispatcher raises an error of that status; its
    detail is the fixed message if the object has no member "detail",
    and the value of that member if it has one; so a detail other than
    the fixed message is always the worker's own. *)
Theorem worker_error_detail_relay (payload : AnimationRequest)
    (request : Request) (st : router) (worker_url : string) (cyc : cycle string)
    (status : Z) (worker_response_body : list (string * json)) :
  cycle_next (server_cycle (app st)) = (Some worker_url, cyc) ->
  post (mkPost (worker_url +:+ "/animate") (model_dump payload)
               (headers_to_forward request) WORKER_TIMEOUT)
  = Responded (mkResponse status (Some (JObj worker_response_body))) ->
  is_success status = false ->
  (dict_get "detail" worker_response_body = None ->
   fst (route_animation_request post payload request st)
   = Raise (HTTPException status
              (JStr "An unknown error occurred on the worker server."))) /\
  (forall d,
     dict_get "detail" worker_response_body = Some d ->
     fst (route_animation_request post payload request st)
     = Raise (HTTPException status d)) /\
  (forall d,
     fst (route_animation_request post payload request st)
     = Raise (HTTPException status d) ->
     d <> JStr "An unknown error occurred on the worker server." ->
     dict_get "detail" worker_response_body = Some d).
Proof.
  intros Hc Hp Hs. unfold route_animation_request. rewrite Hc. simpl.
  rewrite Hp. unfold relay. simpl. rewrite Hs.
  unfold dict_get_default.
  split; [intros -> | split; [intros d -> |]]; [done | done |].
  intros d. destruct (dict_get "detail" worker_response_body) as [d' |].
  - by intros [= ->].
  - by intros [= <-].
Qed.

(** The two failures the handler does catch. *)
Lemma connect_error_is_503 worker_url msg :
  relay worker_url (Failed (PyErr ConnectError msg))
  = Raise (HTTPException 503 (JStr (
      "Could not connect to worker server at " +:+ worker_url +:+
      ". The service may be down. Error: " +:+ msg))).
Proof. reflexivity. Qed.

Lemma read_timeout_is_504 worker_url msg :
  relay worker_url (Failed (PyErr ReadTimeout msg))
  = Raise (HTTPException 504 (JStr (
      "Request to worker server at " +:+ worker_url +:+
      " timed out after 300.0 seconds. Error: " +:+ msg))).
Proof. reflexivity. Qed.

End Forwarding.


(* ===================================================================== *)
(** * The worker: the mesh signature                                      *)
(* ===================================================================== *)

Section Mesh.
Import Worker.
Variable E : Env.

Lemma bytes_eqb_eq (a b : list byte) : bytes_eqb a b = true <-> a = b.
Proof.
  revert b. induction a as [| x a IH]; intros [| y b]; simpl; try done.
  rewrite andb_true_iff, IH. split.
  - intros [Hxy ->]. by rewrite (byte_dec_bl _ _ Hxy).
  - intros [= -> ->]. split; [by apply byte_dec_lb | done].
Qed.

Lemma startswith_prefix (data sig : list byte) :
  startswith data sig = true <-> sig `prefix_of` data.
Proof.
  revert data. induction sig as [| s sig IH]; intros data; simpl.
  - split; [intros _; apply prefix_nil | done].
  - destruct data as [| d data].
    + split; [done |]. intros [k Hk]. done.
    + rewrite andb_true_iff, IH. split.
      * intros [Hds Hp]. rewrite (byte_dec_bl _ _ Hds). by apply prefix_cons.
      * intros [k Hk]. injection Hk as -> ->.
        split; [by apply byte_dec_lb | by exists k].
Qed.

Lemma take4_glTF (mesh_bytes : list byte) :
  bytes_eqb (take 4 mesh_bytes) glTF = true <-> glTF `prefix_of` mesh_bytes.
Proof.
  rewrite bytes_eqb_eq. split.
  - intros H. exists (drop 4 mesh_bytes). by rewrite <- H, take_drop.
  - intros [k ->]. done.
Qed.

Lemma mesh_ext_glb mesh_bytes :
  glTF `prefix_of` mesh_bytes -> mesh_ext mesh_bytes = Some ".glb".
Proof. intros H. unfold mesh_ext. apply take4_glTF in H. by rewrite H. Qed.

Lemma mesh_ext_fbx mesh_bytes :
  Kaydara_FBX `prefix_of` mesh_bytes -> mesh_ext mesh_bytes = Some ".fbx".
Proof.
  intros H. unfold mesh_ext.
  destruct (bytes_eqb (take 4 mesh_bytes) glTF) eqn:Hg.
  - apply take4_glTF in Hg. destruct H as [k ->], Hg as [k' Hg]. done.
  - apply startswith_prefix in H. by rewrite H.
Qed.

Lemma mesh_ext_other mesh_bytes :
  ~ glTF `prefix_of` mesh_bytes -> ~ Kaydara_FBX `prefix_of` mesh_bytes ->
  mesh_ext mesh_bytes = None.
Proof.
  intros Hg Hk. unfold mesh_ext.
  destruct (bytes_eqb (take 4 mesh_bytes) glTF) eqn:Hg'.
  - by apply take4_glTF in Hg'.
  - destruct (startswith mesh_bytes Kaydara_FBX) eqn:Hk'; [| done].
    by apply startswith_prefix in Hk'.
Qed.

Lemma prepare_input_memory_events mesh_bytes ext db w :
  mesh_bytes <> [] ->
  mesh_ext mesh_bytes = Some ext ->
  fs w !! scratch_path E ext w = None ->
  exists evs,
    log (snd (_prepare_input_memory E mesh_bytes db w))
    = (log w ++ EvMkTemp (scratch_path E ext w) :: evs)%list /\
    (file_write E (<[scratch_path E ext w := File []]> (fs w))
       (scratch_path E ext w) mesh_bytes = None ->
     exists evs',
       evs = EvPrepareInput (scratch_path E ext w) false float_0_0 false :: evs').
Proof.
  intros Hne Hext Hfree. unfold _prepare_input_memory.
  destruct mesh_bytes as [| b mesh_bytes]; [done |]. rewrite Hext.
  unfold NamedTemporaryFile.
  change (["dev"; "shm"] ++ [tempfile_name E (fs w) +:+ ext])%list
    with (scratch_path E ext w).
  rewrite Hfree. cbn [fs emit set_fs].
  destruct (file_write E _ (scratch_path E ext w) (b :: mesh_bytes))
    as [[e written] |].
  - exists []. split; [| done]. by simpl.
  - unfold call_ext.
    destruct (prepare_input E _ _ _ _ _ _) as [r fs'] eqn:Hp. simpl.
    unfold cleanup_input. simpl.
    destruct (exists_ fs' (scratch_path E ext w)); simpl.
    + eexists. split; [by rewrite <- !app_assoc |]. intros _. by eexists.
    + eexists. split; [by rewrite <- !app_assoc |]. intros _. by eexists.
Qed.

(** C5.  An empty mesh is refused with a 400 and the world is left as
    it was; a mesh that begins with "glTF" is a [.glb], one that begins
    with "Kaydara FBX" is a [.fbx], and the scratch file carries that
    extension (the pipeline is given that file once the bytes are
    written to it); any other mesh is refused with a 400 and the world
    is left as it was. *)
Theorem mesh_signature_classification (mesh_bytes : list byte) (db : DB E)
    (w : world) :
  (mesh_bytes = [] ->
   _prepare_input_memory E mesh_bytes db w
   = (Raise (HTTPException 400 (JStr
       "Received empty mesh data. The 'mesh_b64_str' field in the request payload cannot be empty.")),
      w)) /\
  (glTF `prefix_of` mesh_bytes -> mesh_ext mesh_bytes = Some ".glb") /\
  (Kaydara_FBX `prefix_of` mesh_bytes -> mesh_ext mesh_bytes = Some ".fbx") /\
  (mesh_bytes <> [] ->
   ~ glTF `prefix_of` mesh_bytes -> ~ Kaydara_FBX `prefix_of` mesh_bytes ->
   _prepare_input_memory E mesh_bytes db w
   = (Raise (HTTPException 400 (JStr
       "Unsupported mesh format. Supported: .glb or .fbx")), w)) /\
  (forall ext,
     mesh_bytes <> [] -> mesh_ext mesh_bytes = Some ext ->
     fs w !! scratch_path E ext w = None ->
     exists evs,
       log (snd (_prepare_input_memory E mesh_bytes db w))
       = (log w ++ EvMkTemp (scratch_path E ext w) :: evs)%list /\
       (file_write E (<[scratch_path E ext w := File []]> (fs w))
          (scratch_path E ext w) mesh_bytes = None ->
        exists evs',
          evs = EvPrepareInput (scratch_path E ext w) false float_0_0 false
                :: evs')).
Proof.
  split; [| split; [| split; [| split]]].
  - by intros ->.
  - apply mesh_ext_glb.
  - apply mesh_ext_fbx.
  - intros Hne Hg Hk. unfold _prepare_input_memory.
    destruct mesh_bytes as [| b rest]; [done |].
    by rewrite (mesh_ext_other _ Hg Hk).
  - intros ext. apply prepare_input_memory_events.
Qed.
End Mesh.

(* ===================================================================== *)
(** * The worker: the trace of a request                                  *)
(* ===================================================================== *)

Section Tracking.
Import Worker WorkerSpec.
Variable E : Env.

Lemma follows_refl P w : follows E P w w.
Proof. split; [exists []; by rewrite app_nil_r | done]. Qed.

Lemma follows_trans P w1 w2 w3 :
  follows E P w1 w2 -> follows E P w2 w3 -> follows E P w1 w3.
Proof.
  intros [(e1 & H1 & F1 & N1) K1] [(e2 & H2 & F2 & N2) K2]. split.
  - exists (e1 ++ e2)%list. rewrite H2, H1, app_assoc.
    split; [done |]. split; by apply Forall_app.
  - intros p Hp Hf. by apply K2, K1.
Qed.

Lemma follows_impl (P Q : event -> Prop) w w' :
  (forall ev, P ev -> Q ev) -> follows E P w w' -> follows E Q w w'.
Proof.
  intros HPQ [(evs & H & F & N) K]. split; [| done].
  exists evs. split; [done |]. split; [| done]. exact (Forall_impl _ _ _ F HPQ).
Qed.

Lemma follows_call {A} P (ev : event) (f : ext A) w :
  P ev -> ~ is_mktemp ev ->
  (forall p, later_stages_keep E p -> keeps_no_file p f) ->
  follows E P w (snd (call_ext ev f w)).
Proof.
  intros HP Hn Hk. unfold call_ext. simpl.
  destruct (f (fs w)) as [r fs'] eqn:Hf. simpl. split.
  - exists [ev]. split; [done |]. split; (constructor; [assumption | constructor]).
  - intros p Hp Hfile. simpl. specialize (Hk p Hp (fs w) Hfile).
    by rewrite Hf in Hk.
Qed.

Lemma snd_call {A} ev (f : ext A) w : snd (call ev f w) = snd (call_ext ev f w).
Proof. unfold call. by destruct (call_ext ev f w) as [[e | a] w']. Qed.

Lemma follows_bind {A B} P (m : M A) (k : A -> M B) w :
  follows E P w (snd (m w)) ->
  (forall a w', follows E P w' (snd (k a w'))) ->
  follows E P w (snd (bind m k w)).
Proof.
  intros Hm Hk. unfold bind. destruct (m w) as [[a | e] w'] eqn:Hmw; simpl in *.
  - eapply follows_trans; [exact Hm | apply Hk].
  - exact Hm.
Qed.


Lemma traced_refl P w : traced E P w w.
Proof. exists []. rewrite app_nil_r. split; [done |]. split; [done |]. done. Qed.

Lemma traced_follows P w1 w2 w3 :
  traced E P w1 w2 -> follows E P w2 w3 -> traced E P w1 w3.
Proof.
  intros (e1 & H1 & F1 & K1) [(e2 & H2 & F2 & N2) K2].
  exists (e1 ++ e2)%list. rewrite H2, H1, app_assoc.
  split; [done |]. split; [by apply Forall_app |].
  intros p Hin Hprep Hp. rewrite Forall_forall in N2.
  apply in_app_or in Hin as [Hin | Hin];
    [| destruct (N2 (EvMkTemp p)); [by apply list_elem_of_In | done]].
  apply in_app_or in Hprep as [Hprep | Hprep];
    [| destruct (N2 (EvPrepareInput p false float_0_0 false));
       [by apply list_elem_of_In | done]].
  by apply K2, K1.
Qed.

Lemma traced_impl (P Q : event -> Prop) w w' :
  (forall ev, P ev -> Q ev) -> traced E P w w' -> traced E Q w w'.
Proof.
  intros HPQ (evs & H & F & K). exists evs.
  split; [done |]. split; [exact (Forall_impl _ _ _ F HPQ) | done].
Qed.

Lemma cleanup_input_Some p w :
  fs (cleanup_input (Some p) w) !! p = None /\
  (log (cleanup_input (Some p) w) = log w \/
   log (cleanup_input (Some p) w) = (log w ++ [EvUnlink p])%list).
Proof.
  unfold cleanup_input, exists_.
  destruct (fs w !! p) as [n |] eqn:Hp; simpl.
  - split; [apply lookup_delete_eq | by right].
  - split; [done | by left].
Qed.

(** [_prepare_input_memory] leaves the world as it is; or it has made
    the scratch file and the write has failed, and the file stays; or
    it has made the file, called [prepare_input] and removed the file. *)
Lemma prepare_input_memory_effect mesh_bytes db w :
  snd (_prepare_input_memory E mesh_bytes db w) = w \/
  exists ext,
    mesh_bytes <> [] /\ mesh_ext mesh_bytes = Some ext /\
    fs w !! scratch_path E ext w = None /\
    ((exists e written,
        file_write E (<[scratch_path E ext w := File []]> (fs w))
          (scratch_path E ext w) mesh_bytes = Some (e, written) /\
        _prepare_input_memory E mesh_bytes db w
        = (Raise (HTTPException 500
                    (JStr ("Mesh preparation failed: " +:+ err_str e))),
           mkWorld (<[scratch_path E ext w := File written]> (fs w))
             (cache w) (clock w)
             (log w ++ [EvMkTemp (scratch_path E ext w)])%list)) \/
     (exists evs,
        file_write E (<[scratch_path E ext w := File []]> (fs w))
          (scratch_path E ext w) mesh_bytes = None /\
        fs (snd (_prepare_input_memory E mesh_bytes db w))
          !! scratch_path E ext w = None /\
        log (snd (_prepare_input_memory E mesh_bytes db w))
        = (log w ++ EvMkTemp (scratch_path E ext w)
                  :: EvPrepareInput (scratch_path E ext w) false float_0_0 false
                  :: evs)%list /\
        (evs = [] \/ evs = [EvUnlink (scratch_path E ext w)]))).
Proof.
  unfold _prepare_input_memory.
  destruct mesh_bytes as [| b rest]; [by left |].
  destruct (mesh_ext (b :: rest)) as [ext |]; [| by left].
  unfold NamedTemporaryFile.
  change (["dev"; "shm"] ++ [tempfile_name E (fs w) +:+ ext])%list
    with (scratch_path E ext w).
  set (p := scratch_path E ext w).
  destruct (fs w !! p) as [n |] eqn:Hfree; [by left |].
  right. exists ext. split; [done |]. split; [done |]. split; [done |].
  cbn [fs emit set_fs].
  destruct (file_write E (<[p := File []]> (fs w)) p (b :: rest))
    as [[e written] |] eqn:Hwrite.
  - left. exists e, written. split; [done |].
    unfold cleanup_input, set_fs. simpl. by rewrite insert_insert_eq.
  - right. unfold call_ext.
    destruct (prepare_input E _ _ _ _ _ _) as [r fs'] eqn:Hp. cbn [snd].
    set (w1 := set_fs fs' _).
    change (let '(_, _, w0) := (Some p, r, w1) in cleanup_input (Some p) w0)
      with (cleanup_input (Some p) w1).
    destruct (cleanup_input_Some p w1) as [Hgone Hlog].
    assert (log w1 = (log w ++ [EvMkTemp p; EvPrepareInput p false float_0_0 false])%list)
      as Hw1 by (unfold w1; simpl; by rewrite <- app_assoc).
    destruct Hlog as [Hlog | Hlog].
    + exists []. rewrite Hlog, Hw1. by repeat split; try left.
    + exists [EvUnlink p]. rewrite Hlog, Hw1, <- app_assoc.
      by repeat split; try right.
Qed.

Lemma traced_prepare_input_memory animation_name mesh_bytes db w :
  traced E (pipeline_event animation_name) w
    (snd (_prepare_input_memory E mesh_bytes db w)).
Proof.
  destruct (prepare_input_memory_effect mesh_bytes db w)
    as [-> | (ext & _ & _ & _ & [(e & written & _ & ->)
                                | (evs & _ & Hgone & Hlog & Hevs)])];
    [apply traced_refl | |].
  - exists [EvMkTemp (scratch_path E ext w)]. split; [done |]. split.
    + repeat constructor.
    + intros q _ [Hin | []]. discriminate Hin.
  - eexists. split; [exact Hlog |]. split.
    + destruct Hevs as [-> | ->]; repeat constructor.
    + intros q Hin _ _. unfold isfile.
      assert (q = scratch_path E ext w) as ->; [| by rewrite Hgone].
      destruct Hevs as [-> | ->]; simpl in Hin;
        repeat (destruct Hin as [Hin | Hin]; [by inversion Hin |]); done.
Qed.

Lemma traced_bind {A B} P (m : M A) (k : A -> M B) w :
  traced E P w (snd (m w)) ->
  (forall a w', follows E P w' (snd (k a w'))) ->
  traced E P w (snd (bind m k w)).
Proof.
  intros Hm Hk. unfold bind. destruct (m w) as [[a | e] w'] eqn:Hmw; simpl in *.
  - eapply traced_follows; [exact Hm | apply Hk].
  - exact Hm.
Qed.

Lemma traced_run_pipeline mesh_bytes animation_name w :
  traced E (pipeline_event animation_name) w
    (snd (run_pipeline E mesh_bytes animation_name w)).
Proof.
  unfold run_pipeline.
  apply traced_bind; [apply traced_prepare_input_memory |]. intros db w1.
  repeat (apply follows_bind; [rewrite snd_call; apply follows_call;
    [constructor | simpl; tauto | intros p Hp; apply Hp] | intros ? ?]).
  apply follows_refl.
Qed.

Lemma pipeline_step_set_animation_file file payload :
  pipeline_step E (set_animation_file file payload) = pipeline_step E payload.
Proof. reflexivity. Qed.

Lemma traced_pipeline_step payload w :
  traced E (pipeline_event (animation_name_str (animation_name payload))) w
    (snd (pipeline_step E payload w)).
Proof.
  unfold pipeline_step.
  destruct (base64_b64decode E (mesh_b64_str payload)) as [e | mesh_bytes].
  - apply traced_refl.
  - pose proof (traced_run_pipeline mesh_bytes
                  (animation_name_str (animation_name payload)) w) as H.
    destruct (run_pipeline E mesh_bytes _ w) as [[db | [s d | e]] w1]; exact H.
Qed.

Lemma lookup_rmtree_below (d : path) (fs : filesystem) (q : path) :
  d `prefix_of` q -> rmtree d fs !! q = None.
Proof.
  intros Hd. unfold rmtree. apply map_lookup_filter_None. right.
  intros x _ Hn. by apply Hn.
Qed.

Lemma lookup_rmtree_other (d : path) (fs : filesystem) (q : path) :
  ~ d `prefix_of` q -> rmtree d fs !! q = fs !! q.
Proof.
  intros Hd. unfold rmtree. destruct (fs !! q) as [n |] eqn:Hq.
  - by apply map_lookup_filter_Some.
  - apply map_lookup_filter_None. by left.
Qed.

Lemma isfile_rmtree (d : path) (fs : filesystem) (q : path) :
  isfile fs q = false -> isfile (rmtree d fs) q = false.
Proof.
  unfold isfile. destruct (decide (d `prefix_of` q)) as [Hd | Hd].
  - by rewrite lookup_rmtree_below.
  - by rewrite lookup_rmtree_other.
Qed.

Lemma lookup_makedirs_from (made todo : path) (fs : filesystem) (q : path) :
  (makedirs_from made todo fs).2 !! q = fs !! q \/
  (fs !! q = None /\ (makedirs_from made todo fs).2 !! q = Some Dir).
Proof.
  revert made fs. induction todo as [| c rest IH]; intros made fs; simpl.
  - by left.
  - destruct (fs !! (made ++ [c])%list) as [[content |] |] eqn:Hd; simpl.
    + by left.
    + apply IH.
    + destruct (IH (made ++ [c])%list (<[(made ++ [c])%list := Dir]> fs))
        as [Heq | [Hnone Hdir]].
      * destruct (decide ((made ++ [c])%list = q)) as [<- | Hne].
        -- right. rewrite Heq, lookup_insert_eq. done.
        -- left. by rewrite Heq, lookup_insert_ne.
      * destruct (decide ((made ++ [c])%list = q)) as [<- | Hne].
        -- by rewrite lookup_insert_eq in Hnone.
        -- right. by rewrite lookup_insert_ne in Hnone.
Qed.

Lemma isfile_makedirs (p : path) (fs : filesystem) (q : path) :
  isfile (makedirs p fs).2 q = isfile fs q.
Proof.
  unfold isfile, makedirs.
  destruct (lookup_makedirs_from [] p fs q) as [-> | [-> ->]]; done.
Qed.

Lemma follows_render_previews glb_path w :
  follows E (render_event glb_path) w (snd (render_previews E glb_path w)).
Proof.
  unfold render_previews.
  set (w0 := emit (EvMakedirs (frames_output_dir glb_path)) w).
  pose proof (isfile_makedirs (frames_output_dir glb_path) (fs w0)) as Hmk.
  destruct (makedirs (frames_output_dir glb_path) (fs w0)) as [err fs'] eqn:Hm.
  simpl in Hmk.
  assert (follows E (render_event glb_path) w (set_fs fs' w0)) as H0.
  { split.
    - exists [EvMakedirs (frames_output_dir glb_path)]. split; [done |].
      split; (constructor; [| constructor]); [constructor | simpl; tauto].
    - intros p _ Hp. simpl. by rewrite Hmk. }
  destruct err as [e |]; [exact H0 |].
  pose proof (follows_call (render_event glb_path)
    (EvRenderThumbnail glb_path (thumbnail_output_path glb_path))
    (render_thumbnail E glb_path (thumbnail_output_path glb_path))
    (set_fs fs' w0)) as H1.
  destruct (call_ext (EvRenderThumbnail _ _) _ (set_fs fs' w0))
    as [[e | u] w1] eqn:Hc1; simpl in *.
  - eapply follows_trans; [exact H0 |].
    apply H1; [constructor | tauto | intros p Hp; apply Hp].
  - pose proof (follows_call (render_event glb_path)
      (EvRenderFrames glb_path (frames_output_dir glb_path))
      (render_frames E glb_path (frames_output_dir glb_path)) w1) as H2.
    assert (follows E (render_event glb_path) w w1) as H01.
    { eapply follows_trans; [exact H0 |].
      apply H1; [constructor | tauto | intros p Hp; apply Hp]. }
    destruct (call_ext (EvRenderFrames _ _) _ w1) as [[e | gif] w2] eqn:Hc2;
      simpl in *;
      (eapply follows_trans; [exact H01 |]);
      (apply H2; [constructor | tauto | intros p Hp; apply Hp]).
Qed.

Lemma traced_animate_body payload w :
  traced E
    (animate_event (animation_name_str (animation_name payload))
       (animate_body E payload w).1.1)
    w (animate_body E payload w).2.
Proof.
  unfold animate_body.
  pose proof (traced_pipeline_step payload w) as Hp.
  destruct (pipeline_step E payload w) as [[db | e] w1]; simpl in Hp.
  - destruct (anim_vis_path E db) as [glb_path |].
    + destruct (isfile (fs w1) glb_path).
      * pose proof (follows_render_previews glb_path w1) as Hr.
        destruct (render_previews E glb_path w1) as [gif w2]. simpl in *.
        eapply traced_follows.
        -- eapply traced_impl; [| exact Hp]. intros ev Hev. by left.
        -- eapply follows_impl; [| exact Hr]. intros ev Hev. right. left. eauto.
      * simpl. eapply traced_impl; [| exact Hp]. intros ev Hev. by left.
    + simpl. eapply traced_impl; [| exact Hp]. intros ev Hev. by left.
  - simpl. eapply traced_impl; [| exact Hp]. intros ev Hev. by left.
Qed.

Lemma follows_cleanup_render output_dir w :
  follows E (fun ev => exists d, output_dir = Some d /\ ev = EvRmtree d) w
    (cleanup_render output_dir w).
Proof.
  unfold cleanup_render. destruct output_dir as [d |]; [| apply follows_refl].
  destruct (isdir (fs w) d); [| apply follows_refl]. split.
  - exists [EvRmtree d]. split; [done |].
    split; (constructor; [| constructor]); simpl; eauto.
  - intros p _ Hp. simpl. by apply isfile_rmtree.
Qed.

Lemma isdir_cleanup_render (d : path) (w : world) :
  isdir (fs (cleanup_render (Some d) w)) d = false.
Proof.
  unfold cleanup_render. destruct (isdir (fs w) d) eqn:Hd; [| done].
  simpl. unfold isdir. by rewrite lookup_rmtree_below.
Qed.

(** What a call of [animate] leaves behind it. *)
Lemma animate_trace payload w :
  exists output_dir,
    traced E
      (animate_event (animation_name_str (animation_name payload)) output_dir)
      w (snd (animate E payload w)) /\
    (forall d, output_dir = Some d ->
               isdir (fs (snd (animate E payload w))) d = false).
Proof.
  unfold animate.
  destruct (negb (exists_ (fs w) (animation_file_path E payload))).
  - exists None. split; [apply traced_refl | done].
  - set (payload' := set_animation_file _ payload).
    pose proof (traced_animate_body payload' w) as Hb.
    destruct (animate_body E payload' w) as [[output_dir r] w2]. simpl in *.
    exists output_dir. split.
    + eapply traced_follows; [exact Hb |].
      eapply follows_impl; [| apply follows_cleanup_render].
      intros ev Hev. right. right. exact Hev.
    + intros d ->. apply isdir_cleanup_render.
Qed.
End Tracking.

Section WorkerClaims.
Import Worker WorkerSpec.
Variable E : Env.

Lemma parent_frames_output_dir glb_path :
  parent (frames_output_dir glb_path) = render_output_dir glb_path.
Proof. unfold parent, frames_output_dir. apply removelast_last. Qed.

Lemma lookup_cleanup_input (p : path) w (q : path) :
  q <> p -> fs (cleanup_input (Some p) w) !! q = fs w !! q.
Proof.
  intros Hq. unfold cleanup_input. destruct (exists_ (fs w) p); [| done].
  simpl. unfold unlink. by rewrite lookup_delete_ne.
Qed.

Lemma lookup_cleanup_render_other (d : path) w (q : path) :
  ~ d `prefix_of` q -> fs (cleanup_render (Some d) w) !! q = fs w !! q.
Proof.
  intros Hq. unfold cleanup_render. destruct (isdir (fs w) d); [| done].
  simpl. by apply lookup_rmtree_other.
Qed.

Lemma lookup_cleanup_render_below (d : path) w (q : path) :
  isdir (fs w) d = true -> d `prefix_of` q ->
  fs (cleanup_render (Some d) w) !! q = None.
Proof.
  intros Hd Hq. unfold cleanup_render. rewrite Hd. simpl.
  by apply lookup_rmtree_below.
Qed.

(** C9.  The scratch file is not removed on every exit path.  When the
    write into the new file raises, its name has not been taken yet:
    the request is answered 500 and the file stays in [/dev/shm] with
    what has reached it, for no [unlink] is made.  On every other path
    the claim holds: a scratch file that was written and given to
    [prepare_input] is not on the disk after [animate] (if the later
    stages do not put a file there again), the directory made for the
    render artifacts is not a directory any more, and the two cleanups
    touch nothing but the scratch file and the tree of that
    directory. *)
Theorem failed_write_leaves_the_scratch_file (payload : AnimationRequest)
    (w : world) :
  (forall mesh_bytes ext e written,
     exists_ (fs w) (animation_file_path E payload) = true ->
     base64_b64decode E (mesh_b64_str payload) = inr mesh_bytes ->
     mesh_ext mesh_bytes = Some ext ->
     fs w !! scratch_path E ext w = None ->
     file_write E (<[scratch_path E ext w := File []]> (fs w))
       (scratch_path E ext w) mesh_bytes = Some (e, written) ->
     animate E payload w
     = (Raise (HTTPException 500
                 (JStr ("Mesh preparation failed: " +:+ err_str e))),
        mkWorld (<[scratch_path E ext w := File written]> (fs w))
          (cache w) (clock w)
          (log w ++ [EvMkTemp (scratch_path E ext w)])%list)) /\
  (exists evs,
     log (snd (animate E payload w)) = (log w ++ evs)%list /\
     (forall p, In (EvMkTemp p) evs ->
                In (EvPrepareInput p false float_0_0 false) evs ->
                later_stages_keep E p ->
                isfile (fs (snd (animate E payload w))) p = false) /\
     (forall d, In (EvMakedirs d) evs ->
                isdir (fs (snd (animate E payload w))) (parent d) = false)) /\
  (forall mesh_bytes db w1,
     exists evs,
       log (snd (_prepare_input_memory E mesh_bytes db w1)) = (log w1 ++ evs)%list /\
       forall p, In (EvMkTemp p) evs ->
                 fs w1 !! p = None /\
                 (In (EvPrepareInput p false float_0_0 false) evs ->
                  fs (snd (_prepare_input_memory E mesh_bytes db w1)) !! p
                  = None)) /\
  (forall (p : path) w1 (q : path),
     q <> p -> fs (cleanup_input (Some p) w1) !! q = fs w1 !! q) /\
  (forall (d : path) w1 (q : path),
     ~ d `prefix_of` q -> fs (cleanup_render (Some d) w1) !! q = fs w1 !! q) /\
  (forall (d : path) w1 (q : path),
     isdir (fs w1) d = true -> d `prefix_of` q ->
     fs (cleanup_render (Some d) w1) !! q = None).
Proof.
  split; [| split; [| split; [| split; [| split]]]].
  - intros mesh_bytes ext e written Hex Hdec Hext Hfree Hwrite.
    unfold animate. rewrite Hex. simpl. unfold animate_body.
    rewrite pipeline_step_set_animation_file. unfold pipeline_step.
    rewrite Hdec. unfold run_pipeline, bind.
    destruct (prepare_input_memory_effect E mesh_bytes (DB_new E) w)
      as [Hsame | (ext' & _ & Hext' & _ & [(e' & written' & Hw' & ->)
                                         | (evs & Hw' & _)])].
    + exfalso. revert Hsame. unfold _prepare_input_memory.
      destruct mesh_bytes as [| b rest]; [done |]. rewrite Hext.
      unfold NamedTemporaryFile.
      change (["dev"; "shm"] ++ [tempfile_name E (fs w) +:+ ext])%list
        with (scratch_path E ext w).
      rewrite Hfree. cbn [fs emit set_fs]. rewrite Hwrite. simpl.
      unfold cleanup_input. intros Hsame.
      apply (f_equal log) in Hsame. simpl in Hsame.
      apply (f_equal length) in Hsame. rewrite length_app in Hsame.
      simpl in Hsame. lia.
    + rewrite Hext in Hext'. injection Hext' as <-.
      rewrite Hwrite in Hw'. by injection Hw' as <- <-.
    + rewrite Hext in Hext'. injection Hext' as <-. congruence.
  - destruct (animate_trace E payload w) as (od & (evs & Hlog & Hev & Hscratch) & Hdir).
    exists evs. split; [done |]. split; [done |].
    intros d Hin. rewrite Forall_forall in Hev.
    apply list_elem_of_In, Hev in Hin.
    destruct Hin as [Hp | [(glb_path & -> & Hr) | (d' & _ & [=])]].
    + inversion Hp.
    + inversion Hr. rewrite parent_frames_output_dir. by apply Hdir.
  - intros mesh_bytes db w1.
    destruct (prepare_input_memory_effect E mesh_bytes db w1)
      as [-> | (ext & _ & _ & Hfree & [(e & written & _ & ->)
                                     | (evs & _ & Hgone & Hlog & Hevs)])].
    + exists []. by rewrite app_nil_r.
    + exists [EvMkTemp (scratch_path E ext w1)]. split; [done |].
      intros q [[= <-] | []]. split; [done |]. intros [Hin | []].
      discriminate Hin.
    + eexists. split; [exact Hlog |]. intros q Hin.
      assert (q = scratch_path E ext w1) as ->; [| done].
      destruct Hevs as [-> | ->]; simpl in Hin;
        repeat (destruct Hin as [Hin | Hin]; [by inversion Hin |]); done.
  - apply lookup_cleanup_input.
  - apply lookup_cleanup_render_other.
  - apply lookup_cleanup_render_below.
Qed.

(** C3 (amended).  Every call of the pipeline's last stage gets the same
    options, whatever the request says, and a file named after the
    animation; two requests with the same mesh and animation name are
    served alike. *)
Theorem pipeline_options_are_fixed (payload : AnimationRequest) (w : world) :
  (exists evs,
     log (snd (animate E payload w)) = (log w ++ evs)%list /\
     forall args, In (EvVisBlender args) evs ->
       vb_reset_to_rest args = true /\
       vb_remove_fingers args = false /\
       vb_rest_pose_type args = "" /\
       vb_ignore_pose_parts args = [] /\
       vb_retarget args = true /\
       vb_inplace args = true /\
       exists dir,
         vb_animation_file args
         = path_str (dir ++ [animation_name_str (animation_name payload)
                             +:+ ".fbx"])) /\
  (forall payload',
     mesh_b64_str payload' = mesh_b64_str payload ->
     animation_name payload' = animation_name payload ->
     animate E payload' w = animate E payload w).
Proof.
  split.
  - destruct (animate_trace E payload w) as (od & (evs & Hlog & Hev & _) & _).
    exists evs. split; [done |]. intros args Hin.
    rewrite Forall_forall in Hev. apply list_elem_of_In, Hev in Hin.
    destruct Hin as [Hp | [(glb_path & _ & Hr) | (d' & _ & [=])]].
    + inversion Hp. simpl. repeat split. by exists data_dir.
    + inversion Hr.
  - intros payload' Hmesh Hname. destruct payload, payload'. simpl in *.
    subst. reflexivity.
Qed.
End WorkerClaims.

Section WorkerClaims2.
Import Worker WorkerSpec.
Variable E : Env.

Lemma null_or_str_encode_file fs p : null_or_str (encode_file E fs p).
Proof.
  unfold encode_file. destruct p as [p |]; [| by left].
  destruct (fs !! p) as [[content |] |]; [right; eauto | by left | by left].
Qed.

Lemma lookup_makedirs_Some (p : path) (fs : filesystem) (q : path) n :
  fs !! q = Some n -> (makedirs p fs).2 !! q = Some n.
Proof.
  intros Hq. unfold makedirs.
  destruct (lookup_makedirs_from [] p fs q) as [-> | [Hnone _]]; [done |].
  by rewrite Hq in Hnone.
Qed.

Lemma render_previews_keeps glb_path w n :
  renderers_keep E glb_path ->
  fs w !! glb_path = Some n ->
  fs (snd (render_previews E glb_path w)) !! glb_path = Some n.
Proof.
  intros [Ht Hf] Hglb. unfold render_previews.
  set (w0 := emit (EvMakedirs (frames_output_dir glb_path)) w).
  pose proof (lookup_makedirs_Some (frames_output_dir glb_path) (fs w0)
                glb_path n Hglb) as Hmk.
  destruct (makedirs (frames_output_dir glb_path) (fs w0)) as [err fs'].
  simpl in Hmk. destruct err as [e |]; [done |].
  unfold call_ext. simpl.
  pose proof (Ht fs') as Ht'.
  destruct (render_thumbnail E glb_path _ fs') as [[e | u] fs1]; simpl in *;
    [by rewrite Ht' |].
  pose proof (Hf fs1) as Hf'.
  destruct (render_frames E glb_path _ fs1) as [[e | gif] fs2]; simpl in *;
    by rewrite Hf', Ht'.
Qed.

Lemma animate_Ok_shape payload w r :
  fst (animate E payload w) = Ok r ->
  exists mesh gif thumb,
    r = JObj [ ("mesh_base64", mesh); ("gif_base64", gif);
               ("thumbnail_base64", thumb) ] /\
    null_or_str mesh /\ null_or_str gif /\ null_or_str thumb.
Proof.
  unfold animate.
  destruct (negb (exists_ (fs w) (animation_file_path E payload))); [done |].
  unfold animate_body.
  destruct (pipeline_step E _ w) as [[db | e] w1]; [| done].
  destruct (anim_vis_path E db) as [glb_path |]; [| done].
  destruct (isfile (fs w1) glb_path); [| done].
  destruct (render_previews E glb_path w1) as [gif_path w2]. simpl.
  intros [= <-]. unfold response_data.
  do 3 eexists. split; [reflexivity |].
  repeat split; apply null_or_str_encode_file.
Qed.

(** C8.  When the pipeline has produced its artifact, the answer is a
    success that carries it in base64, whatever the renderers do short
    of removing it.  The preview image is the base64 of the thumbnail
    file if it is on the disk after the rendering and [null] if it is
    not; the preview animation is the base64 of the file the frame
    renderer has named if it is on the disk, and [null] if a renderer
    has raised, if the frame renderer has named no file, or if the
    file is not there.  And every success has the three fields, each a
    string or [null]. *)
Theorem previews_are_best_effort (payload : AnimationRequest) (w w1 : world)
    (db : DB E) (glb_path : path) (content : list byte) :
  exists_ (fs w) (animation_file_path E payload) = true ->
  pipeline_step E payload w = (Ok db, w1) ->
  anim_vis_path E db = Some glb_path ->
  fs w1 !! glb_path = Some (File content) ->
  renderers_keep E glb_path ->
  (exists gif thumb,
     fst (animate E payload w)
     = Ok (JObj [ ("mesh_base64", JStr (base64_b64encode E content));
                  ("gif_base64", gif);
                  ("thumbnail_base64", thumb) ]) /\
     thumb
     = match fs (render_previews E glb_path w1).2
               !! thumbnail_output_path glb_path with
       | Some (File image) => JStr (base64_b64encode E image)
       | _ => JNull
       end /\
     gif
     = match (render_previews E glb_path w1).1 with
       | Some gif_path =>
           match fs (render_previews E glb_path w1).2 !! gif_path with
           | Some (File animation) => JStr (base64_b64encode E animation)
           | _ => JNull
           end
       | None => JNull
       end /\
     ((forall fs0, exists e fs1,
         render_thumbnail E glb_path (thumbnail_output_path glb_path) fs0
         = (inl e, fs1)) ->
      gif = JNull) /\
     ((forall fs0, exists e fs1,
         render_frames E glb_path (frames_output_dir glb_path) fs0
         = (inl e, fs1)) ->
      gif = JNull) /\
     ((forall fs0, exists fs1,
         render_frames E glb_path (frames_output_dir glb_path) fs0
         = (inr None, fs1)) ->
      gif = JNull)) /\
  (forall payload' w' r,
     fst (animate E payload' w') = Ok r ->
     exists mesh gif thumb,
       r = JObj [ ("mesh_base64", mesh); ("gif_base64", gif);
                  ("thumbnail_base64", thumb) ] /\
       null_or_str mesh /\ null_or_str gif /\ null_or_str thumb).
Proof.
  intros Hex Hstep Hpath Hfile Hkeep. split; [| apply animate_Ok_shape].
  unfold animate. rewrite Hex. simpl. unfold animate_body.
  rewrite pipeline_step_set_animation_file, Hstep, Hpath.
  unfold isfile at 1. rewrite Hfile.
  pose proof (render_previews_keeps glb_path w1 _ Hkeep Hfile) as Hglb.
  assert ((forall fs0, exists e fs1,
             render_thumbnail E glb_path (thumbnail_output_path glb_path) fs0
             = (inl e, fs1)) ->
          (render_previews E glb_path w1).1 = None) as Hthumb.
  { intros Hfail. unfold render_previews.
    destruct (makedirs _ _) as [[err |] fs']; [done |].
    unfold call_ext. cbn [fs set_fs emit].
    by destruct (Hfail fs') as (e & fs1 & ->). }
  assert ((forall fs0, exists e fs1,
             render_frames E glb_path (frames_output_dir glb_path) fs0
             = (inl e, fs1)) ->
          (render_previews E glb_path w1).1 = None) as Hframes.
  { intros Hfail. unfold render_previews.
    destruct (makedirs _ _) as [[err |] fs']; [done |].
    unfold call_ext. cbn [fs set_fs emit].
    destruct (render_thumbnail E glb_path _ fs') as [[e | u] fs1]; [done |].
    cbn [fs set_fs emit].
    by destruct (Hfail fs1) as (e & fs2 & ->). }
  assert ((forall fs0, exists fs1,
             render_frames E glb_path (frames_output_dir glb_path) fs0
             = (inr None, fs1)) ->
          (render_previews E glb_path w1).1 = None) as Hnone.
  { intros Hfail. unfold render_previews.
    destruct (makedirs _ _) as [[err |] fs']; [done |].
    unfold call_ext. cbn [fs set_fs emit].
    destruct (render_thumbnail E glb_path _ fs') as [[e | u] fs1]; [done |].
    cbn [fs set_fs emit].
    by destruct (Hfail fs1) as (fs2 & ->). }
  destruct (render_previews E glb_path w1) as [gif_path w2]. simpl in *.
  unfold response_data. do 2 eexists. split.
  - unfold encode_file at 1. rewrite Hglb. reflexivity.
  - split; [reflexivity |]. split; [reflexivity |].
    split; [| split]; intros Hfail.
    + by rewrite (Hthumb Hfail).
    + by rewrite (Hframes Hfail).
    + by rewrite (Hnone Hfail).
Qed.

(** C7 (amended).  A request with neither header (or with empty ones)
    is refused with a 401 and the world is left as it was; a request
    with an API key is treated as if it carried the key alone. *)
Theorem credential_gate (as_bool : json -> option bool)
    (as_float : json -> option float64) (body : json) (w : world) :
  (forall x_api_key authorization,
     truthy x_api_key = false -> truthy authorization = false ->
     post_animate E as_bool as_float x_api_key authorization body w
     = (Raise (HTTPException 401 (JStr "Missing auth header")), w)) /\
  (forall key authorization,
     key <> "" ->
     post_animate E as_bool as_float (Some key) authorization body w
     = post_animate E as_bool as_float (Some key) None body w).
Proof.
  split.
  - intros x a Hx Ha. unfold post_animate, bind, _verify_api_key,
      verify_api_key_with. by rewrite Hx, Ha.
  - intros key a Hkey. unfold post_animate, bind, _verify_api_key,
      verify_api_key_with.
    assert (truthy (Some key) = true) as ->; [| done].
    simpl. destruct (String.eqb_spec key ""); done.
Qed.
End WorkerClaims2.


(* ===================================================================== *)
(** * The worker: the authentication gate and its cache                   *)
(* ===================================================================== *)

Section Gate.
Import Worker WorkerSpec.
Variable E : Env.

Lemma get_userdata_world urls header_name header_value w :
  exists evs,
    snd (get_userdata E urls header_name header_value w)
    = mkWorld (fs w) (cache w) (clock w) (log w ++ evs)%list /\
    match urls with
    | [] => evs = []
    | url :: _ => exists evs', evs = EvGet url header_name header_value :: evs'
    end.
Proof.
  revert w. induction urls as [| url rest IH]; intros w; simpl.
  - exists []. rewrite app_nil_r. by destruct w.
  - set (w1 := emit (EvGet url header_name header_value) w).
    destruct (IH w1) as (evs & Hw & _).
    assert (forall w',
      w' = w1 \/ w' = (get_userdata E rest header_name header_value w1).2 ->
      exists evs0,
        w' = mkWorld (fs w) (cache w) (clock w) (log w ++ evs0)%list /\
        exists evs', evs0 = EvGet url header_name header_value :: evs')
      as Hcases.
    { intros w' [-> | ->].
      - exists [EvGet url header_name header_value]. split; [reflexivity | eauto].
      - exists (EvGet url header_name header_value :: evs). split; [| eauto].
        rewrite Hw. simpl. by rewrite <- app_assoc. }
    destruct (identity_get E (clock w) url header_name header_value)
      as [resp | e].
    + destruct (resp_status_code resp =? 200).
      * destruct (resp_json resp); apply Hcases; by left.
      * apply Hcases. by right.
    + destruct (is_RequestError (err_class e)); apply Hcases; [by right | by left].
Qed.

Lemma get_userdata_result urls header_name header_value w w' :
  clock w = clock w' ->
  fst (get_userdata E urls header_name header_value w)
  = fst (get_userdata E urls header_name header_value w').
Proof.
  revert w w'. induction urls as [| url rest IH]; intros w w' Hc; simpl; [done |].
  rewrite Hc.
  destruct (identity_get E (clock w') url header_name header_value)
    as [resp | e].
  - destruct (resp_status_code resp =? 200).
    + by destruct (resp_json resp).
    + by apply IH.
  - destruct (is_RequestError (err_class e)); [by apply IH | done].
Qed.

Lemma fetch_user_data_fetched header_name header_value w :
  fst (fetch_user_data E header_name header_value w)
  = fetched E (clock w) header_name header_value.
Proof. unfold fetched, fetch_user_data. by apply get_userdata_result. Qed.

Lemma fetch_user_data_world header_name header_value w :
  exists evs,
    snd (fetch_user_data E header_name header_value w)
    = mkWorld (fs w) (cache w) (clock w)
        (log w ++ EvGet "https://api.csm.ai/user/userdata" header_name header_value
               :: evs)%list.
Proof.
  unfold fetch_user_data.
  destruct (get_userdata_world endpoints header_name header_value w)
    as (evs & Hw & evs' & ->).
  by exists evs'.
Qed.

Lemma verify_with_fst (fetch fetch' : string -> string -> M json)
    x_api_key authorization w w' :
  (forall c, credential x_api_key authorization = Some c ->
             fst (fetch c.1 c.2 w) = fst (fetch' c.1 c.2 w')) ->
  fst (verify_api_key_with fetch x_api_key authorization w)
  = fst (verify_api_key_with fetch' x_api_key authorization w').
Proof.
  unfold verify_api_key_with. fold (credential x_api_key authorization).
  destruct (credential x_api_key authorization) as [[name value] |]; [| done].
  intros H. specialize (H (name, value) eq_refl). simpl in H.
  destruct (fetch name value w) as [[user | [s d | e]] w1],
    (fetch' name value w') as [[user' | [s' d' | e']] w1'];
    simpl in *; congruence.
Qed.

Lemma verify_with_snd (fetch : string -> string -> M json)
    x_api_key authorization w :
  snd (verify_api_key_with fetch x_api_key authorization w)
  = match credential x_api_key authorization with
    | Some c => snd (fetch c.1 c.2 w)
    | None => w
    end.
Proof.
  unfold verify_api_key_with. fold (credential x_api_key authorization).
  destruct (credential x_api_key authorization) as [[name value] |]; [| done].
  simpl. by destruct (fetch name value w) as [[user | [s d | e]] w1].
Qed.

Lemma json_null_or_not (j : json) : j = JNull \/ j <> JNull.
Proof. destruct j; (by left) || by right. Qed.

Lemma cache_in_windows_set_clock opened t w :
  clock w <= t -> cache_in_windows E opened w ->
  cache_in_windows E opened (set_clock t w).
Proof.
  intros Ht [J1 J2]. split; [exact J1 |].
  intros c t0 Hc. destruct (J2 c t0 Hc) as [Hentry | Hclosed]; [by left |].
  right. simpl. lia.
Qed.

(** Within the window of its credential the decorated function answers
    from the cache, and that is what the service answers if it is
    consistent there. *)
Lemma cached_fetch_inside opened c t0 w :
  cache_in_windows E opened w ->
  opened !! c = Some t0 -> clock w < t0 + 300 ->
  fetched E (clock w) c.1 c.2 = fetched E t0 c.1 c.2 ->
  _fetch_user_data_from_api E c.1 c.2 w
  = (fetched E (clock w) c.1 c.2, w).
Proof.
  intros [J1 J2] Hc Hin Hcons. destruct c as [name value]. simpl in *.
  destruct (J2 _ _ Hc) as [(user & Huser & Hentry) | Hclosed]; [| lia].
  destruct (J1 _ _ _ Hentry Huser) as [_ Hfetched]. simpl in Hfetched.
  replace (t0 + 300 - 300) with t0 in Hfetched by lia.
  unfold _fetch_user_data_from_api, cached, cache_get. rewrite Hentry.
  destruct (Z.ltb_spec (clock w) (t0 + 300)); [| lia].
  rewrite Hcons, Hfetched. by destruct user.
Qed.

(** Outside the windows the decorated function asks the service, and
    opens a window if the service answers with a user. *)
Lemma cached_fetch_outside opened c w :
  cache_in_windows E opened w ->
  (forall t0, opened !! c = Some t0 -> t0 + 300 <= clock w) ->
  fst (_fetch_user_data_from_api E c.1 c.2 w) = fetched E (clock w) c.1 c.2 /\
  cache_in_windows E
    (if answers_a_user E (clock w) c then <[c := clock w]> opened else opened)
    (snd (_fetch_user_data_from_api E c.1 c.2 w)) /\
  clock (snd (_fetch_user_data_from_api E c.1 c.2 w)) = clock w.
Proof.
  intros [J1 J2] Hout.
  pose proof (fetch_user_data_fetched c.1 c.2 w) as Hres.
  destruct (fetch_user_data_world c.1 c.2 w) as (evs & Hw).
  unfold _fetch_user_data_from_api, cached.
  assert (let miss :=
            match fetch_user_data E c.1 c.2 w with
            | (Ok result, w') => (Ok result, cache_set (c.1, c.2) result 300 w')
            | (Raise e, w') => (Raise e, w')
            end in
          miss.1 = fetched E (clock w) c.1 c.2 /\
          cache_in_windows E
            (if answers_a_user E (clock w) c then <[c := clock w]> opened
             else opened) miss.2 /\
          clock miss.2 = clock w) as Hmiss.
  { unfold answers_a_user. rewrite <- Hres.
    destruct (fetch_user_data E c.1 c.2 w) as [[result | e] w'];
      simpl in *; subst w'; simpl.
    - split; [done |]. split; [| done].
      assert (forall k : string * string, k <> c ->
                (<[(c.1, c.2) := (result, clock w + 300)]> (cache w)) !! k
                = cache w !! k) as Hother.
      { intros k Hk. apply lookup_insert_ne. by destruct c. }
      assert ((<[(c.1, c.2) := (result, clock w + 300)]> (cache w)) !! c
              = Some (result, clock w + 300)) as Hself.
      { destruct c. apply lookup_insert_eq. }
      destruct (json_null_or_not result) as [-> | Hnull].
      + split; unfold cache_set; simpl.
        * intros k user expires Hk Huser.
          destruct (decide (k = c)) as [-> | Hne].
          -- rewrite Hself in Hk. by injection Hk as <- <-.
          -- rewrite Hother in Hk by done. by apply J1.
        * intros k t0 Hk. destruct (decide (k = c)) as [-> | Hne].
          -- right. by apply Hout.
          -- rewrite Hother by done. by apply J2.
      + assert ((if match result with JNull => false | _ => true end
                 then <[c := clock w]> opened else opened)
                = <[c := clock w]> opened) as -> by by destruct result.
        split; unfold cache_set; simpl.
        * intros k user expires Hk Huser.
          destruct (decide (k = c)) as [-> | Hne].
          -- rewrite Hself in Hk. injection Hk as <- <-.
             replace (clock w + 300 - 300) with (clock w) by lia.
             rewrite lookup_insert_eq. by rewrite <- Hres.
          -- rewrite Hother in Hk by done.
             rewrite lookup_insert_ne by done. by apply J1.
        * intros k t0 Hk. destruct (decide (k = c)) as [-> | Hne].
          -- rewrite lookup_insert_eq in Hk. injection Hk as <-.
             left. exists result. by rewrite Hself.
          -- rewrite lookup_insert_ne in Hk by done.
             rewrite Hother by done. by apply J2.
    - split; [done |]. split; [| done]. split; [exact J1 | exact J2]. }
  destruct (cache_get (c.1, c.2) w) as [value |] eqn:Hget; [| exact Hmiss].
  destruct (json_null_or_not value) as [-> | Hnull]; [exact Hmiss |].
  exfalso. unfold cache_get in Hget.
  destruct (cache w !! (c.1, c.2)) as [[user expires] |] eqn:Hentry; [| done].
  destruct (Z.ltb_spec (clock w) expires) as [Hlt | Hge]; [| done].
  injection Hget as ->.
  destruct (J1 (c.1, c.2) value expires Hentry Hnull) as [Hopened _].
  assert ((c.1, c.2) = c) as Hc by by destruct c. rewrite Hc in Hopened.
  specialize (Hout _ Hopened). lia.
Qed.

(** The decorated gate answers what the gate without the cache answers,
    over a run in which the service is consistent within the windows. *)
Lemma verify_all_refines calls :
  forall opened w w',
    cache_in_windows E opened w -> clock w' = clock w ->
    in_order (clock w) calls ->
    consistent_within_windows E opened calls ->
    fst (verify_all (_verify_api_key E) calls w)
    = fst (verify_all (verify_without_cache E) calls w').
Proof.
  induction calls as [| [[t x] a] rest IH]; intros opened w w' Hinv Hclock Ho Hc;
    simpl; [done |].
  destruct Ho as [Ht Ho]. simpl in Hc.
  pose proof (cache_in_windows_set_clock opened t w Ht Hinv) as Hinv0.
  set (w0 := set_clock t w) in *. set (w0' := set_clock t w').
  assert (forall c, fst (fetch_user_data E c.1 c.2 w0') = fetched E t c.1 c.2)
    as Hplain by (intros c; apply fetch_user_data_fetched).
  assert (exists opened',
            fst (_verify_api_key E x a w0)
            = fst (verify_without_cache E x a w0') /\
            cache_in_windows E opened' (snd (_verify_api_key E x a w0)) /\
            clock (snd (_verify_api_key E x a w0)) = t /\
            consistent_within_windows E opened' rest)
    as (opened' & Hres & Hinv1 & Hclock1 & Hc1).
  { unfold _verify_api_key, verify_without_cache.
    rewrite verify_with_snd.
    destruct (credential x a) as [c |] eqn:Hcred.
    - assert ((exists t0, opened !! c = Some t0 /\ t < t0 + 300 /\
                          fetched E t c.1 c.2 = fetched E t0 c.1 c.2 /\
                          consistent_within_windows E opened rest) \/
              ((forall t0, opened !! c = Some t0 -> t0 + 300 <= t) /\
               consistent_within_windows E
                 (if answers_a_user E t c then <[c := t]> opened else opened)
                 rest)) as [(t0 & Hop & Hin & Hcons & Hrest) | [Hout Hrest]].
      { destruct (opened !! c) as [t0 |] eqn:Hop.
        - destruct (Z.ltb_spec t (t0 + 300)).
          + left. exists t0. by destruct Hc.
          + right. split; [| done]. intros ? [= <-]. lia.
        - right. split; [done | done]. }
      + pose proof (cached_fetch_inside opened c t0 w0 Hinv0 Hop Hin Hcons)
          as Hhit.
        exists opened. split; [| by rewrite Hhit].
        apply verify_with_fst. intros c' Hc'. rewrite Hcred in Hc'.
        injection Hc' as <-. by rewrite Hhit, Hplain.
      + destruct (cached_fetch_outside opened c w0 Hinv0 Hout)
          as (Hfst & Hinv1 & Hclock1).
        eexists. split; [| split; [exact Hinv1 | split; [exact Hclock1 | exact Hrest]]].
        apply verify_with_fst. intros c' Hc'. rewrite Hcred in Hc'.
        injection Hc' as <-. by rewrite Hfst, Hplain.
    - exists opened. split; [| done].
      apply verify_with_fst. intros c Hc'. by rewrite Hcred in Hc'. }
  destruct (_verify_api_key E x a w0) as [r w1],
    (verify_without_cache E x a w0') as [r' w1'] eqn:Hplain'. simpl in *.
  subst r'.
  assert (clock w1' = clock w1) as Hclock'.
  { rewrite Hclock1. change w1' with (snd (r, w1')). rewrite <- Hplain'.
    unfold verify_without_cache. rewrite verify_with_snd.
    destruct (credential x a) as [c |]; [| done].
    destruct (fetch_user_data_world c.1 c.2 w0') as (evs & ->). done. }
  rewrite <- Hclock1 in Ho.
  specialize (IH opened' w1 w1' Hinv1 Hclock' Ho Hc1).
  destruct (verify_all (_verify_api_key E) rest w1) as [rs w2],
    (verify_all (verify_without_cache E) rest w1') as [rs' w2'].
  simpl in *. by rewrite IH.
Qed.

Lemma cache_get_None_later key w t :
  clock w <= t -> cache_get key w = None -> cache_get key (set_clock t w) = None.
Proof.
  intros Ht. unfold cache_get. simpl.
  destruct (cache w !! key) as [[value expires] |]; [| done].
  destruct (Z.ltb_spec (clock w) expires), (Z.ltb_spec t expires); try done. lia.
Qed.

Lemma both_endpoints_fail header_name header_value w :
  endpoint_fails E (clock w) "https://api.csm.ai/user/userdata"
    header_name header_value ->
  endpoint_fails E (clock w) "https://devapi.csm.ai/user/userdata"
    header_name header_value ->
  fetch_user_data E header_name header_value w
  = (Raise (HTTPException 403 (JStr "Invalid credentials")),
     mkWorld (fs w) (cache w) (clock w)
       (log w ++ [ EvGet "https://api.csm.ai/user/userdata" header_name header_value;
                   EvGet "https://devapi.csm.ai/user/userdata" header_name header_value ])%list).
Proof.
  unfold endpoint_fails, fetch_user_data, endpoints. simpl. intros H1 H2.
  assert (forall resp, resp_status_code resp <> 200 ->
                       (resp_status_code resp =? 200) = false) as Hne.
  { intros resp H. by apply Z.eqb_neq. }
  destruct (identity_get E (clock w) "https://api.csm.ai/user/userdata" _ _)
    as [r1 | e1];
    [rewrite (Hne _ H1) | rewrite H1];
    (destruct (identity_get E (clock w) "https://devapi.csm.ai/user/userdata" _ _)
       as [r2 | e2];
     [rewrite (Hne _ H2) | rewrite H2]);
    unfold raise, emit; simpl; by rewrite <- app_assoc.
Qed.

(** C6.  If the identity service answers consistently within the
    windows of a run (a window is opened for a credential by an answer
    that carries a user, and lasts 300 seconds; outside the windows the
    service may change its answers), the run of verifications on a
    fresh cache has the outcomes it has without the cache.  When both
    endpoints fail a credential that is not in the cache, the answer is
    a 403, the cache is left as it was, and a later call finds no
    entry; and a call that finds no entry contacts the service. *)
Theorem cache_preserves_outcomes (w : world)
    (calls : list (Z * option string * option string)) :
  consistent_within_windows E ∅ calls ->
  cache w = ∅ ->
  in_order (clock w) calls ->
  fst (verify_all (_verify_api_key E) calls w)
  = fst (verify_all (verify_without_cache E) calls w) /\
  (forall header_name header_value w1,
     cache_get (header_name, header_value) w1 = None ->
     endpoint_fails E (clock w1) "https://api.csm.ai/user/userdata"
       header_name header_value ->
     endpoint_fails E (clock w1) "https://devapi.csm.ai/user/userdata"
       header_name header_value ->
     _fetch_user_data_from_api E header_name header_value w1
     = (Raise (HTTPException 403 (JStr "Invalid credentials")),
        mkWorld (fs w1) (cache w1) (clock w1)
          (log w1 ++
            [ EvGet "https://api.csm.ai/user/userdata" header_name header_value;
              EvGet "https://devapi.csm.ai/user/userdata" header_name header_value ])%list) /\
     forall t, clock w1 <= t ->
       cache_get (header_name, header_value)
         (set_clock t (snd (_fetch_user_data_from_api E header_name header_value w1)))
       = None) /\
  (forall header_name header_value w1,
     cache_get (header_name, header_value) w1 = None ->
     exists evs,
       log (snd (_fetch_user_data_from_api E header_name header_value w1))
       = (log w1 ++ EvGet "https://api.csm.ai/user/userdata" header_name header_value
                 :: evs)%list).
Proof.
  intros Hcons Hempty Horder. split; [| split].
  - apply (verify_all_refines calls ∅); [| done | done | done].
    split.
    + intros c user expires. by rewrite Hempty, lookup_empty.
    + intros c t0. by rewrite lookup_empty.
  - intros n v w1 Hmiss H1 H2.
    assert (_fetch_user_data_from_api E n v w1
            = (Raise (HTTPException 403 (JStr "Invalid credentials")),
               mkWorld (fs w1) (cache w1) (clock w1)
                 (log w1 ++
                   [ EvGet "https://api.csm.ai/user/userdata" n v;
                     EvGet "https://devapi.csm.ai/user/userdata" n v ])%list))
      as Heq.
    { unfold _fetch_user_data_from_api, cached.
      by rewrite Hmiss, (both_endpoints_fail n v w1 H1 H2). }
    split; [exact Heq |]. intros t Ht. rewrite Heq. simpl.
    by apply (cache_get_None_later _ w1 t Ht) in Hmiss.
  - intros n v w1 Hmiss. unfold _fetch_user_data_from_api, cached.
    rewrite Hmiss.
    destruct (fetch_user_data_world n v w1) as (evs & Hw).
    destruct (fetch_user_data E n v w1) as [[user | e] w2]; simpl in *;
      subst w2; simpl; eauto.
Qed.
End Gate.

(* ===================================================================== *)
(** * The dispatcher: what is forwarded, and to whom                    *)
(* ===================================================================== *)

Section RouterRuns.
Import Router RouterSpec.

Variable as_bool : json -> option bool.
Variable as_float : json -> option float64.

Lemma serve_all_accepted requests st :
  serve_all as_bool as_float requests st
  = dispatch_all (accepted as_bool as_float requests) st.
Proof.
  revert st. induction requests as [| [post request] rest IH]; intros st;
    [done |].
  simpl. unfold post_animate, accepted. simpl.
  destruct (validate_AnimationRequest as_bool as_float (body request))
    as [payload |]; simpl; apply IH.
Qed.

Lemma length_forwarded_dispatch_all (pool : list string) :
  pool <> [] ->
  forall calls k ws sent,
    length (forwarded (dispatch_all calls
                         (mkRouter (mkAppState ws (cycle_at pool k)) sent)))
    = (length sent + length calls)%nat.
Proof.
  intros Hne calls. induction calls as [| [[post payload] request] rest IH];
    intros k ws sent; simpl; [lia |].
  unfold route_animation_request; simpl.
  rewrite (cycle_next_at pool k Hne).
  destruct (lookup_lt_is_Some_2 pool (k mod length pool)%nat) as [x Hx].
  { apply Nat.mod_upper_bound. destruct pool; simpl; [done | lia]. }
  rewrite Hx. simpl. rewrite IH, length_app. simpl. lia.
Qed.

Lemma worker_servers_dispatch_all calls st :
  worker_servers (app (dispatch_all calls st)) = worker_servers (app st).
Proof.
  revert st. induction calls as [| [[post payload] request] rest IH];
    intros st; simpl; [done |].
  rewrite IH. unfold route_animation_request.
  by destruct (cycle_next (server_cycle (app st))) as [[worker_url |] cyc].
Qed.

Lemma dispatch_all_calls (pool : list string) (a : app_state)
    (calls : list ((post_call -> post_result) * AnimationRequest * Request)) :
  configure pool = Some a ->
  length (forwarded (dispatch_all calls (start a))) = length calls /\
  forall i post payload request,
    calls !! i = Some (post, payload, request) ->
    exists worker_url,
      pool !! (i mod length pool)%nat = Some worker_url /\
      forwarded (dispatch_all calls (start a)) !! i
      = Some (forwarded_call worker_url payload request).
Proof.
  intros Ha. destruct (configure_Some _ _ Ha) as [Hne ->]. split.
  - unfold start.
    by rewrite (length_forwarded_dispatch_all pool Hne calls 0 pool []).
  - intros i post payload request Hcall.
    destruct (dispatch_all_at pool Hne calls 0 pool []) as (_ & _ & Hnew).
    specialize (Hnew i _ Hcall). simpl in Hnew. unfold start. rewrite Hnew.
    unfold call_at. simpl.
    destruct (lookup_lt_is_Some_2 pool (i mod length pool)%nat) as [x Hx].
    { apply Nat.mod_upper_bound. destruct pool; simpl; [done | lia]. }
    rewrite Hx. by exists x.
Qed.

(** X1.  The calls the dispatcher makes for a run of validated requests are
    exactly these: one per request, in order; the i-th goes to
    [/animate] on the worker at position [i mod n] of the pool, with
    the dump of the validated model for body, the content type and
    the credentials of the inbound request for headers, and the
    worker timeout. *)
Theorem forwarded_calls_exact (pool : list string) (a : app_state)
    (calls : list ((post_call -> post_result) * AnimationRequest * Request)) :
  configure pool = Some a ->
  length (forwarded (dispatch_all calls (start a))) = length calls /\
  forall i post payload request,
    calls !! i = Some (post, payload, request) ->
    exists worker_url,
      pool !! (i mod length pool)%nat = Some worker_url /\
      forwarded (dispatch_all calls (start a)) !! i
      = Some (forwarded_call worker_url payload request).
Proof. apply dispatch_all_calls. Qed.

(** X2.  A request the validation refuses is not forwarded and does not
    advance the cycle: over any run of inbound requests, the i-th
    accepted one goes to the worker at position [i mod n]. *)
Theorem invalid_requests_take_no_turn (pool : list string) (a : app_state)
    (requests : list ((post_call -> post_result) * Request)) :
  configure pool = Some a ->
  length (forwarded (serve_all as_bool as_float requests (start a)))
  = length (accepted as_bool as_float requests) /\
  forall i post payload request,
    accepted as_bool as_float requests !! i = Some (post, payload, request) ->
    post_url <$> forwarded (serve_all as_bool as_float requests (start a)) !! i
    = (fun worker_url => worker_url +:+ "/animate")
      <$> pool !! (i mod length pool)%nat.
Proof.
  intros Ha. rewrite serve_all_accepted.
  destruct (dispatch_all_calls pool a (accepted as_bool as_float requests) Ha)
    as [Hlen Hcalls].
  split; [done |]. intros i post payload request Hi.
  destruct (Hcalls i post payload request Hi) as (worker_url & Hw & ->).
  by rewrite Hw.
Qed.
End RouterRuns.

Section RouterMore.
Import Router RouterSpec.

Variable as_bool : json -> option bool.
Variable as_float : json -> option float64.

(** X3.  [GET /health] reports the pool the application was configured
    with, whatever requests have been served before: serving never
    changes [app.state.worker_servers]. *)
Theorem health_reports_the_configured_pool (pool : list string)
    (a : app_state) (requests : list ((post_call -> post_result) * Request)) :
  configure pool = Some a ->
  health_check (app (serve_all as_bool as_float requests (start a)))
  = JObj [ ("status", JStr "ok");
           ("message", JStr "Router is active.");
           ("configured_workers", JArr (JStr <$> pool)) ].
Proof.
  intros Ha. destruct (configure_Some _ _ Ha) as [_ ->].
  unfold health_check.
  by rewrite serve_all_accepted, worker_servers_dispatch_all.
Qed.

(** X4.  Of the inbound headers the dispatcher forwards the two
    credentials and nothing else: the headers of the forwarded call
    are [Content-Type: application/json], [Authorization] if the
    request has it and [x-api-key] if the request has it, each name
    once, each credential with the value the request carries. *)
Theorem only_credentials_are_forwarded (request : Request) :
  (forall name value,
     In (name, value) (headers_to_forward request) ->
     (name = "Content-Type" /\ value = "application/json") \/
     (name = "Authorization" /\
      headers_get "authorization" (headers request) = Some value) \/
     (name = "x-api-key" /\
      headers_get "x-api-key" (headers request) = Some value)) /\
  In ("Content-Type", "application/json") (headers_to_forward request) /\
  (forall value,
     headers_get "authorization" (headers request) = Some value ->
     In ("Authorization", value) (headers_to_forward request)) /\
  (forall value,
     headers_get "x-api-key" (headers request) = Some value ->
     In ("x-api-key", value) (headers_to_forward request)) /\
  NoDup (fst <$> headers_to_forward request).
Proof.
  unfold headers_to_forward.
  destruct (headers_get "authorization" (headers request)) as [auth |],
    (headers_get "x-api-key" (headers request)) as [key |]; simpl;
    (split; [intros name value H;
               repeat (destruct H as [[= <- <-] | H]; [tauto |]); done |]);
    (split; [tauto |]);
    (split; [intros value [= <-] || intros value [=]; tauto |]);
    (split; [intros value [= <-] || intros value [=]; tauto |]);
    (eapply bool_decide_unpack; by vm_compute).
Qed.

(** X5.  The handler returns a response exactly when the worker answers
    with a JSON body and a status from 200 to 299, and then it returns
    that status and that body; every other outcome of the call leaves
    the handler as an exception. *)
Theorem only_worker_successes_are_returned (post : post_call -> post_result)
    (payload : AnimationRequest) (request : Request) (st : router)
    (worker_url : string) (cyc : cycle string) (status : Z) (content : json) :
  cycle_next (server_cycle (app st)) = (Some worker_url, cyc) ->
  (fst (route_animation_request post payload request st) = Ok (status, content)
   <->
   post (forwarded_call worker_url payload request)
   = Responded (mkResponse status (Some content)) /\
   is_success status = true).
Proof.
  intros Hc. unfold route_animation_request. rewrite Hc. simpl.
  change (mkPost (worker_url +:+ "/animate") (model_dump payload)
            (headers_to_forward request) WORKER_TIMEOUT)
    with (forwarded_call worker_url payload request).
  unfold relay. split.
  - destruct (post _) as [[s [j |]] | e]; simpl.
    + destruct (is_success s) eqn:Hs.
      * by intros [= -> ->].
      * by destruct j.
    + by destruct (is_success s).
    + by destruct (err_class e).
  - intros [-> Hs]. simpl. by rewrite Hs.
Qed.

(** X6.  [create_app] never takes its [sys.exit(1)]: for every [env] the
    pool has three distinct workers and the cycle starts at the first;
    every value other than ["dev"] selects the production ports. *)
Theorem create_app_never_fails (env : string) :
  exists a,
    create_app env = Some a /\
    length (worker_servers a) = 3%nat /\
    NoDup (worker_servers a) /\
    cursor (server_cycle a) = 0%nat /\
    (env <> "dev" ->
     worker_servers a
     = ["http://localhost:9001"; "http://localhost:9002"; "http://localhost:9003"]).
Proof.
  unfold create_app, worker_ports.
  destruct (String.eqb_spec env "dev") as [-> | Hne]; eexists;
    (split; [reflexivity |]); (split; [reflexivity |]);
    (split; [(eapply bool_decide_unpack; by vm_compute) |]);
    (split; [reflexivity |]); [done | by intros _].
Qed.
End RouterMore.


(* ===================================================================== *)
(** * The worker: errors, the cache, the previews                       *)
(* ===================================================================== *)

Section Auth.
Import Worker WorkerSpec WorkerFacts.
Variable E : Env.

(** X7.  The user-data endpoints are asked in order, and the second only
    when the first fails the credential (another status than 200, or
    a request error): then both are asked and a 200 of the second is
    the answer; otherwise the first alone is asked, and its 200 is the
    answer. *)
Theorem fallback_is_asked_only_after_the_primary_fails
    (header_name header_value : string) (w : world) :
  (endpoint_fails E (clock w) primary_endpoint header_name header_value ->
   log (snd (fetch_user_data E header_name header_value w))
   = (log w ++ [ EvGet primary_endpoint header_name header_value;
                 EvGet fallback_endpoint header_name header_value ])%list /\
   forall user,
     identity_get E (clock w) fallback_endpoint header_name header_value
     = GetResponded (mkResponse 200 (Some user)) ->
     fst (fetch_user_data E header_name header_value w) = Ok user) /\
  (~ endpoint_fails E (clock w) primary_endpoint header_name header_value ->
   log (snd (fetch_user_data E header_name header_value w))
   = (log w ++ [EvGet primary_endpoint header_name header_value])%list /\
   forall user,
     identity_get E (clock w) primary_endpoint header_name header_value
     = GetResponded (mkResponse 200 (Some user)) ->
     fst (fetch_user_data E header_name header_value w) = Ok user).
Proof.
  unfold fetch_user_data, endpoints, endpoint_fails, primary_endpoint,
    fallback_endpoint. simpl. split.
  - intros H1.
    split.
    + destruct (identity_get E (clock w) "https://api.csm.ai/user/userdata" _ _)
        as [r1 | e1].
      * apply Z.eqb_neq in H1. rewrite H1.
        destruct (identity_get E (clock w) "https://devapi.csm.ai/user/userdata" _ _)
          as [r2 | e2].
        -- destruct (resp_status_code r2 =? 200);
             [destruct (resp_json r2) |]; simpl; by rewrite <- app_assoc.
        -- destruct (is_RequestError (err_class e2)); simpl;
             by rewrite <- app_assoc.
      * rewrite H1.
        destruct (identity_get E (clock w) "https://devapi.csm.ai/user/userdata" _ _)
          as [r2 | e2].
        -- destruct (resp_status_code r2 =? 200);
             [destruct (resp_json r2) |]; simpl; by rewrite <- app_assoc.
        -- destruct (is_RequestError (err_class e2)); simpl;
             by rewrite <- app_assoc.
    + intros user H2.
      destruct (identity_get E (clock w) "https://api.csm.ai/user/userdata" _ _)
        as [r1 | e1].
      * apply Z.eqb_neq in H1. by rewrite H1, H2.
      * by rewrite H1, H2.
  - intros H1. split.
    + destruct (identity_get E (clock w) "https://api.csm.ai/user/userdata" _ _)
        as [r1 | e1].
      * destruct (Z.eqb_spec (resp_status_code r1) 200); [| done].
        by destruct (resp_json r1).
      * destruct (is_RequestError (err_class e1)); [done | done].
    + by intros user ->.
Qed.



End Auth.

Section Errors.
Import Worker WorkerSpec WorkerFacts.
Variable E : Env.








(** X9.  The refusals of [animate], in the order of its checks, each with
    what it leaves: a missing animation file is a 404 before anything
    else; then a mesh that is not base64 is a 500, an empty mesh a 400
    and an unknown signature a 400, all three with the machine as it
    was; and a pipeline that returns without an artifact on the disk
    is a 500 with the machine as the pipeline left it, nothing
    rendered and nothing removed. *)
Theorem animate_checks_in_order (payload : AnimationRequest) (w : world) :
  (exists_ (fs w) (animation_file_path E payload) = false ->
   animate E payload w
   = (Raise (HTTPException 404
               (JStr ("Animation file not found: " +:+
                      path_str (animation_file_path E payload)))), w)) /\
  (exists_ (fs w) (animation_file_path E payload) = true ->
   (forall e,
      base64_b64decode E (mesh_b64_str payload) = inl e ->
      animate E payload w
      = (Raise (HTTPException 500 (JStr ("Pipeline failed: " +:+ err_str e))), w)) /\
   (base64_b64decode E (mesh_b64_str payload) = inr [] ->
    animate E payload w
    = (Raise (HTTPException 400 (JStr
         "Received empty mesh data. The 'mesh_b64_str' field in the request payload cannot be empty.")),
       w)) /\
   (forall mesh_bytes,
      base64_b64decode E (mesh_b64_str payload) = inr mesh_bytes ->
      mesh_bytes <> [] -> mesh_ext mesh_bytes = None ->
      animate E payload w
      = (Raise (HTTPException 400 (JStr
           "Unsupported mesh format. Supported: .glb or .fbx")), w)) /\
   (forall db w1,
      pipeline_step E payload w = (Ok db, w1) ->
      match anim_vis_path E db with
      | Some glb_path => isfile (fs w1) glb_path = false
      | None => True
      end ->
      animate E payload w
      = (Raise (HTTPException 500 (JStr "No GLB file was produced.")), w1))).
Proof.
  split; [| intros Hex; split; [| split; [| split]]].
  - intros Hex. unfold animate. by rewrite Hex.
  - intros e He. unfold animate. rewrite Hex. simpl.
    unfold animate_body, pipeline_step. simpl. by rewrite He.
  - intros He. unfold animate. rewrite Hex. simpl.
    unfold animate_body, pipeline_step. simpl. by rewrite He.
  - intros mesh_bytes He Hne Hext. unfold animate. rewrite Hex. simpl.
    unfold animate_body, pipeline_step. simpl. rewrite He.
    unfold run_pipeline, bind, _prepare_input_memory.
    destruct mesh_bytes as [| b rest]; [done |]. by rewrite Hext.
  - intros db w1 Hstep Hglb. unfold animate. rewrite Hex. simpl.
    unfold animate_body. rewrite pipeline_step_set_animation_file, Hstep.
    destruct (anim_vis_path E db) as [glb_path |]; [| done].
    by rewrite Hglb.
Qed.
End Errors.

Section Cache.
Import Worker WorkerSpec WorkerFacts.
Variable E : Env.

Lemma cached_miss header_name header_value w :
  cache_get (header_name, header_value) w = None ->
  _fetch_user_data_from_api E header_name header_value w
  = match fetch_user_data E header_name header_value w with
    | (Ok result, w') =>
        (Ok result, cache_set (header_name, header_value) result 300 w')
    | (Raise e, w') => (Raise e, w')
    end.
Proof. intros H. unfold _fetch_user_data_from_api, cached. by rewrite H. Qed.

(** X10.  A user fetched from the identity service is answered from the
    cache, without any effect, at every time before 300 seconds have
    passed since the fetch; from then on the service is asked
    again. *)
Theorem cached_answer_lives_300_seconds (header_name header_value : string)
    (w w1 : world) (user : json) :
  cache_get (header_name, header_value) w = None ->
  _fetch_user_data_from_api E header_name header_value w = (Ok user, w1) ->
  user <> JNull ->
  (forall t,
     t < clock w + 300 ->
     _fetch_user_data_from_api E header_name header_value (set_clock t w1)
     = (Ok user, set_clock t w1)) /\
  (forall t,
     clock w + 300 <= t ->
     exists evs,
       log (snd (_fetch_user_data_from_api E header_name header_value
                   (set_clock t w1)))
       = (log w1 ++ EvGet primary_endpoint header_name header_value :: evs)%list).
Proof.
  intros Hmiss Hfetch Hnull. rewrite (cached_miss _ _ _ Hmiss) in Hfetch.
  destruct (fetch_user_data_world E header_name header_value w) as (evs & Hw).
  destruct (fetch_user_data E header_name header_value w) as [[result | e] w'];
    [| done].
  injection Hfetch as -> <-. simpl in Hw. subst w'.
  set (evs0 := (EvGet "https://api.csm.ai/user/userdata"
                  header_name header_value :: evs)).
  assert (cache (cache_set (header_name, header_value) user 300
                   (mkWorld (fs w) (cache w) (clock w) (log w ++ evs0)%list))
          !! (header_name, header_value) = Some (user, clock w + 300)) as Hc.
  { unfold cache_set. simpl. apply lookup_insert_eq. }
  assert (log (cache_set (header_name, header_value) user 300
                 (mkWorld (fs w) (cache w) (clock w) (log w ++ evs0)%list))
          = (log w ++ evs0)%list) as Hl by done.
  fold evs0.
  generalize dependent (cache_set (header_name, header_value) user 300
             (mkWorld (fs w) (cache w) (clock w) (log w ++ evs0)%list)).
  intros w1 Hc Hl. split.
  - intros t Ht. unfold _fetch_user_data_from_api, cached, cache_get.
    change (cache (set_clock t w1)) with (cache w1).
    change (clock (set_clock t w1)) with t.
    rewrite Hc. destruct (Z.ltb_spec t (clock w + 300)); [| lia].
    by destruct user.
  - intros t Ht.
    assert (cache_get (header_name, header_value) (set_clock t w1) = None) as Hm.
    { unfold cache_get.
      change (cache (set_clock t w1)) with (cache w1).
      change (clock (set_clock t w1)) with t. rewrite Hc.
      destruct (Z.ltb_spec t (clock w + 300)); [lia | done]. }
    rewrite (cached_miss _ _ _ Hm).
    destruct (fetch_user_data_world E header_name header_value (set_clock t w1))
      as (evs' & Hw').
    exists evs'.
    destruct (fetch_user_data E header_name header_value (set_clock t w1))
      as [[result | e] w2]; simpl in *; subst w2; done.
Qed.

(** X11.  A fetch of user data, cached or not, changes neither the disk nor
    the clock, and in the cache no entry but the one of its own
    header name and value. *)
Theorem fetch_touches_its_own_entry_only (header_name header_value : string)
    (w : world) :
  fs (snd (_fetch_user_data_from_api E header_name header_value w)) = fs w /\
  clock (snd (_fetch_user_data_from_api E header_name header_value w)) = clock w /\
  forall other_name other_value,
    (other_name, other_value) <> (header_name, header_value) ->
    cache (snd (_fetch_user_data_from_api E header_name header_value w))
      !! (other_name, other_value)
    = cache w !! (other_name, other_value).
Proof.
  unfold _fetch_user_data_from_api, cached.
  destruct (fetch_user_data_world E header_name header_value w) as (evs & Hw).
  assert (let miss :=
            match fetch_user_data E header_name header_value w with
            | (Ok result, w') =>
                (Ok result, cache_set (header_name, header_value) result 300 w')
            | (Raise e, w') => (Raise e, w')
            end in
          fs miss.2 = fs w /\ clock miss.2 = clock w /\
          forall other_name other_value,
            (other_name, other_value) <> (header_name, header_value) ->
            cache miss.2 !! (other_name, other_value)
            = cache w !! (other_name, other_value)) as Hmiss.
  { destruct (fetch_user_data E header_name header_value w) as [[result | e] w'];
      simpl in *; subst w'; simpl; repeat split; try done.
    intros n v Hne. by rewrite lookup_insert_ne. }
  destruct (cache_get (header_name, header_value) w) as [[] |]; simpl;
    try exact Hmiss; done.
Qed.

Lemma get_userdata_events urls header_name header_value w :
  exists evs,
    log (snd (get_userdata E urls header_name header_value w))
    = (log w ++ evs)%list /\
    Forall (fun ev => exists url,
              In url urls /\ ev = EvGet url header_name header_value) evs.
Proof.
  revert w. induction urls as [| url rest IH]; intros w; simpl.
  - exists []. by rewrite app_nil_r.
  - set (w1 := emit (EvGet url header_name header_value) w).
    destruct (IH w1) as (evs & Hlog & Hev).
    assert (forall w',
      w' = w1 \/ w' = (get_userdata E rest header_name header_value w1).2 ->
      exists evs0,
        log w' = (log w ++ evs0)%list /\
        Forall (fun ev => exists url0,
                  (url = url0 \/ In url0 rest) /\
                  ev = EvGet url0 header_name header_value) evs0) as Hcases.
    { intros w' [-> | ->].
      - exists [EvGet url header_name header_value]. split; [done |].
        constructor; [eauto | constructor].
      - exists (EvGet url header_name header_value :: evs). split.
        + rewrite Hlog. simpl. by rewrite <- app_assoc.
        + constructor; [eauto |].
          eapply Forall_impl; [exact Hev |]. intros ev (u & Hu & ->). eauto. }
    destruct (identity_get E (clock w) url header_name header_value)
      as [resp | e].
    + destruct (resp_status_code resp =? 200).
      * destruct (resp_json resp); apply Hcases; by left.
      * apply Hcases. by right.
    + destruct (is_RequestError (err_class e)); apply Hcases; [by right | by left].
Qed.

(** X12.  The gate sends nothing to the identity service but the caller's
    own credential, which is not empty, to one of the two endpoints:
    the API key under [x-api-key] if there is one, else the
    [Authorization] header under its name. *)
Theorem only_the_callers_credential_is_sent
    (x_api_key authorization : option string) (w : world) :
  exists evs,
    log (snd (_verify_api_key E x_api_key authorization w)) = (log w ++ evs)%list /\
    forall ev, In ev evs ->
      exists url header_value,
        In url [primary_endpoint; fallback_endpoint] /\
        header_value <> "" /\
        ((ev = EvGet url "x-api-key" header_value /\
          x_api_key = Some header_value) \/
         (ev = EvGet url "Authorization" header_value /\
          authorization = Some header_value /\ truthy x_api_key = false)).
Proof.
  unfold _verify_api_key, verify_api_key_with.
  assert (forall o s, truthy o = true -> o = Some s -> s <> "") as Htruthy.
  { intros o s Ht ->. simpl in Ht. intros ->. done. }
  assert (forall name value,
    exists evs,
      log (snd (_fetch_user_data_from_api E name value w)) = (log w ++ evs)%list /\
      Forall (fun ev => exists url,
                In url endpoints /\ ev = EvGet url name value) evs) as Hfetch.
  { intros name value. unfold _fetch_user_data_from_api, cached.
    destruct (get_userdata_events endpoints name value w) as (evs & Hlog & Hev).
    unfold fetch_user_data.
    assert (exists evs0,
      log (snd (match get_userdata E endpoints name value w with
                | (Ok result, w') => (Ok result, cache_set (name, value) result 300 w')
                | (Raise e, w') => (Raise e, w')
                end)) = (log w ++ evs0)%list /\
      Forall (fun ev => exists url, In url endpoints /\ ev = EvGet url name value)
        evs0) as Hmiss.
    { exists evs. split; [| done].
      by destruct (get_userdata E endpoints name value w) as [[r | e] w']. }
    destruct (cache_get (name, value) w) as [[] |]; simpl; try exact Hmiss;
      exists []; by rewrite app_nil_r. }
  destruct (truthy x_api_key) eqn:Hx.
  - destruct x_api_key as [key |]; [| done]. simpl.
    destruct (Hfetch "x-api-key" key) as (evs & Hlog & Hev).
    exists evs. split.
    + by destruct (_fetch_user_data_from_api E "x-api-key" key w)
        as [[user | [s d | pe]] w'].
    + intros ev Hin. rewrite Forall_forall in Hev.
      destruct (Hev ev) as (url & Hurl & ->); [by apply list_elem_of_In |].
      exists url, key. split; [done |]. split; [by eapply Htruthy |]. by left.
  - destruct (truthy authorization) eqn:Ha.
    + destruct authorization as [auth |]; [| done]. simpl.
      destruct (Hfetch "Authorization" auth) as (evs & Hlog & Hev).
      exists evs. split.
      * by destruct (_fetch_user_data_from_api E "Authorization" auth w)
          as [[user | [s d | pe]] w'].
      * intros ev Hin. rewrite Forall_forall in Hev.
        destruct (Hev ev) as (url & Hurl & ->); [by apply list_elem_of_In |].
        exists url, auth. split; [done |]. split; [by eapply Htruthy |].
        by right.
    + exists []. by rewrite app_nil_r.
Qed.
End Cache.

Section Previews.
Import Worker WorkerSpec WorkerFacts.
Variable E : Env.

Lemma animate_after_pipeline payload w db w1 glb_path :
  exists_ (fs w) (animation_file_path E payload) = true ->
  pipeline_step E payload w = (Ok db, w1) ->
  anim_vis_path E db = Some glb_path ->
  isfile (fs w1) glb_path = true ->
  animate E payload w
  = (Ok (response_data E (fs (render_previews E glb_path w1).2) (Some glb_path)
           (render_previews E glb_path w1).1
           (Some (thumbnail_output_path glb_path))),
     cleanup_render (Some (render_output_dir glb_path))
       (render_previews E glb_path w1).2).
Proof.
  intros Hex Hstep Hpath Hfile. unfold animate. rewrite Hex. simpl.
  unfold animate_body.
  rewrite pipeline_step_set_animation_file, Hstep, Hpath, Hfile.
  by destruct (render_previews E glb_path w1) as [gif w2].
Qed.

(** X13.  When the thumbnail renderer raises, the frame renderer is never
    called: the answer is still a success, its [gif_base64] is
    [null], and no frame rendering is among the effects. *)
Theorem failed_thumbnail_skips_the_frames (payload : AnimationRequest)
    (w w1 : world) (db : DB E) (glb_path : path) :
  exists_ (fs w) (animation_file_path E payload) = true ->
  pipeline_step E payload w = (Ok db, w1) ->
  anim_vis_path E db = Some glb_path ->
  isfile (fs w1) glb_path = true ->
  (forall fs0, exists e fs1,
     render_thumbnail E glb_path (thumbnail_output_path glb_path) fs0
     = (inl e, fs1)) ->
  exists mesh thumb evs,
    fst (animate E payload w)
    = Ok (JObj [ ("mesh_base64", mesh); ("gif_base64", JNull);
                 ("thumbnail_base64", thumb) ]) /\
    log (snd (animate E payload w)) = (log w1 ++ evs)%list /\
    forall g d, ~ In (EvRenderFrames g d) evs.
Proof.
  intros Hex Hstep Hpath Hfile Hfail.
  rewrite (animate_after_pipeline _ _ _ _ _ Hex Hstep Hpath Hfile).
  unfold render_previews, cleanup_render.
  set (w0 := emit (EvMakedirs (frames_output_dir glb_path)) w1).
  destruct (makedirs (frames_output_dir glb_path) (fs w0)) as [[err |] fs'];
    simpl.
  - do 2 eexists.
    destruct (isdir fs' (render_output_dir glb_path)); simpl.
    + exists [EvMakedirs (frames_output_dir glb_path);
              EvRmtree (render_output_dir glb_path)].
      split; [reflexivity |]. split; [by rewrite <- app_assoc |].
      intros g d Hin. simpl in Hin.
      repeat (destruct Hin as [Hin | Hin]; [discriminate |]). done.
    + exists [EvMakedirs (frames_output_dir glb_path)].
      split; [reflexivity |]. split; [done |].
      intros g d Hin. simpl in Hin.
      repeat (destruct Hin as [Hin | Hin]; [discriminate |]). done.
  - unfold call_ext. simpl.
    destruct (Hfail fs') as (e & fs1 & ->). simpl.
    do 2 eexists.
    destruct (isdir fs1 (render_output_dir glb_path)); simpl.
    + exists [EvMakedirs (frames_output_dir glb_path);
              EvRenderThumbnail glb_path (thumbnail_output_path glb_path);
              EvRmtree (render_output_dir glb_path)].
      split; [reflexivity |]. split; [by rewrite <- !app_assoc |].
      intros g d Hin. simpl in Hin.
      repeat (destruct Hin as [Hin | Hin]; [discriminate |]). done.
    + exists [EvMakedirs (frames_output_dir glb_path);
              EvRenderThumbnail glb_path (thumbnail_output_path glb_path)].
      split; [reflexivity |]. split; [by rewrite <- !app_assoc |].
      intros g d Hin. simpl in Hin.
      repeat (destruct Hin as [Hin | Hin]; [discriminate |]). done.
Qed.

Lemma rfind_get c s i : rfind c s = Some i -> String.get i s = Some c.
Proof.
  revert i. induction s as [| a rest IH]; intros i; simpl; [done |].
  destruct (rfind c rest) as [j |].
  - intros [= <-]. by apply IH.
  - destruct (Ascii.eqb_spec a c) as [-> |]; [| done]. by intros [= <-].
Qed.

Lemma length_substring_0 i s :
  (i <= String.length s)%nat -> String.length (String.substring 0 i s) = i.
Proof.
  revert i. induction s as [| a rest IH]; intros [| i]; simpl; try done; try lia.
  intros Hi. rewrite IH; lia.
Qed.

Lemma get_app_length (a b : string) :
  String.get (String.length a) (a +:+ b) = String.get 0 b.
Proof. induction a as [| c a IH]; simpl; done. Qed.

Lemma length_app_string (a b : string) :
  String.length (a +:+ b) = (String.length a + String.length b)%nat.
Proof. induction a as [| c a IH]; simpl; [done | by rewrite IH]. Qed.

Lemma get_Some_lt i s c : String.get i s = Some c -> (i < String.length s)%nat.
Proof.
  revert i. induction s as [| a rest IH]; intros [| i]; simpl; try done; try lia.
  intros H. apply IH in H. lia.
Qed.

(** The name of the render directory is not the name of the artifact. *)
Lemma stem_render_output_ne (p : path) :
  stem p +:+ "_render_output" <> name p.
Proof.
  unfold stem. set (n := name p).
  assert (n +:+ "_render_output" <> n) as Hn.
  { intros H. apply (f_equal String.length) in H.
    rewrite length_app_string in H. simpl in H. lia. }
  destruct (rfind "." n) as [i |] eqn:Hi; [| done].
  destruct ((0 <? i) && (i <? String.length n - 1))%nat; [| done].
  apply rfind_get in Hi. pose proof (get_Some_lt _ _ _ Hi) as Hlt.
  intros H. rewrite <- H in Hi at 1.
  rewrite <- (length_substring_0 i n) in Hi at 1 by lia.
  rewrite get_app_length in Hi. done.
Qed.

Lemma render_output_dir_not_above (glb_path : path) :
  ~ render_output_dir glb_path `prefix_of` glb_path.
Proof.
  unfold render_output_dir, parent. intros [rest Hrest].
  destruct (decide (glb_path = [])) as [-> | Hne].
  - simpl in Hrest. done.
  - rewrite (app_removelast_last "" Hne) in Hrest at 1.
    rewrite <- app_assoc in Hrest. apply app_inv_head in Hrest.
    simpl in Hrest. injection Hrest as Hname _.
    by apply (stem_render_output_ne glb_path).
Qed.

(** X14.  After a successful [animate] whose render directory exists, the
    thumbnail, the GIF where [render_frames] saves it and everything
    in the frames directory are gone from the disk, while the
    animated mesh itself is left where the pipeline wrote it: the
    render directory is never above the artifact. *)
Theorem previews_are_removed_and_the_artifact_is_kept
    (payload : AnimationRequest) (w w1 w2 : world) (db : DB E)
    (glb_path : path) (gif : option path) :
  exists_ (fs w) (animation_file_path E payload) = true ->
  pipeline_step E payload w = (Ok db, w1) ->
  anim_vis_path E db = Some glb_path ->
  isfile (fs w1) glb_path = true ->
  render_previews E glb_path w1 = (gif, w2) ->
  isdir (fs w2) (render_output_dir glb_path) = true ->
  fs (snd (animate E payload w)) !! thumbnail_output_path glb_path = None /\
  fs (snd (animate E payload w))
    !! gif_path glb_path (frames_output_dir glb_path) = None /\
  (forall q, frames_output_dir glb_path `prefix_of` q ->
             fs (snd (animate E payload w)) !! q = None) /\
  fs (snd (animate E payload w)) !! glb_path = fs w2 !! glb_path.
Proof.
  intros Hex Hstep Hpath Hfile Hprev Hdir.
  rewrite (animate_after_pipeline _ _ _ _ _ Hex Hstep Hpath Hfile).
  rewrite Hprev. simpl.
  split; [| split; [| split]].
  - apply lookup_cleanup_render_below; [done |].
    by apply prefix_app_r.
  - apply lookup_cleanup_render_below; [done |].
    unfold gif_path. rewrite parent_frames_output_dir. by apply prefix_app_r.
  - intros q Hq. apply lookup_cleanup_render_below; [done |].
    etrans; [| exact Hq]. by apply prefix_app_r.
  - apply lookup_cleanup_render_other, render_output_dir_not_above.
Qed.
End Previews.

Section Stages.
Import Worker WorkerSpec WorkerFacts.
Variable E : Env.

End Stages.


(* ===================================================================== *)
(** * The launcher and the stopper                                      *)
(* ===================================================================== *)

Section LauncherFacts.
Import Launcher.
Variable Popen : list step -> process -> bool.

Lemma launch_workers_steps pairs done :
  let starts :=
    (fun pair : Z * Z => Started (worker_process pair.1 pair.2)) <$> pairs in
  match launch_workers Popen pairs done with
  | (None, steps) => steps = (done ++ starts)%list
  | (Some code, steps) =>
      code = 1 /\
      exists k pair,
        pairs !! k = Some pair /\
        steps = (done ++ take k starts)%list /\
        Popen steps (worker_process pair.1 pair.2) = false
  end.
Proof.
  revert done. induction pairs as [| [port gpu_id] rest IH]; intros done; simpl.
  - by rewrite app_nil_r.
  - destruct (Popen done (worker_process port gpu_id)) eqn:Hp.
    + specialize (IH (done ++ [Started (worker_process port gpu_id)])%list).
      simpl in IH.
      destruct (launch_workers Popen rest _) as [[code |] steps].
      * destruct IH as (-> & k & pair & Hk & -> & Hfail). split; [done |].
        exists (S k), pair. split; [done |]. split; [| done].
        simpl. by rewrite <- app_assoc.
      * rewrite IH. by rewrite <- app_assoc.
    + split; [done |]. exists 0%nat, (port, gpu_id).
      split; [done |]. split; [| done]. simpl. by rewrite app_nil_r.
Qed.

(** X16.  A launch that returns has started every worker, each on its port
    with its GPU, then slept, then started the router for the same
    environment, in this order.  A launch that exits does so with
    code 1, has started workers only, never the router, and none at
    all if the numbers of ports and of GPUs differ. *)
Theorem launcher_starts_the_workers_then_the_router (config : config)
    (environment_name : string) :
  match launch_all_servers Popen config environment_name with
  | (None, steps) =>
      length (worker_ports config) = length GPU_IDS /\
      steps = (worker_steps config ++
               [Slept 3;
                Started (router_process (router_port config) environment_name)])%list
  | (Some code, steps) =>
      code = 1 /\
      steps `prefix_of` (worker_steps config ++ [Slept 3])%list /\
      (forall p, In (Started p) steps -> exists port gpu_id,
                   p = worker_process port gpu_id) /\
      (length (worker_ports config) <> length GPU_IDS -> steps = [])
  end.
Proof.
  unfold launch_all_servers.
  destruct (Nat.eqb_spec (length (worker_ports config)) (length GPU_IDS))
    as [Hlen | Hlen]; simpl.
  - pose proof (launch_workers_steps (zip (worker_ports config) GPU_IDS) [])
      as Hw. simpl in Hw. fold (worker_steps config) in Hw.
    assert (forall l p,
      l `prefix_of` (worker_steps config ++ [Slept 3])%list ->
      In (Started p) l -> exists port gpu_id, p = worker_process port gpu_id)
      as Hworkers.
    { intros l p [rest Hl] Hin.
      assert (In (Started p) (worker_steps config ++ [Slept 3])%list) as Hin'.
      { rewrite Hl. apply in_or_app. by left. }
      apply in_app_or in Hin'. destruct Hin' as [Hin' | [Hin' | []]]; [| done].
      unfold worker_steps in Hin'. apply list_elem_of_In in Hin'.
      apply list_elem_of_fmap in Hin'. destruct Hin' as ([port gpu] & [= ->] & _).
      by exists port, gpu. }
    destruct (launch_workers Popen _ []) as [[code |] steps].
    + destruct Hw as (-> & k & pair & _ & -> & _).
      assert (take k (worker_steps config)
                `prefix_of` (worker_steps config ++ [Slept 3])%list) as Hpre.
      { etrans; [apply prefix_take | by apply prefix_app_r]. }
      split; [done |]. split; [done |]. split; [| done].
      intros p. by apply Hworkers.
    + subst steps.
      destruct (Popen _ (router_process (router_port config) environment_name)).
      * split; [done |]. by rewrite <- app_assoc.
      * split; [done |]. split; [done |]. split; [| done].
        intros p. by apply Hworkers.
  - split; [done |]. split; [apply prefix_nil |]. split; [| done].
    intros p [].
Qed.

Lemma launch_all_servers_complete (config : config) environment_name steps :
  launch_all_servers Popen config environment_name = (None, steps) ->
  steps = (worker_steps config ++
           [Slept 3;
            Started (router_process (router_port config) environment_name)])%list.
Proof.
  unfold launch_all_servers.
  destruct (negb _); [done |].
  pose proof (launch_workers_steps (zip (worker_ports config) GPU_IDS) [])
    as Hw. simpl in Hw. fold (worker_steps config) in Hw.
  destruct (launch_workers Popen _ []) as [[code |] started]; [done |].
  subst started. destruct (Popen _ _); [| done].
  intros [= <-]. by rewrite <- app_assoc.
Qed.

(** X17.  The three tables of ports agree: when the launcher script
    returns, the environment is ["dev"] or ["prod"], the stopper has
    the same configuration for it, and the router it has started
    forwards to exactly the ports the workers were started on, in the
    same order; the four ports are distinct. *)
Theorem launched_router_forwards_to_the_launched_workers
    (env : option string) (steps : list step) :
  main Popen env = (None, steps) ->
  exists config a,
    config_of CONFIG_MAPPING (default "dev" env) = Some config /\
    config_of Killer.CONFIG_MAPPING (default "dev" env) = Some config /\
    steps = (worker_steps config ++
             [Slept 3;
              Started (router_process (router_port config)
                         (default "dev" env))])%list /\
    Router.create_app (default "dev" env) = Some a /\
    Router.worker_servers a
    = (fun port => "http://localhost:" +:+ pretty port) <$> worker_ports config /\
    NoDup (router_port config :: worker_ports config).
Proof.
  unfold main. set (e := default "dev" env). clearbody e.
  destruct (config_of CONFIG_MAPPING e) as [config |] eqn:Hconfig; [| done].
  intros Hlaunch. apply launch_all_servers_complete in Hlaunch.
  exists config.
  assert (e = "dev" \/ e = "prod") as [-> | ->].
  { unfold config_of, CONFIG_MAPPING in Hconfig. simpl in Hconfig.
    destruct (decide ("dev" = e)); [by left |].
    destruct (decide ("prod" = e)); [by right |]. done. }
  - injection Hconfig as <-. eexists. split; [done |]. split; [done |].
    split; [done |]. split; [reflexivity |]. split; [reflexivity |].
    eapply bool_decide_unpack. by vm_compute.
  - injection Hconfig as <-. eexists. split; [done |]. split; [done |].
    split; [done |]. split; [reflexivity |]. split; [reflexivity |].
    eapply bool_decide_unpack. by vm_compute.
Qed.
End LauncherFacts.

Section KillerFacts.
Import Killer.
Variable get_pids_on_port : list step -> Z -> option (list string).
Variable kill_process : list step -> string -> Z -> kill_result.

Lemma kills_app l1 l2 : kills (l1 ++ l2) = (kills l1 ++ kills l2)%list.
Proof. unfold kills. apply omap_app. Qed.

Lemma probes_app l1 l2 : probes (l1 ++ l2) = (probes l1 ++ probes l2)%list.
Proof. unfold probes. apply omap_app. Qed.

Lemma kill_pids_steps pids port st :
  match kill_pids kill_process pids port st with
  | inr st' =>
      processes_killed_count st'
      = (processes_killed_count st + length pids)%nat /\
      kills (steps st') = (kills (steps st) ++ ((fun pid => (pid, port)) <$> pids))%list /\
      probes (steps st') = probes (steps st)
  | inl st' =>
      exists k,
        (k < length pids)%nat /\
        processes_killed_count st' = (processes_killed_count st + k)%nat /\
        kills (steps st')
        = (kills (steps st) ++ ((fun pid => (pid, port)) <$> take (S k) pids))%list /\
        probes (steps st') = probes (steps st)
  end.
Proof.
  revert st. induction pids as [| pid rest IH]; intros st; simpl.
  - split; [lia |]. by rewrite app_nil_r.
  - set (st1 := mkProgress (S (processes_killed_count st))
                  (steps st ++ [Kill pid port])%list).
    assert (kills (steps st1) = (kills (steps st) ++ [(pid, port)])%list) as Hk
      by (unfold st1; simpl; by rewrite kills_app).
    assert (probes (steps st1) = probes (steps st)) as Hp
      by (unfold st1; simpl; rewrite probes_app; simpl; by rewrite app_nil_r).
    assert (match kill_pids kill_process rest port st1 with
            | inr st' =>
                processes_killed_count st'
                = (processes_killed_count st + S (length rest))%nat /\
                kills (steps st')
                = (kills (steps st) ++ (pid, port) :: ((fun pid => (pid, port)) <$> rest))%list /\
                probes (steps st') = probes (steps st)
            | inl st' =>
                exists k,
                  (k < S (length rest))%nat /\
                  processes_killed_count st' = (processes_killed_count st + k)%nat /\
                  kills (steps st')
                  = (kills (steps st) ++ ((fun pid => (pid, port)) <$> take (S k) (pid :: rest)))%list /\
                  probes (steps st') = probes (steps st)
            end) as Hnext.
    { specialize (IH st1).
      destruct (kill_pids kill_process rest port st1) as [st' | st'].
      - destruct IH as (k & Hlt & Hc & Hks & Hps). exists (S k).
        split; [lia |]. split; [simpl in Hc; lia |]. split; [| congruence].
        rewrite Hks, Hk, <- app_assoc. done.
      - destruct IH as (Hc & Hks & Hps). split; [simpl in Hc; lia |].
        split; [| congruence]. rewrite Hks, Hk, <- app_assoc. done. }
    destruct (kill_process (steps st) pid port); try exact Hnext.
    exists 0%nat. simpl. split; [lia |]. split; [lia |].
    rewrite kills_app, probes_app. simpl. by rewrite app_nil_r.
Qed.

Lemma kill_ports_steps ports st :
  processes_killed_count st = length (kills (steps st)) ->
  match kill_ports get_pids_on_port kill_process ports st with
  | inr st' =>
      processes_killed_count st' = length (kills (steps st')) /\
      probes (steps st') = (probes (steps st) ++ ports)%list
  | inl st' =>
      length (kills (steps st')) - 1 <= processes_killed_count st'
        <= length (kills (steps st')) /\
      exists k, (k < length ports)%nat /\
        probes (steps st') = (probes (steps st) ++ take (S k) ports)%list
  end%nat.
Proof.
  revert st. induction ports as [| port rest IH]; intros st Hst; simpl.
  - split; [done |]. by rewrite app_nil_r.
  - destruct (get_pids_on_port (steps st) port) as [pids |].
    + set (st1 := mkProgress (processes_killed_count st)
                    (steps st ++ [Probed port])%list).
      assert (kills (steps st1) = kills (steps st)) as Hk
        by (unfold st1; simpl; rewrite kills_app; simpl; by rewrite app_nil_r).
      assert (probes (steps st1) = (probes (steps st) ++ [port])%list) as Hp
        by (unfold st1; simpl; by rewrite probes_app).
      pose proof (kill_pids_steps pids port st1) as Hpids.
      destruct (kill_pids kill_process pids port st1) as [st' | st'].
      * destruct Hpids as (k & Hlt & Hc & Hks & Hps). split.
        -- rewrite Hks, Hc, Hk, length_app, length_fmap, length_take.
           unfold st1. cbn [processes_killed_count]. lia.
        -- exists 0%nat. split; [lia |]. rewrite Hps, Hp. done.
      * destruct Hpids as (Hc & Hks & Hps).
        assert (processes_killed_count st' = length (kills (steps st'))) as Hst'.
        { rewrite Hc, Hks, Hk, length_app, length_fmap. unfold st1. simpl. lia. }
        specialize (IH st' Hst').
        destruct (kill_ports get_pids_on_port kill_process rest st')
          as [st2 | st2].
        -- destruct IH as (Hc2 & k & Hlt & Hp2). split; [done |].
           exists (S k). split; [lia |].
           rewrite Hp2, Hps, Hp, <- app_assoc. done.
        -- destruct IH as (Hc2 & Hp2). split; [done |].
           rewrite Hp2, Hps, Hp, <- app_assoc. done.
    + simpl. rewrite kills_app, probes_app. simpl. rewrite app_nil_r.
      split; [lia |]. exists 0%nat. split; [lia | done].
Qed.

(** X18.  The stopper probes the worker ports in order and then the router
    port, and its counter is the number of kill attempts, whether
    they succeeded or not: a run that is not cut short reports
    [Finished n] with [n] the attempts made, or that nothing was
    found exactly when no attempt was made. *)
Theorem kill_count_is_the_number_of_attempts (config : Launcher.config) :
  match kill_all_servers_by_port get_pids_on_port kill_process config with
  | inr (message, st) =>
      probes (steps st)
      = (Launcher.worker_ports config ++ [Launcher.router_port config])%list /\
      processes_killed_count st = length (kills (steps st)) /\
      (message = NothingFound <-> kills (steps st) = []) /\
      (forall total, message = Finished total ->
                     total = length (kills (steps st)))
  | inl st =>
      probes (steps st)
        `prefix_of` (Launcher.worker_ports config ++ [Launcher.router_port config])%list /\
      (length (kills (steps st)) - 1 <= processes_killed_count st
        <= length (kills (steps st)))%nat
  end.
Proof.
  unfold kill_all_servers_by_port.
  pose proof (kill_ports_steps
                (Launcher.worker_ports config ++ [Launcher.router_port config])
                (mkProgress 0 []) eq_refl) as H.
  destruct (kill_ports get_pids_on_port kill_process _ _) as [st | st].
  - destruct H as (Hc & k & _ & Hp). split; [| done].
    rewrite Hp. simpl. apply prefix_take.
  - destruct H as (Hc & Hp). split; [done |]. split; [done |].
    rewrite Hc. destruct (kills (steps st)) as [| x l]; simpl.
    + split; [done |]. by intros total [=].
    + split; [split; done |]. by intros total [= <-].
Qed.
End KillerFacts.


(* ===================================================================== *)
(** * The job handler, the scripts, the add-on, the start               *)
(* ===================================================================== *)

Section JobHandlerFacts.
Import JobHandler.

Lemma split_nonempty sep s : split sep s <> [].
Proof.
  destruct s as [| c rest]; simpl; [done |].
  destruct (Ascii.eqb c sep); [done |]. by destruct (split sep rest).
Qed.

Lemma split_without sep s : contains sep s = false -> split sep s = [s].
Proof.
  induction s as [| c rest IH]; simpl; [done |].
  destruct (Ascii.eqb c sep); simpl; [done |].
  intros H. by rewrite IH.
Qed.

(** [(a + sep + s).split(sep) == a.split(sep) + s.split(sep)]. *)
Lemma split_app sep (a s : string) :
  split sep (a +:+ String sep s) = (split sep a ++ split sep s)%list.
Proof.
  induction a as [| c a IH]; simpl.
  - by rewrite Ascii.eqb_refl.
  - destruct (Ascii.eqb c sep); [by rewrite IH |].
    rewrite IH. pose proof (split_nonempty sep a).
    by destruct (split sep a).
Qed.

(** No piece of a split holds the separator, nor a character the
    string did not hold. *)
Lemma split_pieces sep c s :
  (c = sep \/ contains c s = false) ->
  Forall (fun piece => contains c piece = false) (split sep s).
Proof.
  induction s as [| a rest IH]; simpl; intros H.
  - by constructor.
  - destruct (Ascii.eqb_spec a sep) as [-> | Hne].
    + constructor; [done |]. apply IH.
      destruct H as [-> | H]; [by left |].
      right. by apply orb_false_elim in H as [_ H].
    + assert (Ascii.eqb a c = false /\ (c = sep \/ contains c rest = false))
        as [Hac Hrest].
      { destruct H as [-> | H].
        - split; [by apply Ascii.eqb_neq | by left].
        - apply orb_false_elim in H as [H1 H2]. split; [done | by right]. }
      specialize (IH Hrest).
      destruct (split sep rest) as [| first others]; simpl.
      * constructor; [simpl; by rewrite Hac | done].
      * inversion IH as [| ? ? Hfirst Hothers]; subst.
        constructor; [simpl; by rewrite Hac, Hfirst | done].
Qed.

Lemma append_empty (s : string) : s +:+ "" = s.
Proof.
  induction s as [| c s IH]; [done |].
  change (String c (s +:+ "") = String c s). by rewrite IH.
Qed.

Lemma last_app_nonempty {A} (l1 l2 : list A) d :
  l2 <> [] -> List.last (l1 ++ l2) d = List.last l2 d.
Proof.
  intros Hne. induction l1 as [| x l1 IH]; [done |].
  simpl. destruct (l1 ++ l2)%list eqn:Happ; [| done].
  apply app_eq_nil in Happ. by destruct Happ.
Qed.

Lemma Forall_last {A} (P : A -> Prop) l d :
  l <> [] -> Forall P l -> P (List.last l d).
Proof.
  intros Hne Hall. induction Hall as [| x l Hx Hl IH]; [done |].
  destruct l; [done |]. by apply IH.
Qed.

(** X19.  The extension the job handler reads off a mesh URL: for a URL
    that ends in a dot, an extension without dot or question mark,
    and nothing or a query string without dot, it is that extension;
    and for every URL it holds neither a dot nor a question mark. *)
Theorem mesh_extension_of_a_url (base extension rest : string) :
  contains "." extension = false ->
  contains "?" extension = false ->
  rest = "" \/ (exists query, rest = String "?" query /\ contains "." query = false) ->
  mesh_extension (base +:+ String "." (extension +:+ rest)) = extension /\
  forall url,
    contains "." (mesh_extension url) = false /\
    contains "?" (mesh_extension url) = false.
Proof.
  intros Hdot Hq Hrest. split.
  - unfold mesh_extension. rewrite split_app.
    rewrite last_app_nonempty by apply split_nonempty.
    destruct Hrest as [-> | (query & -> & Hquery)].
    + rewrite append_empty.
      rewrite (split_without "." extension Hdot). simpl.
      by rewrite (split_without "?" extension Hq).
    + rewrite (split_without "." (extension +:+ String "?" query)).
      * cbn [List.last]. rewrite split_app.
        rewrite (split_without "?" extension Hq). done.
      * clear -Hdot Hquery. induction extension as [| c e IH]; simpl in *.
        -- done.
        -- apply orb_false_elim in Hdot as [-> Hdot]. simpl. by apply IH.
  - intros url. unfold mesh_extension.
    set (tail := List.last (split "." url) "").
    assert (contains "." tail = false) as Htail.
    { apply (Forall_last (fun piece => contains "." piece = false));
        [apply split_nonempty |]. apply split_pieces. by left. }
    pose proof (split_nonempty "?" tail) as Hne.
    pose proof (split_pieces "?" "." tail (or_intror Htail)) as H1.
    pose proof (split_pieces "?" "?" tail (or_introl eq_refl)) as H2.
    destruct (split "?" tail) as [| first others]; [done |]. simpl.
    inversion H1; inversion H2; by subst.
Qed.
End JobHandlerFacts.

Section ScriptFacts.
Import Scripts.

Lemma index_Some x argv i :
  index x argv = Some i <->
  exists pre post, argv = (pre ++ x :: post)%list /\ (x ∉ pre) /\ length pre = i.
Proof.
  revert i. induction argv as [| a rest IH]; intros i; simpl.
  - split; [done |]. intros (pre & post & H & _). by destruct pre.
  - destruct (String.eqb_spec a x) as [-> | Hne].
    + split.
      * intros [= <-]. exists [], rest. split; [done |]. split; [| done].
        apply not_elem_of_nil.
      * intros (pre & post & H & Hpre & <-).
        destruct pre as [| p pre]; [done |].
        injection H as <- _. exfalso. apply Hpre. by left.
    + destruct (index x rest) as [j |]; simpl.
      * split.
        -- intros [= <-]. destruct (proj1 (IH j) eq_refl)
             as (pre & post & -> & Hpre & <-).
           exists (a :: pre), post. split; [done |]. split; [| done].
           intros Hin. apply elem_of_cons in Hin as [-> | Hin]; done.
        -- intros (pre & post & H & Hpre & <-).
           destruct pre as [| p pre]; [by injection H as -> |].
           injection H as <- ->. simpl. f_equal.
           assert (Some j = Some (length pre)) as [= ->]; [| done].
           apply IH. exists pre, post. split; [done |]. split; [| done].
           intros Hin. apply Hpre. by right.
      * split; [done |].
        intros (pre & post & H & Hpre & <-).
        destruct pre as [| p pre]; [by injection H as -> |].
        injection H as <- ->.
        assert (None = Some (length pre)) as [=].
        apply IH. exists pre, post. split; [done |]. split; [| done].
        intros Hin. apply Hpre. by right.
Qed.

Lemma drop_after (pre post : list string) x :
  drop (S (length pre)) (pre ++ x :: post)%list = post.
Proof. induction pre as [| p pre IH]; simpl; [by rewrite drop_0 | exact IH]. Qed.

(** X20.  The Blender scripts run only on a command line that ends with
    the first ["--"] followed by exactly two arguments; the script
    that exits on a missing ["--"] and those that take it for an
    empty argument list accept the same command lines. *)
Theorem scripts_need_two_paths_after_the_separator (argv : list string)
    (a b : string) :
  (render_script_paths argv = Some (a, b) <->
   exists pre, argv = (pre ++ ["--"; a; b])%list /\ ("--" ∉ pre)) /\
  join_script_paths argv = render_script_paths argv.
Proof.
  split.
  - unfold render_script_paths, render_args. split.
    + destruct (index "--" argv) as [i |] eqn:Hi; [| done].
      apply index_Some in Hi as (pre & post & -> & Hpre & <-).
      rewrite drop_after.
      destruct post as [| a' [| b' [| c post]]]; try done.
      intros [= -> ->]. by exists pre.
    + intros (pre & -> & Hpre).
      assert (index "--" (pre ++ ["--"; a; b])%list = Some (length pre)) as ->.
      { apply index_Some. by exists pre, [a; b]. }
      by rewrite drop_after.
  - unfold join_script_paths, render_script_paths, render_args.
    by destruct (index "--" argv).
Qed.
End ScriptFacts.

Section AddonFacts.
Import AutoRigPro.
Variables blender pymodule : Type.
Variable register_of : submodule -> blender -> (pyerr + unit) * blender.
Variable unregister_of : submodule -> blender -> (pyerr + unit) * blender.
Variable __name__ : string.

Lemma calls_app l1 l2 : calls (l1 ++ l2) = (calls l1 ++ calls l2)%list.
Proof. unfold calls. apply omap_app. Qed.

Lemma try_register_effect m label critical (st : state blender pymodule) :
  calls (trail (try_register blender pymodule register_of m label critical st).2)
  = (calls (trail st) ++ [Register m])%list /\
  sys_modules (try_register blender pymodule register_of m label critical st).2
  = sys_modules st /\
  match (register_of m (bpy st)).1 with
  | inr _ =>
      (try_register blender pymodule register_of m label critical st).1 = Ok tt
  | inl e =>
      (try_register blender pymodule register_of m label critical st).1
      = if critical then Raise (PyError e) else Ok tt
  end.
Proof.
  unfold try_register.
  destruct (register_of m (bpy st)) as [[e | u] b]; simpl.
  - destruct critical; simpl; rewrite !calls_app; simpl;
      by rewrite app_nil_r.
  - by rewrite calls_app.
Qed.

(** X21.  [register] calls the four submodules in order whatever the first
    three do, leaves [sys.modules] alone, and raises only the error
    of [auto_rig_remap.register]: if that one returns, [register]
    returns. *)
Theorem register_fails_only_with_the_remap (st : state blender pymodule) :
  calls (trail (register blender pymodule register_of st).2)
  = (calls (trail st) ++
     [Register auto_rig_prefs; Register rig_functions; Register auto_rig;
      Register auto_rig_remap])%list /\
  sys_modules (register blender pymodule register_of st).2 = sys_modules st /\
  (forall e,
     (register blender pymodule register_of st).1 = Raise e ->
     exists pe b, e = PyError pe /\ (register_of auto_rig_remap b).1 = inl pe) /\
  ((forall b, exists u b', register_of auto_rig_remap b = (inr u, b')) ->
   (register blender pymodule register_of st).1 = Ok tt).
Proof.
  unfold register.
  destruct (try_register_effect auto_rig_prefs "auto_rig_prefs" false st)
    as (Ht1 & Hm1 & _).
  destruct (try_register _ _ _ auto_rig_prefs _ _ st) as [r1 st1].
  destruct (try_register_effect rig_functions "rig_functions" false st1)
    as (Ht2 & Hm2 & _).
  destruct (try_register _ _ _ rig_functions _ _ st1) as [r2 st2].
  destruct (try_register_effect auto_rig "auto_rig" false st2)
    as (Ht3 & Hm3 & _).
  destruct (try_register _ _ _ auto_rig _ _ st2) as [r3 st3].
  destruct (try_register_effect auto_rig_remap "auto_rig_remap" true st3)
    as (Ht4 & Hm4 & Hr4).
  simpl in *. split; [| split; [| split]].
  - rewrite Ht4, Ht3, Ht2, Ht1, <- !app_assoc. done.
  - congruence.
  - intros e He. destruct (register_of auto_rig_remap (bpy st3)) as [[pe | u] b] eqn:Hreg;
      simpl in Hr4; rewrite Hr4 in He; [| done].
    injection He as <-. exists pe, (bpy st3). by rewrite Hreg.
  - intros Hok. destruct (Hok (bpy st3)) as (u & b' & Hreg).
    by rewrite Hreg in Hr4.
Qed.

Lemma try_unregister_effect m label (st : state blender pymodule) :
  calls (trail (try_unregister blender pymodule unregister_of m label st))
  = (calls (trail st) ++ [Unregister m])%list /\
  sys_modules (try_unregister blender pymodule unregister_of m label st)
  = sys_modules st.
Proof.
  unfold try_unregister.
  destruct (unregister_of m (bpy st)) as [[e | u] b]; simpl.
  - rewrite !calls_app. simpl. by rewrite app_nil_r.
  - by rewrite calls_app.
Qed.

Lemma lookup_cleanse_loop (keys : list string) (modules : gmap string pymodule)
    (k : string) :
  fold_left
    (fun modules k =>
       if String.prefix __name__ k then delete k modules else modules)
    keys modules !! k
  = if bool_decide (k ∈ keys) && String.prefix __name__ k
    then None else modules !! k.
Proof.
  revert modules. induction keys as [| key keys IH]; intros modules; simpl.
  - done.
  - rewrite IH. destruct (decide (k = key)) as [-> | Hne].
    + rewrite (bool_decide_eq_true_2 (key ∈ key :: keys)) by by left.
      simpl. destruct (String.prefix __name__ key) eqn:Hp.
      * rewrite andb_true_r. rewrite lookup_delete_eq.
        by destruct (bool_decide _).
      * by rewrite andb_false_r.
    + assert (bool_decide (k ∈ key :: keys) = bool_decide (k ∈ keys)) as ->.
      { apply bool_decide_ext. rewrite elem_of_cons.
        split; [by intros [? | ?] | by right]. }
      destruct (bool_decide (k ∈ keys) && String.prefix __name__ k); [done |].
      destruct (String.prefix __name__ key); [| done].
      by rewrite lookup_delete_ne.
Qed.

Lemma lookup_cleanse_modules (modules : gmap string pymodule) (k : string) :
  cleanse_modules pymodule __name__ modules !! k
  = if String.prefix __name__ k then None else modules !! k.
Proof.
  unfold cleanse_modules. rewrite lookup_cleanse_loop.
  destruct (String.prefix __name__ k); [| by rewrite andb_false_r].
  rewrite andb_true_r. destruct (bool_decide_reflect (k ∈ sorted_keys pymodule modules))
    as [Hin | Hout]; [done |].
  destruct (modules !! k) as [v |] eqn:Hk; [| done].
  exfalso. apply Hout. unfold sorted_keys.
  rewrite merge_sort_Permutation. apply list_elem_of_fmap.
  exists (k, v). split; [done |]. by apply elem_of_map_to_list.
Qed.

(** X22.  [unregister] never raises: it calls the four submodules in the
    reverse order whatever each does, and then [sys.modules] has lost
    exactly the names that start with the package's name. *)
Theorem unregister_never_fails (st : state blender pymodule) :
  (unregister blender pymodule unregister_of __name__ st).1 = Ok tt /\
  calls (trail (unregister blender pymodule unregister_of __name__ st).2)
  = (calls (trail st) ++
     [Unregister auto_rig_remap; Unregister auto_rig; Unregister rig_functions;
      Unregister auto_rig_prefs])%list /\
  forall k,
    sys_modules (unregister blender pymodule unregister_of __name__ st).2 !! k
    = if String.prefix __name__ k then None else sys_modules st !! k.
Proof.
  unfold unregister.
  destruct (try_unregister_effect auto_rig_remap "auto_rig_remap" st)
    as (Ht1 & Hm1).
  set (st1 := try_unregister _ _ _ auto_rig_remap _ st) in *.
  destruct (try_unregister_effect auto_rig "auto_rig" st1) as (Ht2 & Hm2).
  set (st2 := try_unregister _ _ _ auto_rig _ st1) in *.
  destruct (try_unregister_effect rig_functions "rig_functions" st2)
    as (Ht3 & Hm3).
  set (st3 := try_unregister _ _ _ rig_functions _ st2) in *.
  destruct (try_unregister_effect auto_rig_prefs "auto_rig_prefs" st3)
    as (Ht4 & Hm4).
  set (st4 := try_unregister _ _ _ auto_rig_prefs _ st3) in *.
  simpl. split; [done |]. split.
  - rewrite Ht4, Ht3, Ht2, Ht1, <- !app_assoc. done.
  - intros k. rewrite lookup_cleanse_modules. by rewrite Hm4, Hm3, Hm2, Hm1.
Qed.
End AddonFacts.

Section LifespanFacts.
Import Lifespan.
Variable lower : string -> string.

Lemma motion_key_inj i j : motion_key i = motion_key j -> i = j.
Proof.
  unfold motion_key. intros H. apply String.app_inj in H.
  by apply pretty_nat_inj in H.
Qed.

Lemma motion_key_not_default i : motion_key i <> "default".
Proof.
  unfold motion_key. intros H.
  apply (f_equal (String.get 0)) in H. by vm_compute in H.
Qed.

Lemma scan_miss idx listing (db : gmap string json) k :
  (forall i fname,
     listing !! i = Some fname -> endswith (lower fname) ".fbx" = true ->
     k <> motion_key (idx + i)) ->
  scan lower idx listing db !! k = db !! k.
Proof.
  revert idx db. induction listing as [| fname rest IH]; intros idx db Hk;
    simpl; [done |].
  rewrite IH.
  - destruct (endswith (lower fname) ".fbx") eqn:Hfbx; [| done].
    apply lookup_insert_ne. intros Heq.
    apply (Hk 0%nat fname); [done | done |].
    by rewrite Nat.add_0_r.
  - intros i f Hi Hf. replace (S idx + i)%nat with (idx + S i)%nat by lia.
    by apply (Hk (S i) f).
Qed.

Lemma scan_hit idx listing (db : gmap string json) i fname :
  listing !! i = Some fname -> endswith (lower fname) ".fbx" = true ->
  scan lower idx listing db !! motion_key (idx + i)
  = Some (motion ("./data/" +:+ fname) (Worker.stem [fname])).
Proof.
  revert idx db i. induction listing as [| f rest IH]; intros idx db i Hi Hf;
    [done |].
  destruct i as [| i]; simpl in *.
  - injection Hi as ->. rewrite Hf, Nat.add_0_r.
    rewrite scan_miss; [apply lookup_insert_eq |].
    intros i f _ _ Heq. apply motion_key_inj in Heq. lia.
  - replace (idx + S i)%nat with (S idx + i)%nat by lia. by apply IH.
Qed.

(** X23.  When no pickled table is loaded and [./data] is a directory, the
    table after the start has, under [motion_<position>], the file at
    each position of the listing whose name ends in [.fbx] whatever
    the case, and no [motion_] entry for any other position; the
    [default] entry is there exactly when no listed file is an FBX
    and [./data/Standard Run.fbx] exists. *)
Theorem scanned_table_has_one_entry_per_fbx_file (m : machine)
    (listing : list string) :
  (forall pickled, animation_pkl m <> Some (inr pickled)) ->
  data_listing m = Some listing ->
  (forall idx fname,
     listing !! idx = Some fname ->
     lifespan lower m ∅ !! motion_key idx
     = if endswith (lower fname) ".fbx"
       then Some (motion ("./data/" +:+ fname) (Worker.stem [fname]))
       else None) /\
  (forall idx, listing !! idx = None ->
               lifespan lower m ∅ !! motion_key idx = None) /\
  (lifespan lower m ∅ !! "default"
   = if forallb (fun fname => negb (endswith (lower fname) ".fbx")) listing
        && standard_run_exists m
     then Some (motion "./data/Standard Run.fbx" "Standard Run")
     else None).
Proof.
  intros Hpkl Hdata. unfold lifespan.
  assert (match animation_pkl m with
          | Some (inr pickled) => (true, pickled ∪ (∅ : gmap string json))
          | _ => (false, ∅)
          end = (false, ∅)) as ->.
  { destruct (animation_pkl m) as [[e | pickled] |]; try done.
    by destruct (Hpkl pickled). }
  rewrite Hdata. simpl.
  set (db := scan lower 0 listing ∅).
  assert (forall idx fname,
            listing !! idx = Some fname ->
            db !! motion_key idx
            = if endswith (lower fname) ".fbx"
              then Some (motion ("./data/" +:+ fname) (Worker.stem [fname]))
              else None) as Hin.
  { intros idx fname Hidx. destruct (endswith (lower fname) ".fbx") eqn:Hf.
    - by apply (scan_hit 0).
    - unfold db. rewrite scan_miss; [done |].
      intros i f Hi Hfi Heq. apply motion_key_inj in Heq. simpl in Heq.
      subst i. congruence. }
  assert (forall idx, listing !! idx = None -> db !! motion_key idx = None)
    as Hout.
  { intros idx Hidx. unfold db. rewrite scan_miss; [done |].
    intros i f Hi _ Heq. apply motion_key_inj in Heq. simpl in Heq.
    subst i. congruence. }
  assert (db !! "default" = None) as Hdefault.
  { unfold db. rewrite scan_miss; [done |].
    intros i f _ _ Heq. by apply (motion_key_not_default (0 + i)). }
  assert (bool_decide (db = ∅)
          = forallb (fun fname => negb (endswith (lower fname) ".fbx")) listing)
    as ->.
  { destruct (forallb _ listing) eqn:Hall.
    - apply bool_decide_eq_true_2. apply map_eq. intros k.
      rewrite lookup_empty. unfold db. rewrite scan_miss; [done |].
      intros i f Hi Hf _. rewrite forallb_forall in Hall.
      apply list_elem_of_lookup_2, list_elem_of_In, Hall in Hi.
      by rewrite Hf in Hi.
    - apply bool_decide_eq_false_2. intros Hempty.
      apply not_true_iff_false in Hall. apply Hall.
      apply forallb_forall. intros f Hf.
      apply list_elem_of_In, list_elem_of_lookup_1 in Hf as [i Hi].
      specialize (Hin i f Hi). rewrite Hempty, lookup_empty in Hin.
      by destruct (endswith (lower f) ".fbx"). }
  destruct (forallb _ listing && standard_run_exists m) eqn:Hcase.
  - split; [| split].
    + intros idx fname Hidx. rewrite lookup_insert_ne by
        (intros Heq; by apply (motion_key_not_default idx)).
      by apply Hin.
    + intros idx Hidx. rewrite lookup_insert_ne by
        (intros Heq; by apply (motion_key_not_default idx)).
      by apply Hout.
    + apply lookup_insert_eq.
  - done.
Qed.
End LifespanFacts.


(* ===================================================================== *)
(** * The results on concrete inputs                                      *)
(* ===================================================================== *)

Section Runs.

Import Router RouterSpec Worker WorkerSpec Sample.

(** ** The dispatcher *)

Example create_app_dev : create_app "dev" = Some dev_app.
Proof. reflexivity. Qed.

Example create_app_prod_workers :
  worker_servers <$> create_app "prod"
  = Some ["http://localhost:9001"; "http://localhost:9002"; "http://localhost:9003"].
Proof. reflexivity. Qed.

(** The fourth of four dispatches goes to the first worker again. *)
Lemma round_robin_selection_witness :
  configure dev_pool = Some dev_app /\
  post_url <$> forwarded (dispatch_all four_calls (start dev_app)) !! 3%nat
  = Some "http://localhost:8001/animate".
Proof.
  split; [reflexivity |].
  apply (proj2 (proj2 (round_robin_selection dev_pool dev_app four_calls eq_refl))
           3%nat).
  simpl. lia.
Defined.

(** C2, as stated, fails: a request with the two required fields is
    accepted and the body forwarded is not the body received; a request
    for an animation that is not one of the five is refused by the
    dispatcher and nothing is forwarded. *)
Lemma forwarding_counterexample :
  (post_json <$> forwarded (snd (Router.post_animate worker_ok strict_bool strict_float
                                   minimal_request (start dev_app))) !! 0%nat
   = Some (model_dump minimal_payload) /\
   model_dump minimal_payload <> body minimal_request) /\
  Router.post_animate worker_ok strict_bool strict_float dancing_request (start dev_app)
  = (Raise (PyError (PyErr RequestValidationError "422")), start dev_app).
Proof. split; [split |]; [reflexivity | discriminate | reflexivity]. Qed.

(** The body forwarded for the minimal request: the fourteen fields. *)
Lemma dispatcher_validates_and_reserialises_witness :
  validate_AnimationRequest strict_bool strict_float (body minimal_request)
  = Some minimal_payload /\
  forwarded (snd (Router.post_animate worker_ok strict_bool strict_float
                    minimal_request (start dev_app)))
  = [ mkPost "http://localhost:8001/animate" (model_dump minimal_payload)
             [("Content-Type", "application/json"); ("x-api-key", "secret")]
             WORKER_TIMEOUT ].
Proof.
  split; [reflexivity |].
  apply (proj1 (proj2 (proj2
           (dispatcher_validates_and_reserialises worker_ok strict_bool
              strict_float minimal_request (start dev_app))))
           minimal_payload "http://localhost:8001"
           (snd (cycle_next (server_cycle dev_app))));
    reflexivity.
Defined.

(** C4, as stated, fails: a connection that times out leaves the
    handler as an exception, not as a 502. *)
Lemma bad_gateway_counterexample :
  fst (route_animation_request worker_connect_timeout minimal_payload
         minimal_request (start dev_app))
  = Raise (PyError (PyErr ConnectTimeout "timed out")) /\
  forall detail,
    fst (route_animation_request worker_connect_timeout minimal_payload
           minimal_request (start dev_app))
    <> Raise (HTTPException 502 detail).
Proof. split; [reflexivity | discriminate]. Qed.

Lemma unexpected_failure_propagates_witness :
  err_class (PyErr RemoteProtocolError "Server disconnected") <> ConnectError /\
  err_class (PyErr RemoteProtocolError "Server disconnected") <> ReadTimeout /\
  fst (route_animation_request
         (fun _ => Failed (PyErr RemoteProtocolError "Server disconnected"))
         minimal_payload minimal_request (start dev_app))
  = Raise (PyError (PyErr RemoteProtocolError "Server disconnected")).
Proof.
  split; [discriminate |]. split; [discriminate |].
  apply (unexpected_failure_propagates
           (fun _ => Failed (PyErr RemoteProtocolError "Server disconnected"))
           minimal_payload minimal_request (start dev_app)
           "http://localhost:8001" (snd (cycle_next (server_cycle dev_app)))
           (PyErr RemoteProtocolError "Server disconnected"));
    [reflexivity | reflexivity | discriminate | discriminate].
Defined.

Lemma worker_error_detail_relay_witness :
  fst (route_animation_request worker_failing_plain minimal_payload
         minimal_request (start dev_app))
  = Raise (HTTPException 500
             (JStr "An unknown error occurred on the worker server.")) /\
  fst (route_animation_request worker_failing minimal_payload
         minimal_request (start dev_app))
  = Raise (HTTPException 500 (JStr "Pipeline failed: boom")).
Proof.
  split.
  - apply (proj1 (worker_error_detail_relay worker_failing_plain minimal_payload
                    minimal_request (start dev_app) "http://localhost:8001"
                    (snd (cycle_next (server_cycle dev_app))) 500
                    [("error", JStr "boom")] eq_refl eq_refl eq_refl)).
    reflexivity.
  - apply (proj1 (proj2 (worker_error_detail_relay worker_failing
                    minimal_payload minimal_request (start dev_app)
                    "http://localhost:8001"
                    (snd (cycle_next (server_cycle dev_app))) 500
                    [("detail", JStr "Pipeline failed: boom")]
                    eq_refl eq_refl eq_refl))).
    reflexivity.
Defined.

(** ** The worker *)

Example animate_on_the_sample_machine :
  fst (post_animate machine strict_bool strict_float (Some "secret") None no_fingers_body boot)
  = Ok (JObj [ ("mesh_base64", JStr "Z2xURi1hbmltYXRlZA==");
               ("gif_base64", JNull);
               ("thumbnail_base64", JStr "UE5H") ]).
Proof. vm_compute. reflexivity. Qed.

(** A mesh of an unknown format, an empty one, a string that is not
    base64, and an animation whose file is not in the library. *)
Example animate_unknown_format :
  post_animate machine strict_bool strict_float (Some "secret") None
    (body_for "c29saWQ=" "running") boot
  = (Raise (HTTPException 400
              (JStr "Unsupported mesh format. Supported: .glb or .fbx")),
     mkWorld disk
       {[ ("x-api-key", "secret")
          := (JObj [("email", JStr "ann@example.com")], 1300) ]}
       1000
       [EvGet "https://api.csm.ai/user/userdata" "x-api-key" "secret"]).
Proof. vm_compute. reflexivity. Qed.

Example animate_empty_mesh :
  fst (post_animate machine strict_bool strict_float (Some "secret") None
         (body_for "" "running") boot)
  = Raise (HTTPException 400 (JStr empty_mesh_detail)).
Proof. vm_compute. reflexivity. Qed.

Example animate_not_base64 :
  fst (post_animate machine strict_bool strict_float (Some "secret") None
         (body_for "###" "running") boot)
  = Raise (HTTPException 500 (JStr "Pipeline failed: Incorrect padding")).
Proof. vm_compute. reflexivity. Qed.

(** A body that does not validate is answered 422, after the gate. *)
Example animate_invalid_body :
  fst (post_animate machine strict_bool strict_float (Some "secret") None
         (body_for "Z2xURg==" "dancing") boot)
  = Raise (PyError (PyErr RequestValidationError "422")) /\
  fst (post_animate machine strict_bool strict_float None None (body_for "Z2xURg==" "dancing") boot)
  = Raise (HTTPException 401 (JStr "Missing auth header")).
Proof. split; vm_compute; reflexivity. Qed.

Example animate_missing_animation :
  fst (post_animate machine strict_bool strict_float (Some "secret") None
         (body_for "Z2xURg==" "jumping") boot)
  = Raise (HTTPException 404
             (JStr "Animation file not found: /project/animation-fbx-files/jumping.fbx")).
Proof. vm_compute. reflexivity. Qed.

(** C3, as stated, fails: the request asks for the fingers to be
    removed and the pipeline is told not to; and the animation file it
    is given is not the one whose existence was checked. *)
Lemma option_bundle_counterexample :
  validate_AnimationRequest strict_bool strict_float no_fingers_body
  = Some no_fingers_payload /\
  exists args,
    In (EvVisBlender args)
       (log (snd (post_animate machine strict_bool strict_float (Some "secret") None
                    no_fingers_body boot))) /\
    vb_remove_fingers args <> no_fingers no_fingers_payload /\
    vb_animation_file args
    <> path_str (animation_file_path machine no_fingers_payload).
Proof.
  split; [reflexivity |]. eexists. split.
  - vm_compute. do 7 right. left. reflexivity.
  - split; vm_compute; discriminate.
Qed.

Lemma pipeline_options_are_fixed_witness :
  mesh_b64_str minimal_payload = mesh_b64_str no_fingers_payload /\
  animation_name minimal_payload = animation_name no_fingers_payload /\
  animate machine minimal_payload boot = animate machine no_fingers_payload boot.
Proof.
  split; [reflexivity |]. split; [reflexivity |].
  apply (proj2 (pipeline_options_are_fixed machine no_fingers_payload boot)
           minimal_payload); reflexivity.
Defined.

(** C7, as stated, fails: a request with both headers is served. *)
Lemma both_headers_counterexample :
  truthy (Some "secret") = true /\ truthy (Some "Bearer nobody") = true /\
  fst (post_animate machine strict_bool strict_float (Some "secret")
         (Some "Bearer nobody") no_fingers_body boot)
  = Ok (JObj [ ("mesh_base64", JStr "Z2xURi1hbmltYXRlZA==");
               ("gif_base64", JNull); ("thumbnail_base64", JStr "UE5H") ]).
Proof. repeat split; vm_compute; reflexivity. Qed.

Lemma credential_gate_witness :
  truthy None = false /\ truthy (Some "") = false /\
  post_animate machine strict_bool strict_float None (Some "") no_fingers_body boot
  = (Raise (HTTPException 401 (JStr "Missing auth header")), boot).
Proof.
  split; [reflexivity |]. split; [reflexivity |].
  apply (proj1 (credential_gate machine strict_bool strict_float
                  no_fingers_body boot) None (Some ""));
    reflexivity.
Defined.

Lemma mesh_signature_classification_witness :
  glTF `prefix_of` String.list_byte_of_string "glTF-binary" /\
  mesh_ext (String.list_byte_of_string "glTF-binary") = Some ".glb" /\
  Kaydara_FBX `prefix_of` String.list_byte_of_string "Kaydara FBX Binary" /\
  mesh_ext (String.list_byte_of_string "Kaydara FBX Binary") = Some ".fbx" /\
  _prepare_input_memory machine (String.list_byte_of_string "solid cube") None boot
  = (Raise (HTTPException 400
              (JStr "Unsupported mesh format. Supported: .glb or .fbx")), boot).
Proof.
  assert (glTF `prefix_of` String.list_byte_of_string "glTF-binary") as Hg
    by (exists (String.list_byte_of_string "-binary"); reflexivity).
  assert (Kaydara_FBX `prefix_of` String.list_byte_of_string "Kaydara FBX Binary")
    as Hk by (exists (String.list_byte_of_string " Binary"); reflexivity).
  split; [exact Hg |]. split.
  { exact (proj1 (proj2 (mesh_signature_classification machine _ None boot)) Hg). }
  split; [exact Hk |]. split.
  { exact (proj1 (proj2 (proj2
             (mesh_signature_classification machine _ None boot))) Hk). }
  apply (proj1 (proj2 (proj2 (proj2
           (mesh_signature_classification machine
              (String.list_byte_of_string "solid cube") None boot))))).
  - discriminate.
  - intros [k Hk']. discriminate Hk'.
  - intros [k Hk']. discriminate Hk'.
Defined.

(** The sample machine's later stages put no file at the scratch path. *)
Lemma length_append (s t : string) :
  String.length (s +:+ t) = (String.length s + String.length t)%nat.
Proof. induction s as [| a s IH]; simpl; [done | by rewrite IH]. Qed.

Lemma machine_keeps_scratch :
  later_stages_keep machine ["dev"; "shm"; "tmpab12cd.glb"].
Proof.
  unfold later_stages_keep, keeps_no_file. simpl.
  repeat split; try done.
  - intros _ _ fs0 H. unfold isfile in *. by rewrite lookup_insert_ne.
  - intros glb fs0 H. unfold isfile in *. rewrite lookup_insert_ne; [done |].
    unfold thumbnail_output_path. intros Heq.
    change ["dev"; "shm"; "tmpab12cd.glb"]
      with (["dev"; "shm"] ++ ["tmpab12cd.glb"])%list in Heq.
    apply app_inj_tail in Heq as [_ Heq].
    apply (f_equal String.length) in Heq.
    rewrite length_append in Heq. simpl in Heq. lia.
Qed.

(** With [/dev/shm] full the request is answered 500 and the scratch
    file stays, without an [unlink]; on the sample machine, where the
    write succeeds, the file and the render directory are gone. *)
Lemma failed_write_leaves_the_scratch_file_witness :
  (exists_ (fs boot) (animation_file_path machine_full_shm no_fingers_payload)
   = true /\
   base64_b64decode machine_full_shm (mesh_b64_str no_fingers_payload)
   = inr (String.list_byte_of_string "glTF") /\
   mesh_ext (String.list_byte_of_string "glTF") = Some ".glb" /\
   fs boot !! ["dev"; "shm"; "tmpab12cd.glb"] = None /\
   fst (animate machine_full_shm no_fingers_payload boot)
   = Raise (HTTPException 500
              (JStr "Mesh preparation failed: [Errno 28] No space left on device")) /\
   isfile (fs (snd (animate machine_full_shm no_fingers_payload boot)))
     ["dev"; "shm"; "tmpab12cd.glb"] = true /\
   log (snd (animate machine_full_shm no_fingers_payload boot))
   = [EvMkTemp ["dev"; "shm"; "tmpab12cd.glb"]]) /\
  later_stages_keep machine ["dev"; "shm"; "tmpab12cd.glb"] /\
  isfile (fs (snd (animate machine no_fingers_payload boot)))
    ["dev"; "shm"; "tmpab12cd.glb"] = false /\
  isdir (fs (snd (animate machine no_fingers_payload boot)))
    ["tmp"; "out"; "anim_render_output"] = false.
Proof.
  split.
  - split; [vm_compute; reflexivity |]. split; [vm_compute; reflexivity |].
    split; [vm_compute; reflexivity |]. split; [vm_compute; reflexivity |].
    rewrite (proj1 (failed_write_leaves_the_scratch_file machine_full_shm
                      no_fingers_payload boot)
               (String.list_byte_of_string "glTF") ".glb"
               (PyErr OSError "[Errno 28] No space left on device") []
               ltac:(vm_compute; reflexivity)
               ltac:(vm_compute; reflexivity)
               ltac:(vm_compute; reflexivity)
               ltac:(vm_compute; reflexivity)
               ltac:(vm_compute; reflexivity)).
    split; [reflexivity |]. split; vm_compute; reflexivity.
  - split; [exact machine_keeps_scratch |].
    destruct (proj1 (proj2 (failed_write_leaves_the_scratch_file machine
                              no_fingers_payload boot)))
      as (evs & Hlog & Hscratch & Hdir).
    vm_compute in Hlog. subst evs. split.
    + apply Hscratch; [simpl; tauto | simpl; tauto | exact machine_keeps_scratch].
    + apply (Hdir ["tmp"; "out"; "anim_render_output"; "frames"]).
      simpl. tauto.
Defined.

Lemma machine_renderers_keep : renderers_keep machine glb_out.
Proof.
  split; intros fs0; simpl; [| done]. by rewrite lookup_insert_ne.
Qed.

(** The frame renderer raises on the sample machine, and the answer is
    a success with the thumbnail and with [null] for the GIF. *)
Lemma previews_are_best_effort_witness :
  exists_ (fs boot) (animation_file_path machine no_fingers_payload) = true /\
  fst (pipeline_step machine no_fingers_payload boot) = Ok (Some glb_out) /\
  renderers_keep machine glb_out /\
  fst (animate machine no_fingers_payload boot)
  = Ok (JObj [ ("mesh_base64",
                JStr (b64encode (String.list_byte_of_string "glTF-animated")));
               ("gif_base64", JNull);
               ("thumbnail_base64",
                JStr (b64encode (String.list_byte_of_string "PNG"))) ]).
Proof.
  split; [vm_compute; reflexivity |]. split; [vm_compute; reflexivity |].
  split; [exact machine_renderers_keep |].
  destruct (proj1 (previews_are_best_effort machine no_fingers_payload boot
                     (snd (pipeline_step machine no_fingers_payload boot))
                     (Some glb_out) glb_out
                     (String.list_byte_of_string "glTF-animated")
                     ltac:(vm_compute; reflexivity)
                     ltac:(vm_compute; reflexivity)
                     eq_refl
                     ltac:(vm_compute; reflexivity)
                     machine_renderers_keep))
    as (gif & thumb & Hanswer & Hthumb & _ & _ & Hframes & _).
  rewrite Hanswer, Hthumb, Hframes.
  - vm_compute. reflexivity.
  - intros fs0. eexists. exists fs0. reflexivity.
Defined.

(** On the machine that revokes the key at 1400 the service is not
    constant, yet consistent within the windows of the run: the second
    verification falls in the window the first has opened, and the
    fourth comes after it has closed.  The outcomes are those without
    the cache. *)
Lemma cache_preserves_outcomes_witness :
  consistent_within_windows machine_revoking ∅ verifications /\
  fetched machine_revoking 1500 "x-api-key" "secret"
  <> fetched machine_revoking 1000 "x-api-key" "secret" /\
  cache boot = ∅ /\
  in_order (clock boot) verifications /\
  fst (verify_all (_verify_api_key machine_revoking) verifications boot)
  = fst (verify_all (verify_without_cache machine_revoking) verifications boot).
Proof.
  assert (consistent_within_windows machine_revoking ∅ verifications) as Hcons
    by (vm_compute; repeat split; reflexivity).
  split; [exact Hcons |].
  split; [vm_compute; discriminate |].
  split; [reflexivity |].
  assert (in_order (clock boot) verifications) as Horder
    by (simpl; repeat split; lia).
  split; [exact Horder |].
  exact (proj1 (cache_preserves_outcomes machine_revoking boot verifications
                  Hcons eq_refl Horder)).
Defined.

Example verifications_on_the_revoking_machine :
  fst (verify_all (_verify_api_key machine_revoking) verifications boot)
  = [ Ok (JObj [("email", JStr "ann@example.com")]);
      Ok (JObj [("email", JStr "ann@example.com")]);
      Raise (HTTPException 403 (JStr "Invalid credentials"));
      Raise (HTTPException 403 (JStr "Invalid credentials")) ].
Proof. vm_compute. reflexivity. Qed.

Example verifications_on_the_sample_machine :
  fst (verify_all (_verify_api_key machine) verifications boot)
  = [ Ok (JObj [("email", JStr "ann@example.com")]);
      Ok (JObj [("email", JStr "ann@example.com")]);
      Raise (HTTPException 403 (JStr "Invalid credentials"));
      Ok (JObj [("email", JStr "ann@example.com")]) ] /\
  log (snd (verify_all (_verify_api_key machine) verifications boot))
  = [ EvGet "https://api.csm.ai/user/userdata" "x-api-key" "secret";
      EvGet "https://api.csm.ai/user/userdata" "Authorization" "Bearer nobody";
      EvGet "https://devapi.csm.ai/user/userdata" "Authorization" "Bearer nobody";
      EvGet "https://api.csm.ai/user/userdata" "x-api-key" "secret" ].
Proof. split; vm_compute; reflexivity. Qed.

End Runs.

(* ===================================================================== *)
(** * Further results on concrete inputs                                 *)
(* ===================================================================== *)

Section MoreRuns.

Import Router RouterSpec Worker WorkerSpec WorkerFacts Sample.

(** ** The dispatcher *)

(** The fourth of four calls is the exact call to the first worker. *)
Lemma forwarded_calls_exact_witness :
  configure dev_pool = Some dev_app /\
  forwarded (dispatch_all four_calls (start dev_app)) !! 3%nat
  = Some (mkPost "http://localhost:8001/animate" (model_dump minimal_payload)
            [("Content-Type", "application/json"); ("x-api-key", "secret")]
            WORKER_TIMEOUT).
Proof.
  split; [reflexivity |].
  destruct (proj2 (forwarded_calls_exact dev_pool dev_app four_calls eq_refl)
              3%nat worker_ok minimal_payload minimal_request eq_refl)
    as (worker_url & Hworker & ->).
  injection Hworker as <-. reflexivity.
Defined.

(** The refused request takes no turn: the one after it goes to the
    first worker. *)
Lemma invalid_requests_take_no_turn_witness :
  configure dev_pool = Some dev_app /\
  accepted strict_bool strict_float two_requests
  = [(worker_ok, minimal_payload, minimal_request)] /\
  post_url <$> forwarded (serve_all strict_bool strict_float two_requests
                            (start dev_app)) !! 0%nat
  = Some "http://localhost:8001/animate".
Proof.
  split; [reflexivity |]. split; [reflexivity |].
  exact (proj2 (invalid_requests_take_no_turn strict_bool strict_float
                  dev_pool dev_app two_requests eq_refl)
           0%nat worker_ok minimal_payload minimal_request eq_refl).
Defined.

Lemma health_reports_the_configured_pool_witness :
  configure dev_pool = Some dev_app /\
  health_check (app (serve_all strict_bool strict_float two_requests
                       (start dev_app)))
  = JObj [ ("status", JStr "ok");
           ("message", JStr "Router is active.");
           ("configured_workers",
            JArr [ JStr "http://localhost:8001"; JStr "http://localhost:8002";
                   JStr "http://localhost:8003" ]) ].
Proof.
  split; [reflexivity |].
  exact (health_reports_the_configured_pool strict_bool strict_float
           dev_pool dev_app two_requests eq_refl).
Defined.

Lemma only_worker_successes_are_returned_witness :
  cycle_next (server_cycle (app (start dev_app)))
  = (Some "http://localhost:8001", snd (cycle_next (server_cycle dev_app))) /\
  fst (route_animation_request worker_ok minimal_payload minimal_request
         (start dev_app))
  = Ok (200, JObj [ ("mesh_base64", JStr "Z2xURg==");
                    ("gif_base64", JNull);
                    ("thumbnail_base64", JNull) ]) /\
  forall content,
    fst (route_animation_request worker_failing minimal_payload minimal_request
           (start dev_app))
    <> Ok (500, content).
Proof.
  split; [reflexivity |]. split.
  - apply (proj2 (only_worker_successes_are_returned worker_ok minimal_payload
                    minimal_request (start dev_app) "http://localhost:8001"
                    (snd (cycle_next (server_cycle dev_app))) 200 _ eq_refl)).
    split; reflexivity.
  - intros content H.
    apply (proj1 (only_worker_successes_are_returned worker_failing
                    minimal_payload minimal_request (start dev_app)
                    "http://localhost:8001"
                    (snd (cycle_next (server_cycle dev_app))) 500 content
                    eq_refl)) in H.
    destruct H as [_ H]. discriminate H.
Defined.

(** ** The worker *)


(** The user fetched at 1000 is answered from the cache at 1299, and
    the service is asked again at 1300. *)
Lemma cached_answer_lives_300_seconds_witness :
  cache_get ("x-api-key", "secret") boot = None /\
  fst (_fetch_user_data_from_api machine "x-api-key" "secret" boot)
  = Ok (JObj [("email", JStr "ann@example.com")]) /\
  JObj [("email", JStr "ann@example.com")] <> JNull /\
  _fetch_user_data_from_api machine "x-api-key" "secret"
    (set_clock 1299
       (snd (_fetch_user_data_from_api machine "x-api-key" "secret" boot)))
  = (Ok (JObj [("email", JStr "ann@example.com")]),
     set_clock 1299
       (snd (_fetch_user_data_from_api machine "x-api-key" "secret" boot))) /\
  exists evs,
    log (snd (_fetch_user_data_from_api machine "x-api-key" "secret"
                (set_clock 1300
                   (snd (_fetch_user_data_from_api machine "x-api-key" "secret"
                           boot)))))
    = (log (snd (_fetch_user_data_from_api machine "x-api-key" "secret" boot))
       ++ EvGet primary_endpoint "x-api-key" "secret" :: evs)%list.
Proof.
  split; [reflexivity |]. split; [reflexivity |]. split; [discriminate |].
  pose proof (cached_answer_lives_300_seconds machine "x-api-key" "secret" boot
                (snd (_fetch_user_data_from_api machine "x-api-key" "secret" boot))
                (JObj [("email", JStr "ann@example.com")])
                eq_refl eq_refl ltac:(discriminate)) as [Hhit Hmiss].
  split.
  - apply Hhit. simpl. lia.
  - apply Hmiss. simpl. lia.
Defined.

Lemma failed_thumbnail_skips_the_frames_witness :
  exists_ (fs boot)
    (animation_file_path machine_without_thumbnail no_fingers_payload) = true /\
  fst (pipeline_step machine_without_thumbnail no_fingers_payload boot)
  = Ok (Some glb_out) /\
  isfile (fs (snd (pipeline_step machine_without_thumbnail no_fingers_payload
                     boot))) glb_out = true /\
  exists mesh thumb evs,
    fst (animate machine_without_thumbnail no_fingers_payload boot)
    = Ok (JObj [ ("mesh_base64", mesh); ("gif_base64", JNull);
                 ("thumbnail_base64", thumb) ]) /\
    log (snd (animate machine_without_thumbnail no_fingers_payload boot))
    = (log (snd (pipeline_step machine_without_thumbnail no_fingers_payload
                   boot)) ++ evs)%list /\
    forall g d, ~ In (EvRenderFrames g d) evs.
Proof.
  split; [vm_compute; reflexivity |]. split; [vm_compute; reflexivity |].
  split; [vm_compute; reflexivity |].
  apply (failed_thumbnail_skips_the_frames machine_without_thumbnail
           no_fingers_payload boot
           (snd (pipeline_step machine_without_thumbnail no_fingers_payload boot))
           (Some glb_out) glb_out
           ltac:(vm_compute; reflexivity)
           ltac:(vm_compute; reflexivity)
           eq_refl
           ltac:(vm_compute; reflexivity)).
  intros fs0. eexists. exists fs0. reflexivity.
Defined.

(** On the sample machine the thumbnail is encoded into the answer and
    is gone afterwards; the animated mesh stays. *)
Lemma previews_are_removed_and_the_artifact_is_kept_witness :
  exists_ (fs boot) (animation_file_path machine no_fingers_payload) = true /\
  fst (pipeline_step machine no_fingers_payload boot) = Ok (Some glb_out) /\
  isdir (fs (snd (render_previews machine glb_out
                    (snd (pipeline_step machine no_fingers_payload boot)))))
    (render_output_dir glb_out) = true /\
  fs (snd (animate machine no_fingers_payload boot))
    !! ["tmp"; "out"; "anim_render_output"; "anim_thumbnail.png"] = None /\
  fs (snd (animate machine no_fingers_payload boot)) !! glb_out
  = Some (File (String.list_byte_of_string "glTF-animated")).
Proof.
  split; [vm_compute; reflexivity |]. split; [vm_compute; reflexivity |].
  split; [vm_compute; reflexivity |].
  pose proof (previews_are_removed_and_the_artifact_is_kept machine
                no_fingers_payload boot
                (snd (pipeline_step machine no_fingers_payload boot))
                (snd (render_previews machine glb_out
                        (snd (pipeline_step machine no_fingers_payload boot))))
                (Some glb_out) glb_out
                (fst (render_previews machine glb_out
                        (snd (pipeline_step machine no_fingers_payload boot))))
                ltac:(vm_compute; reflexivity)
                ltac:(vm_compute; reflexivity)
                eq_refl
                ltac:(vm_compute; reflexivity)
                ltac:(vm_compute; reflexivity)
                ltac:(vm_compute; reflexivity))
    as (Hthumb & _ & _ & Hglb).
  split; [exact Hthumb |].
  rewrite Hglb. vm_compute. reflexivity.
Defined.


(** A pipeline that returns without an artifact. *)
Example animate_without_artifact :
  fst (animate machine_without_artifact no_fingers_payload boot)
  = Raise (HTTPException 500 (JStr "No GLB file was produced.")).
Proof. vm_compute. reflexivity. Qed.

(** ** The launcher, the job handler, the start *)

Lemma launched_router_forwards_to_the_launched_workers_witness :
  fst (Launcher.main (fun _ _ => true) (Some "prod")) = None /\
  exists config a,
    Launcher.config_of Launcher.CONFIG_MAPPING "prod" = Some config /\
    Launcher.config_of Killer.CONFIG_MAPPING "prod" = Some config /\
    snd (Launcher.main (fun _ _ => true) (Some "prod"))
    = (Launcher.worker_steps config ++
       [Launcher.Slept 3;
        Launcher.Started
          (Launcher.router_process (Launcher.router_port config) "prod")])%list /\
    create_app "prod" = Some a /\
    worker_servers a
    = (fun port => "http://localhost:" +:+ pretty port)
        <$> Launcher.worker_ports config /\
    NoDup (Launcher.router_port config :: Launcher.worker_ports config).
Proof.
  split; [reflexivity |].
  exact (launched_router_forwards_to_the_launched_workers (fun _ _ => true)
           (Some "prod") _ eq_refl).
Defined.

Example launch_dev :
  Launcher.main (fun _ _ => true) None
  = (None,
     [ Launcher.Started
         (Launcher.mkProcess ["python"; "server.py"; "--port"; "8001"] (Some "5"));
       Launcher.Started
         (Launcher.mkProcess ["python"; "server.py"; "--port"; "8002"] (Some "6"));
       Launcher.Started
         (Launcher.mkProcess ["python"; "server.py"; "--port"; "8003"] (Some "7"));
       Launcher.Slept 3;
       Launcher.Started
         (Launcher.mkProcess
            ["python"; "router.py"; "--port"; "8000"; "--env"; "dev"] None) ]).
Proof. vm_compute. reflexivity. Qed.

Lemma mesh_extension_of_a_url_witness :
  JobHandler.contains "." "glb" = false /\
  JobHandler.contains "?" "glb" = false /\
  JobHandler.mesh_extension "https://cdn.example.com/meshes/purpleguy.glb?sig=abc"
  = "glb".
Proof.
  split; [reflexivity |]. split; [reflexivity |].
  exact (proj1 (mesh_extension_of_a_url "https://cdn.example.com/meshes/purpleguy"
                  "glb" "?sig=abc" eq_refl eq_refl
                  (or_intror (ex_intro _ "sig=abc" (conj eq_refl eq_refl))))).
Defined.

(** A dot in the query string is taken for the dot of the extension. *)
Example mesh_extension_with_a_dotted_query :
  JobHandler.mesh_extension "https://cdn.example.com/purpleguy.glb?v=1.2" = "2".
Proof. reflexivity. Qed.

Lemma scanned_table_has_one_entry_per_fbx_file_witness :
  (forall pickled, Lifespan.animation_pkl startup <> Some (inr pickled)) /\
  Lifespan.data_listing startup = Some listing /\
  Lifespan.lifespan lower startup ∅ !! Lifespan.motion_key 0
  = Some (Lifespan.motion "./data/Run.FBX" "Run") /\
  Lifespan.lifespan lower startup ∅ !! Lifespan.motion_key 1 = None /\
  Lifespan.lifespan lower startup ∅ !! "default" = None.
Proof.
  assert (forall pickled, Lifespan.animation_pkl startup <> Some (inr pickled))
    as Hpkl by (intros pickled; discriminate).
  split; [exact Hpkl |]. split; [reflexivity |].
  destruct (scanned_table_has_one_entry_per_fbx_file lower startup listing
              Hpkl eq_refl) as (Hin & _ & Hdefault).
  split; [exact (Hin 0%nat "Run.FBX" eq_refl) |].
  split; [exact (Hin 1%nat "notes.txt" eq_refl) |].
  exact Hdefault.
Defined.

End MoreRuns.
